(** * SpotifyMusicExplorer: the data-merging and query layer

    A shallow embedding of [utils/data_processing.py] (the loader
    [load_all_data] and the five query functions) together with the start-up
    lines of [app.py] that consume the loader's result.

    The program is written against pandas.  A [DataFrame] is modelled
    row-wise: a list of column labels and a list of rows, every row a list of
    cells aligned with the labels.  A cell is a missing marker ([NaN], the
    float nan that [read_csv] and [merge] produce, or [PyNone], Python's
    [None], which line 28 of the loader stores), a number or a string.
    Numbers are exact rationals ([Q]): the claims checked here speak about
    row counts, orderings and predicates, never about rounding.

    Python exceptions are modelled by the [result] type: a call either
    returns a value or raises. *)

From Stdlib Require Import String Ascii ZArith QArith Qreduction Bool Lia.
From Stdlib Require Import List.
From Stdlib Require Import Permutation Sorted.
Import ListNotations.

Open Scope string_scope.
Open Scope list_scope.

(* ================================================================== *)
(** ** Cells, exceptions, results *)

Inductive cell : Type :=
| NaN
| PyNone
| Num (q : Q)
| Str (s : string).

(** [pd.isna] *)
Definition isna (c : cell) : bool :=
  match c with
  | NaN | PyNone => true
  | _ => false
  end.

Inductive exn : Type :=
| FileNotFoundError (path : string)
| KeyError (msg : string)
| TypeError
| ValueError
| MergeError.

Inductive result (A : Type) : Type :=
| Returned (a : A)
| Raised (e : exn).

Arguments Returned {A} a.
Arguments Raised {A} e.

Definition bind {A B : Type} (m : result A) (k : A -> result B) : result B :=
  match m with
  | Returned a => k a
  | Raised e => Raised e
  end.

Notation "x <- m ;; k" := (bind m (fun x => k))
  (at level 61, m at next level, right associativity).

(** Map a raising function over a list, left to right; the first exception
    wins. *)
Fixpoint mapM {A B : Type} (f : A -> result B) (l : list A) : result (list B) :=
  match l with
  | [] => Returned []
  | a :: t =>
      b <- f a ;;
      bs <- mapM f t ;;
      Returned (b :: bs)
  end.

(* ================================================================== *)
(** ** DataFrames *)

Definition row := list cell.

Record DataFrame : Type := mkDF {
  columns : list string;
  rows : list row
}.

(** [pd.DataFrame()] *)
Definition pd_DataFrame : DataFrame := mkDF [] [].

(** [df.empty]: some axis has length 0. *)
Definition empty (df : DataFrame) : bool :=
  match columns df, rows df with
  | [], _ => true
  | _, [] => true
  | _, _ => false
  end.

(** [name in df.columns] *)
Definition has_col (name : string) (df : DataFrame) : bool :=
  existsb (String.eqb name) (columns df).

(** Position of the first column carrying a label. *)
Fixpoint index_of (name : string) (cols : list string) : option nat :=
  match cols with
  | [] => None
  | c :: t =>
      if String.eqb name c then Some 0%nat
      else option_map S (index_of name t)
  end.

Definition col_pos (name : string) (df : DataFrame) : nat :=
  match index_of name (columns df) with
  | Some i => i
  | None => length (columns df)
  end.

(** The cell of a row at a position; a short row reads as padded with NaN,
    as [read_csv] pads short lines. *)
Definition cell_at (i : nat) (r : row) : cell := nth i r NaN.

Definition row_at (idxs : list nat) (r : row) : row :=
  map (fun i => cell_at i r) idxs.

(** [row[name]] for a row of [df] *)
Definition get (df : DataFrame) (name : string) (r : row) : cell :=
  cell_at (col_pos name df) r.

(** [df[name]] as a Series *)
Definition column (df : DataFrame) (name : string) : list cell :=
  map (get df name) (rows df).

(** [df.rename(columns={old: new})] *)
Definition rename (old new : string) (df : DataFrame) : DataFrame :=
  mkDF (map (fun c => if String.eqb c old then new else c) (columns df))
       (rows df).

Fixpoint set_nth {A : Type} (i : nat) (v : A) (l : list A) : list A :=
  match i, l with
  | _, [] => []
  | O, _ :: t => v :: t
  | S j, x :: t => x :: set_nth j v t
  end.

(** [df[name] = vals], [vals] already aligned with the rows of [df]: an
    existing column is overwritten, a new one is appended on the right. *)
Definition set_column (df : DataFrame) (name : string) (vals : list cell)
  : DataFrame :=
  match index_of name (columns df) with
  | Some i =>
      mkDF (columns df)
           (map (fun rv => set_nth i (snd rv) (fst rv))
                (combine (rows df) vals))
  | None =>
      mkDF (columns df ++ [name])
           (map (fun rv =>
                   row_at (seq 0 (length (columns df))) (fst rv) ++ [snd rv])
                (combine (rows df) vals))
  end.

(** [df[name] = scalar] *)
Definition set_column_scalar (df : DataFrame) (name : string) (v : cell)
  : DataFrame :=
  set_column df name (repeat v (length (rows df))).

(** [df[name] = series]: aligned on the default integer index, positions the
    series does not cover become NaN. *)
Definition set_column_series (df : DataFrame) (name : string)
           (series : list cell) : DataFrame :=
  set_column df name
    (map (fun i => nth i series NaN) (seq 0 (length (rows df)))).

(** Boolean-mask indexing [df[mask]] on a list of rows. *)
Fixpoint select_rows (mask : list bool) (rs : list row) : list row :=
  match mask, rs with
  | b :: m, r :: t => if b then r :: select_rows m t else select_rows m t
  | _, _ => []
  end.

Definition select (df : DataFrame) (mask : list bool) : DataFrame :=
  mkDF (columns df) (select_rows mask (rows df)).

(** [df.head(n)]: the first [n] rows; for negative [n], all but the last
    [-n] rows. *)
Definition head {A : Type} (n : Z) (l : list A) : list A :=
  if (0 <=? n)%Z then firstn (Z.to_nat n) l
  else firstn (length l - Z.to_nat (- n)) l.

(* ================================================================== *)
(** ** Labels carried by several columns *)

(** pandas allows several columns under one label; [rename] in the loader
    can produce them.  [df[name]] is then a frame of all these columns
    instead of a Series, and an operation that needs one column per label
    fails. *)
Fixpoint positions_from (start : nat) (name : string) (cols : list string)
  : list nat :=
  match cols with
  | [] => []
  | c :: t =>
      if String.eqb name c then start :: positions_from (S start) name t
      else positions_from (S start) name t
  end.

(** The positions of the columns carrying a label. *)
Definition positions (name : string) (df : DataFrame) : list nat :=
  positions_from 0 name (columns df).

(** The label is carried by exactly one column. *)
Definition unique_label (name : string) (df : DataFrame) : bool :=
  Nat.eqb (length (positions name df)) 1.

(** [df[[name, ...]]]: every column carrying one of the labels, label by
    label; a label no column carries is a [KeyError]. *)
Definition getitem_list (df : DataFrame) (names : list string)
  : result DataFrame :=
  if negb (forallb (fun n => has_col n df) names)
  then Raised (KeyError "not in index")
  else
    let idx := flat_map (fun n => positions n df) names in
    Returned (mkDF (map (fun i => nth i (columns df) "") idx)
                   (map (row_at idx) (rows df))).

(** A value read from a row by label: the cell, or the Series of the cells
    of all columns carrying the label when there are several. *)
Inductive pyvalue : Type :=
| ScalarValue (c : cell)
| SeriesValue (cells : list cell).

(** [row[name]] on a row Series (the result of [.iloc[0]]) *)
Definition row_getitem (df : DataFrame) (name : string) (r : row) : pyvalue :=
  match positions name df with
  | [i] => ScalarValue (cell_at i r)
  | idx => SeriesValue (row_at idx r)
  end.

(* ================================================================== *)
(** ** Comparing cells *)

(** Elementwise [series == scalar] against a number. *)
Definition cell_eq_num (c : cell) (x : Q) : bool :=
  match c with
  | Num q => Qeq_bool q x
  | _ => false
  end.

(** Elementwise [series.isin([...])] against strings. *)
Definition cell_isin (names : list string) (c : cell) : bool :=
  match c with
  | Str s => existsb (String.eqb s) names
  | _ => false
  end.

(** Equality of key values, as [merge] and [groupby] factorise them:
    missing markers form one class. *)
Definition key_eqb (a b : cell) : bool :=
  match a, b with
  | Num x, Num y => Qeq_bool x y
  | Str s, Str t => String.eqb s t
  | (NaN | PyNone), (NaN | PyNone) => true
  | _, _ => false
  end.

Fixpoint keys_eqb (a b : list cell) : bool :=
  match a, b with
  | [], [] => true
  | x :: a', y :: b' => key_eqb x y && keys_eqb a' b'
  | _, _ => false
  end.

(** The order in which group keys are listed: numbers before strings,
    missing markers last. *)
Definition cell_leb (a b : cell) : bool :=
  match a, b with
  | Num x, Num y => Qle_bool x y
  | Num _, Str _ => true
  | Str _, Num _ => false
  | Str s, Str t => String.leb s t
  | (NaN | PyNone), (NaN | PyNone) => true
  | (NaN | PyNone), _ => false
  | _, (NaN | PyNone) => true
  end.

Fixpoint keys_leb (a b : list cell) : bool :=
  match a, b with
  | [], _ => true
  | _ :: _, [] => false
  | x :: a', y :: b' =>
      if key_eqb x y then keys_leb a' b' else cell_leb x y
  end.

(* ================================================================== *)
(** ** Sorting *)

Section InsertionSort.
Context {A : Type}.
Variable before : A -> A -> bool.

(** [x] is placed in front of the first element it may precede. *)
Fixpoint insert (x : A) (l : list A) : list A :=
  match l with
  | [] => [x]
  | y :: t => if before x y then x :: y :: t else y :: insert x t
  end.

Fixpoint isort (l : list A) : list A :=
  match l with
  | [] => []
  | x :: t => insert x (isort t)
  end.
End InsertionSort.

(** Stable descending sort by a key, as [sort_values(ascending=False)] lays
    the rows out: the rows whose key is missing keep their order and go
    last; among the others, rows with equal keys keep their order.  Numbers
    and strings do not compare in Python, so a key column holding both
    raises. *)
Definition is_num (c : cell) : bool :=
  match c with Num _ => true | _ => false end.

Definition is_str (c : cell) : bool :=
  match c with Str _ => true | _ => false end.

Definition sort_values_desc {A : Type} (key : A -> cell) (l : list A)
  : result (list A) :=
  let non_nans := filter (fun a => negb (isna (key a))) l in
  let nans := filter (fun a => isna (key a)) l in
  if existsb (fun a => is_num (key a)) non_nans
     && existsb (fun a => is_str (key a)) non_nans
  then Raised TypeError
  else Returned (isort (fun a b => cell_leb (key b) (key a)) non_nans ++ nans).

(* ================================================================== *)
(** ** [pd.merge(..., how="left", suffixes=("", "_spotify"))] *)

Definition count_label (name : string) (cols : list string) : nat :=
  count_occ string_dec cols name.

(** [Index.duplicated()]: marks every occurrence of a label after its
    first. *)
Fixpoint duplicated (seen : list string) (l : list string) : list bool :=
  match l with
  | [] => []
  | x :: t => existsb (String.eqb x) seen :: duplicated (x :: seen) t
  end.

(** Labels of the right frame after suffixing those the left frame also
    carries; the left suffix is empty, so left labels stay as they are. *)
Definition suffix_overlap (left_cols right_cols : list string) : list string :=
  map (fun c =>
         if existsb (String.eqb c) left_cols
         then (c ++ "_spotify")%string else c)
      right_cols.

(** A label that became a duplicate through suffixing. *)
Definition new_duplicates (before after : list string) : bool :=
  existsb (fun p => negb (fst p) && snd p)
          (combine (duplicated [] before) (duplicated [] after)).

(** [shared] is the [on=keys] form, where each key is one column of the
    result; [shared = false] is the [left_on=/right_on=] form, where both key
    columns are kept.  Every left row yields, in order, one row per matching
    right row, or one row padded with NaN when nothing matches. *)
Definition merge_left (left right : DataFrame) (left_on right_on : list string)
           (shared : bool) : result DataFrame :=
  if negb (forallb (fun k => Nat.eqb (count_label k (columns left)) 1) left_on
           && forallb (fun k => Nat.eqb (count_label k (columns right)) 1)
                      right_on)
  then Raised ValueError
  else
    let lidx := map (fun k => col_pos k left) left_on in
    let ridx := map (fun k => col_pos k right) right_on in
    let rkeep :=
      filter (fun i =>
                negb (shared
                      && existsb (String.eqb (nth i (columns right) ""))
                                 right_on))
             (seq 0 (length (columns right))) in
    let rcols := map (fun i => nth i (columns right) "") rkeep in
    let rlabels := suffix_overlap (columns left) rcols in
    if new_duplicates rcols rlabels then Raised MergeError
    else
      Returned
        (mkDF (columns left ++ rlabels)
              (flat_map
                 (fun l =>
                    let lrow := row_at (seq 0 (length (columns left))) l in
                    match filter (fun r => keys_eqb (row_at lidx l)
                                                    (row_at ridx r))
                                 (rows right) with
                    | [] => [lrow ++ repeat NaN (length rkeep)]
                    | ms => map (fun r => lrow ++ row_at rkeep r) ms
                    end)
                 (rows left))).

(* ================================================================== *)
(** ** The loader: [load_all_data] *)

(** The two fixed input files; [None] is a file that is missing or
    unreadable. *)
Definition filesystem := string -> option DataFrame.

Definition read_csv (fs : filesystem) (path : string) : result DataFrame :=
  match fs path with
  | Some df => Returned df
  | None => Raised (FileNotFoundError path)
  end.

(** Lines 15-18 *)
Definition normalize_tracks (tracks_df : DataFrame) : DataFrame :=
  let tracks_df :=
    if has_col "name" tracks_df then rename "name" "title" tracks_df
    else tracks_df in
  if has_col "artists" tracks_df then rename "artists" "artist" tracks_df
  else tracks_df.

(** Lines 21-24 *)
Definition normalize_spotify (spotify_df : DataFrame) : DataFrame :=
  let spotify_df :=
    if has_col "track_name" spotify_df
    then rename "track_name" "title" spotify_df
    else spotify_df in
  if has_col "artists" spotify_df then rename "artists" "artist" spotify_df
  else spotify_df.

(** Lines 27-28: the two frames as they stand just before the merge. *)
Definition backfill_year (tracks_df spotify_df : DataFrame)
  : DataFrame * DataFrame :=
  if has_col "year" tracks_df && negb (has_col "year" spotify_df)
  then (tracks_df, set_column_scalar spotify_df "year" PyNone)
  else (tracks_df, spotify_df).

Definition missing_join_key : exn :=
  KeyError "No common merge keys found between datasets (expected 'id' or ['title','artist']).".

(** Line 41 *)
Definition merge_keys (tracks_df spotify_df : DataFrame) : list string :=
  filter (fun col => has_col col tracks_df && has_col col spotify_df)
         ["title"; "artist"].

(** Lines 31-50 *)
Definition merge_logic (tracks_df spotify_df : DataFrame) : result DataFrame :=
  if has_col "id" tracks_df && has_col "track_id" spotify_df
  then merge_left tracks_df spotify_df ["id"] ["track_id"] false
  else
    match merge_keys tracks_df spotify_df with
    | [] => Raised missing_join_key
    | keys => merge_left tracks_df spotify_df keys keys true
    end.

(** Lines 53-54 *)
Definition guarantee_year (tracks_df merged : DataFrame) : DataFrame :=
  if negb (has_col "year" merged) && has_col "year" tracks_df
  then set_column_series merged "year" (column tracks_df "year")
  else merged.

(** The frames handed to the merge, from the frames as read. *)
Definition prepare (tracks_raw spotify_raw : DataFrame)
  : DataFrame * DataFrame :=
  backfill_year (normalize_tracks tracks_raw) (normalize_spotify spotify_raw).

Definition load_all_data (fs : filesystem) : result DataFrame :=
  tracks_df <- read_csv fs "data/tracks.csv" ;;
  spotify_df <- read_csv fs "data/spotify_tracks.csv" ;;
  let '(tracks_df, spotify_df) := prepare tracks_df spotify_df in
  merged <- merge_logic tracks_df spotify_df ;;
  Returned (guarantee_year tracks_df merged).

(** [app.py], lines 25-30: the loader is called at the top level of the
    script; its value is then tested with [is None or .empty] (the loader
    returns a frame whenever it returns, so only [.empty] can hold). *)
Inductive session : Type :=
| UnhandledException (e : exn)
| Stopped (message : string)
| Running (all_data_df : DataFrame).

Definition app_startup (fs : filesystem) : session :=
  match load_all_data fs with
  | Raised e => UnhandledException e
  | Returned all_data_df =>
      if empty all_data_df
      then Stopped "Dataset not loaded or empty. Place 'spotify_tracks.csv' or 'best-songs-on-spotify-for-every-year-2000-2023.csv' in the data/ folder."
      else Running all_data_df
  end.

(* ================================================================== *)
(** ** [groupby(by)[value].mean()] *)

Definition nums_of (vals : list cell) : list Q :=
  flat_map (fun c => match c with Num q => [q] | _ => [] end) vals.

Definition Qsum (l : list Q) : Q := fold_right Qplus 0%Q l.

(** The mean of a group skips missing values and is NaN when nothing is
    left; a string among the values raises. *)
Definition mean (vals : list cell) : result cell :=
  if existsb is_str vals then Raised TypeError
  else
    match nums_of vals with
    | [] => Returned NaN
    | nums =>
        Returned (Num (Qred (Qsum nums / inject_Z (Z.of_nat (length nums)))))
    end.

Section Dedup.
Context {A : Type}.
Variable eqb : A -> A -> bool.

(** First occurrences, in order of appearance. *)
Fixpoint dedup (l : list A) : list A :=
  match l with
  | [] => []
  | x :: t => x :: filter (fun y => negb (eqb x y)) (dedup t)
  end.
End Dedup.

(** The group keys: rows with a missing key are dropped, the distinct keys
    are listed in ascending order. *)
Definition group_keys (kidx : list nat) (rs : list row) : list (list cell) :=
  isort keys_leb
        (dedup keys_eqb
               (filter (fun k => negb (existsb isna k))
                       (map (row_at kidx) rs))).

Definition group_rows (kidx : list nat) (k : list cell) (rs : list row)
  : list row :=
  filter (fun r => keys_eqb k (row_at kidx r)) rs.

(** [df.groupby(by)[value].mean()] where one column carries [value]: a
    Series of means.  A key label carried by several columns is refused
    ("Grouper for ... not 1-dimensional"). *)
Definition groupby_mean (df : DataFrame) (by_ : list string) (value : string)
  : result (list (list cell * cell)) :=
  if negb (forallb (fun k => unique_label k df) by_) then Raised ValueError
  else
    let kidx := map (fun k => col_pos k df) by_ in
    mapM (fun k =>
            m <- mean (map (get df value) (group_rows kidx k (rows df))) ;;
            Returned (k, m))
         (group_keys kidx (rows df)).

(** The same where several columns carry [value]: a frame with one mean per
    such column. *)
Definition groupby_mean_frame (df : DataFrame) (by_ : list string)
           (value : string) : result (list (list cell * list cell)) :=
  if negb (forallb (fun k => unique_label k df) by_) then Raised ValueError
  else
    let kidx := map (fun k => col_pos k df) by_ in
    mapM (fun k =>
            ms <- mapM (fun j => mean (map (cell_at j)
                                           (group_rows kidx k (rows df))))
                       (positions value df) ;;
            Returned (k, ms))
         (group_keys kidx (rows df)).

(** [series.reset_index()]: the index levels become columns in front of the
    value column. *)
Definition reset_index (by_ : list string) (value : string)
           (s : list (list cell * cell)) : DataFrame :=
  mkDF (by_ ++ [value]) (map (fun km => fst km ++ [snd km]) s).

(** [frame.reset_index()], with [n] value columns. *)
Definition reset_index_frame (by_ : list string) (value : string) (n : nat)
           (s : list (list cell * list cell)) : DataFrame :=
  mkDF (by_ ++ repeat value n) (map (fun km => fst km ++ snd km) s).

(* ================================================================== *)
(** ** The query layer *)

Definition year_mask (df : DataFrame) (year : Z) : list bool :=
  map (fun c => cell_eq_num c (inject_Z year)) (column df "year").

(** Lines 59-75.  The rows of the year are selected by the one [year]
    column.  A table with several [year] columns is outside this
    development: the mask of line 64 is then a frame, not a row selector,
    and the model answers with an error; the statements below about the
    three functions that select a year either assume one [year] column or
    speak of a call that returns.  With several [artist] columns [groupby]
    fails; with several [popularity] columns the means are a frame, whose
    [sort_values] needs a [by]. *)
Definition get_top_artists (df : DataFrame) (year : Z) (top_n : Z)
  : result DataFrame :=
  if negb (has_col "year" df) || negb (has_col "artist" df)
  then Returned pd_DataFrame
  else if negb (unique_label "year" df) then Raised ValueError
  else
    let year_df := select df (year_mask df year) in
    if negb (has_col "popularity" year_df) then Returned pd_DataFrame
    else
      means <- groupby_mean year_df ["artist"] "popularity" ;;
      if negb (unique_label "popularity" year_df) then Raised TypeError
      else
        sorted <- sort_values_desc snd means ;;
        Returned (reset_index ["artist"] "popularity" (head top_n sorted)).

(** Lines 78-92.  Several [year] columns: as for [get_top_artists].
    [sort_values] refuses a [popularity] label carried by several columns;
    the final selection keeps every column labelled [title], [artist] or
    [popularity]. *)
Definition get_most_popular_songs (df : DataFrame) (year : Z) (top_n : Z)
  : result DataFrame :=
  if negb (has_col "year" df) || negb (has_col "title" df)
     || negb (has_col "artist" df)
  then Returned pd_DataFrame
  else if negb (unique_label "year" df) then Raised ValueError
  else
    let year_df := select df (year_mask df year) in
    if negb (has_col "popularity" year_df) then Returned pd_DataFrame
    else if negb (unique_label "popularity" year_df) then Raised ValueError
    else
      sorted <- sort_values_desc (get year_df "popularity") (rows year_df) ;;
      getitem_list (mkDF (columns year_df) (head top_n sorted))
                   ["title"; "artist"; "popularity"].

(** Lines 95-105.  The pair [(None, None)] is
    [(ScalarValue PyNone, PyNone)]; several [year] columns: as for
    [get_top_artists]; [most_popular["title"]] is a Series when several
    columns carry [title]. *)
Definition get_most_popular_song_by_year (df : DataFrame) (year : Z)
  : result (pyvalue * cell) :=
  if negb (has_col "year" df) || negb (has_col "title" df)
     || negb (has_col "artist" df)
  then Returned (ScalarValue PyNone, PyNone)
  else if negb (unique_label "year" df) then Raised ValueError
  else
    let year_df := select df (year_mask df year) in
    if negb (has_col "popularity" year_df) || empty year_df
    then Returned (ScalarValue PyNone, PyNone)
    else if negb (unique_label "popularity" year_df) then Raised ValueError
    else
      sorted <- sort_values_desc (get year_df "popularity") (rows year_df) ;;
      let most_popular := nth 0 sorted [] in
      Returned (row_getitem year_df "title" most_popular,
                get year_df "popularity" most_popular).

(** Lines 108-117.  [groupby] refuses a [year] or [artist] label carried by
    several columns (the filtered frame keeps the columns of [df], and only
    they are looked at before); with several [popularity] columns the
    result has a mean for each. *)
Definition compare_artists (df : DataFrame) (artist1 artist2 : string)
  : result DataFrame :=
  if negb (has_col "artist" df) || negb (has_col "year" df)
  then Returned pd_DataFrame
  else
    let comp_df :=
      select df (map (cell_isin [artist1; artist2]) (column df "artist")) in
    if negb (has_col "popularity" comp_df) then Returned pd_DataFrame
    else if unique_label "popularity" comp_df then
      means <- groupby_mean comp_df ["year"; "artist"] "popularity" ;;
      Returned (reset_index ["year"; "artist"] "popularity" means)
    else
      means <- groupby_mean_frame comp_df ["year"; "artist"] "popularity" ;;
      Returned (reset_index_frame ["year"; "artist"] "popularity"
                                  (length (positions "popularity" comp_df))
                                  means).

(* ------------------------------------------------------------------ *)
(** *** [get_songs_by_vibe] *)

(** [df.get(name, default)] is the column when the frame has it and the
    bare default otherwise. *)
Inductive operand : Type :=
| Series (vals : list cell)
| Scalar (q : Q).

Definition df_get (df : DataFrame) (name : string) (default : Q) : operand :=
  if has_col name df then Series (column df name) else Scalar default.

(** A comparison of a column gives a boolean Series; a comparison of two
    plain numbers gives a plain Python [bool]. *)
Inductive mask : Type :=
| Mask (bits : list bool)
| PyBool (b : bool).

Definition Qlt_bool (x y : Q) : bool := negb (Qle_bool y x).

Definition lt_cell (t : Q) (c : cell) : result bool :=
  match c with
  | Num q => Returned (Qlt_bool q t)
  | NaN => Returned false
  | PyNone | Str _ => Raised TypeError
  end.

Definition gt_cell (t : Q) (c : cell) : result bool :=
  match c with
  | Num q => Returned (Qlt_bool t q)
  | NaN => Returned false
  | PyNone | Str _ => Raised TypeError
  end.

Definition lt (x : operand) (t : Q) : result mask :=
  match x with
  | Scalar q => Returned (PyBool (Qlt_bool q t))
  | Series vals => bits <- mapM (lt_cell t) vals ;; Returned (Mask bits)
  end.

Definition gt (x : operand) (t : Q) : result mask :=
  match x with
  | Scalar q => Returned (PyBool (Qlt_bool t q))
  | Series vals => bits <- mapM (gt_cell t) vals ;; Returned (Mask bits)
  end.

(** [a & b] *)
Definition mask_and (a b : mask) : mask :=
  match a, b with
  | PyBool x, PyBool y => PyBool (x && y)
  | PyBool x, Mask m => Mask (map (andb x) m)
  | Mask m, PyBool y => Mask (map (fun b => b && y) m)
  | Mask m1, Mask m2 => Mask (map (fun p => fst p && snd p) (combine m1 m2))
  end.

(** [df[key]]: a boolean Series selects rows; a plain [bool] is looked up
    as a column label, which no frame read from CSV carries. *)
Definition getitem (df : DataFrame) (key : mask) : result DataFrame :=
  match key with
  | Mask bits => Returned (select df bits)
  | PyBool true => Raised (KeyError "True")
  | PyBool false => Raised (KeyError "False")
  end.

(** Lines 125-139: [None] is the final [else], an unrecognised vibe. *)
Definition vibe_filter (df : DataFrame) (vibe : string)
  : option (result DataFrame) :=
  if String.eqb vibe "chill" then
    Some (a <- lt (df_get df "energy" 1) (4 # 10) ;;
          b <- gt (df_get df "acousticness" 0) (6 # 10) ;;
          getitem df (mask_and a b))
  else if String.eqb vibe "energetic" then
    Some (a <- gt (df_get df "energy" 0) (8 # 10) ;;
          b <- lt (df_get df "acousticness" 1) (2 # 10) ;;
          getitem df (mask_and a b))
  else if String.eqb vibe "gloomy" then
    Some (a <- lt (df_get df "valence" 1) (3 # 10) ;;
          b <- lt (df_get df "energy" 1) (4 # 10) ;;
          getitem df (mask_and a b))
  else if String.eqb vibe "party" then
    Some (a <- gt (df_get df "danceability" 0) (8 # 10) ;;
          b <- gt (df_get df "energy" 0) (7 # 10) ;;
          getitem df (mask_and a b))
  else if String.eqb vibe "sporty" then
    if has_col "tempo" df then
      Some (a <- gt (Series (column df "tempo")) 120 ;;
            b <- gt (df_get df "energy" 0) (8 # 10) ;;
            getitem df (mask_and a b))
    else
      Some (a <- gt (df_get df "energy" 0) (8 # 10) ;;
            getitem df a)
  else None.

(** The state of the random generator behind [DataFrame.sample]: the
    sequence of its raw draws. *)
Definition RandomState := nat -> nat.

Fixpoint remove_nth {A : Type} (i : nat) (l : list A) : list A :=
  match i, l with
  | _, [] => []
  | O, _ :: t => t
  | S j, x :: t => x :: remove_nth j t
  end.

(** [k] rows drawn without replacement. *)
Fixpoint draw (g : RandomState) (step : nat) (k : nat) (pool : list row)
  : list row :=
  match k with
  | O => []
  | S k' =>
      match pool with
      | [] => []
      | _ =>
          let i := (g step mod length pool)%nat in
          nth i pool [] :: draw g (S step) k' (remove_nth i pool)
      end
  end.

(** [df.sample(n=n)] *)
Definition sample (g : RandomState) (df : DataFrame) (n : Z)
  : result DataFrame :=
  if (n <? 0)%Z then Raised ValueError
  else if (Z.of_nat (length (rows df)) <? n)%Z then Raised ValueError
  else Returned (mkDF (columns df) (draw g 0 (Z.to_nat n) (rows df))).

(** Lines 120-144 *)
Definition get_songs_by_vibe (g : RandomState) (df : DataFrame)
           (vibe : string) (num_songs : Z) : result DataFrame :=
  if empty df then Returned pd_DataFrame
  else
    match vibe_filter df vibe with
    | None => Returned pd_DataFrame
    | Some outcome =>
        filtered <- outcome ;;
        if empty filtered then Returned pd_DataFrame
        else sample g filtered
                    (Z.min num_songs (Z.of_nat (length (rows filtered))))
    end.

(* ================================================================== *)
(** ** The sections of [app.py] that call the query layer *)

(** What a section puts on the page. *)
Inductive display : Type :=
| ShowTable (df : DataFrame)
| ShowInfo (text : string)
| ShowWarning (text : string)
| ShowSong (birth_year : Z) (top_song : pyvalue) (popularity : Z)
| ShowNoData (birth_year : Z).

(** [set(names).issubset(df.columns)] *)
Definition issubset (names : list string) (df : DataFrame) : bool :=
  forallb (fun n => has_col n df) names.

(** [df.head(n)] on a frame *)
Definition df_head (n : Z) (df : DataFrame) : DataFrame :=
  mkDF (columns df) (head n (rows df)).

(** Lines 56-61, for a selected year that is a whole number. *)
Definition top_charts_songs (all_data_df : DataFrame) (selected_year : Z)
  : result display :=
  songs <- get_most_popular_songs all_data_df selected_year 20 ;;
  let top_songs := df_head 20 songs in
  if negb (empty top_songs)
     && issubset ["title"; "artist"; "popularity"] top_songs
  then
    shown <- getitem_list top_songs ["title"; "artist"; "popularity"] ;;
    Returned (ShowTable shown)
  else Returned (ShowInfo "Song-level popularity data is not available for this year.").

(** Lines 79-85, once the button is pressed. *)
Definition vibe_explorer_playlist (g : RandomState) (all_data_df : DataFrame)
           (vibe_choice : string) (num_songs : Z) : result display :=
  songs <- get_songs_by_vibe g all_data_df vibe_choice num_songs ;;
  if negb (empty songs) && issubset ["title"; "artist"; "popularity"] songs
  then
    shown <- getitem_list songs ["title"; "artist"; "popularity"] ;;
    Returned (ShowTable shown)
  else Returned (ShowWarning "No songs found for that vibe (or audio feature data missing).").

(** Truth value of a cell in [if top_song:]: [None], the empty string and
    zero are false, everything else, NaN included, is true. *)
Definition truthy (c : cell) : bool :=
  match c with
  | PyNone => false
  | NaN => true
  | Num q => negb (Qeq_bool q 0)
  | Str s => negb (String.eqb s "")
  end.

(** [if top_song:] on what [get_most_popular_song_by_year] gave: the truth
    value of a Series of several cells is ambiguous and raises. *)
Definition truth_value (v : pyvalue) : result bool :=
  match v with
  | ScalarValue c => Returned (truthy c)
  | SeriesValue _ => Raised ValueError
  end.

Section BirthYear.
(** [int(s)] for a string, left open: no string reaches it in what follows. *)
Variable int_of_str : string -> result Z.

(** [int(x)]: a number is truncated towards zero, NaN cannot be converted,
    [None] is not a number. *)
Definition py_int (c : cell) : result Z :=
  match c with
  | Num q => Returned (Z.quot (Qnum q) (Zpos (Qden q)))
  | NaN => Raised ValueError
  | PyNone => Raised TypeError
  | Str s => int_of_str s
  end.

(** Lines 104-109 *)
Definition birth_year_message (all_data_df : DataFrame) (birth_year : Z)
  : result display :=
  pair <- get_most_popular_song_by_year all_data_df birth_year ;;
  let top_song := fst pair in
  let popularity := snd pair in
  shown <- truth_value top_song ;;
  if shown
  then p <- py_int popularity ;; Returned (ShowSong birth_year top_song p)
  else Returned (ShowNoData birth_year).
End BirthYear.

(* ================================================================== *)
(** ** [kworb_daily_scraper.py] *)

(** What can end the script: [datetime(...)] out of range, a date past
    [datetime.max], or an exception of the HTTP request in [scrape_day]. *)
Inductive script_exn : Type :=
| DateValueError
| DateOverflowError
| RequestException.

Record datetime : Type := mkDate {
  dt_year : Z;
  dt_month : nat;
  dt_day : nat
}.

Definition is_leap (y : Z) : bool :=
  (y mod 4 =? 0)%Z && (negb (y mod 100 =? 0)%Z || (y mod 400 =? 0)%Z).

Definition month_length (leap : bool) (m : nat) : nat :=
  match m with
  | 2 => if leap then 29 else 28
  | 4 | 6 | 9 | 11 => 30
  | _ => 31
  end%nat.

Definition days_in_month (y : Z) (m : nat) : nat :=
  month_length (is_leap y) m.

(** [datetime(year, month, day)] for the two fixed month-day pairs of the
    script: only the year can be out of range.  A year that does not fit a
    C [int] is an [OverflowError] of the argument conversion; one that does
    but lies outside 1..9999 is a [ValueError]. *)
Definition datetime_new (y : Z) (m d : nat) : script_exn + datetime :=
  if ((y <? -2147483648) || (2147483647 <? y))%Z then inl DateOverflowError
  else if ((y <? 1) || (9999 <? y))%Z then inl DateValueError
  else inr (mkDate y m d).

(** [start <= end] *)
Definition date_leb (a b : datetime) : bool :=
  if (dt_year a <? dt_year b)%Z then true
  else if (dt_year a =? dt_year b)%Z then
    if (dt_month a <? dt_month b)%nat then true
    else if (dt_month a =? dt_month b)%nat then (dt_day a <=? dt_day b)%nat
    else false
  else false.

(** [start + timedelta(days=1)] *)
Definition add_day (t : datetime) : script_exn + datetime :=
  if (dt_day t <? days_in_month (dt_year t) (dt_month t))%nat
  then inr (mkDate (dt_year t) (dt_month t) (S (dt_day t)))
  else if (dt_month t <? 12)%nat
  then inr (mkDate (dt_year t) (S (dt_month t)) 1)
  else if (dt_year t <? 9999)%Z
  then inr (mkDate (dt_year t + 1) 1 1)
  else inl DateOverflowError.

Section Scraper.
(** [t.strftime("%Y-%m-%d")], the formatting of the C library. *)
Variable strftime : datetime -> string.

(** The items of one day and the HTTP request behind them. *)
Variable item : Type.
Variable scrape_day : string -> script_exn + list item.

(** The [while] loop of [daterange] (lines 24-26): the dates yielded and the
    exception that ended the generator, if one did.  The year has at most
    366 days, which bounds the number of rounds. *)
Fixpoint daterange_loop (rounds : nat) (start end_ : datetime)
  : list string * option script_exn :=
  match rounds with
  | O => ([], None)
  | S rounds' =>
      if date_leb start end_ then
        match add_day start with
        | inr next =>
            let rest := daterange_loop rounds' next end_ in
            (strftime start :: fst rest, snd rest)
        | inl e => ([strftime start], Some e)
        end
      else ([], None)
  end.

(** Lines 20-26 *)
Definition daterange (year : Z) : list string * option script_exn :=
  match datetime_new year 1 1 with
  | inl e => ([], Some e)
  | inr start =>
      match datetime_new year 12 31 with
      | inl e => ([], Some e)
      | inr end_ => daterange_loop 367 start end_
      end
  end.

(** How a run of the script ends. *)
Inductive run : Type :=
| Saved (year : Z) (rows : list item)
| NoDataScraped (year : Z)
| ScriptCrashed (e : script_exn).

(** The body of the [for] loop of [main] (lines 53-57) over the dates
    yielded. *)
Fixpoint scrape_all (dates : list string) (rows : list item)
  : script_exn + list item :=
  match dates with
  | [] => inr rows
  | d :: rest =>
      match scrape_day d with
      | inl e => inl e
      | inr items =>
          scrape_all rest (match items with [] => rows | _ => rows ++ items end)
      end
  end.

(** Lines 51-64 *)
Definition main (year : Z) : run :=
  let dates := daterange year in
  match scrape_all (fst dates) [] with
  | inl e => ScriptCrashed e
  | inr rows =>
      match snd dates with
      | Some e => ScriptCrashed e
      | None =>
          match rows with
          | [] => NoDataScraped year
          | _ => Saved year rows
          end
      end
  end.
End Scraper.

(** The days of a year in calendar order. *)
Definition year_days (y : Z) : list datetime :=
  flat_map (fun m => map (fun d => mkDate y m d) (seq 1 (days_in_month y m)))
           (seq 1 12).

(** The loop of [daterange] on months and days alone; the flag tells
    whether the step past 31 December was taken. *)
Fixpoint month_day_loop (leap : bool) (rounds m d : nat)
  : list (nat * nat) * bool :=
  match rounds with
  | O => ([], false)
  | S rounds' =>
      if ((m <? 12) || ((m =? 12) && (d <=? 31)))%nat then
        if (d <? month_length leap m)%nat then
          let rest := month_day_loop leap rounds' m (S d) in
          ((m, d) :: fst rest, snd rest)
        else if (m <? 12)%nat then
          let rest := month_day_loop leap rounds' (S m) 1 in
          ((m, d) :: fst rest, snd rest)
        else ([(m, d)], true)
      else ([], false)
  end.

(** The format ["%Y-%m-%d"] for a four-digit year, used as the concrete
    formatter in examples. *)
Definition digit (n : nat) : string :=
  String (ascii_of_nat (48 + n mod 10)) EmptyString.

Definition strftime_iso (t : datetime) : string :=
  let y := Z.to_nat (dt_year t) in
  (digit (y / 1000) ++ digit (y / 100) ++ digit (y / 10) ++ digit y ++ "-"
   ++ digit (dt_month t / 10) ++ digit (dt_month t) ++ "-"
   ++ digit (dt_day t / 10) ++ digit (dt_day t))%string.

(* ================================================================== *)
(** ** [utils/api_functions.py]: [get_live_data] *)

(** One entry of a playlist page: no (or an empty) [track], a track with
    its name, the names of its artists, its popularity and its URI, or an
    entry on which the loop body raises (an artist without a name, a value
    of the wrong shape). *)
Inductive playlist_item : Type :=
| NoTrack
| Track (name : cell) (artists : list string) (popularity uri : cell)
| BrokenItem.

(** The answer to one [requests.get]: the call itself raises, or there is a
    response with a status code and a body; [json = None] is a body on
    which [response.json()] raises, otherwise the body gives the [items]
    (empty when absent) and whether [next] is present. *)
Inductive api_response : Type :=
| RequestRaises
| Response (status_code : Z) (json : option (list playlist_item * bool)).

(** Lines 67-74: the rows one page appends; [None] when the body raises. *)
Fixpoint collect (items : list playlist_item) (all_tracks : list row)
  : option (list row) :=
  match items with
  | [] => Some all_tracks
  | NoTrack :: rest => collect rest all_tracks
  | Track name artists popularity uri :: rest =>
      collect rest
              (all_tracks
               ++ [[name; Str (String.concat ", " artists); popularity; uri]])
  | BrokenItem :: _ => None
  end.

(** [pd.DataFrame(rows, columns=...)] infers a type per column: a column
    without strings that holds at least one number is numeric, and its
    [None] entries become NaN; any other column keeps its objects. *)
Definition numeric_like (vals : list cell) : bool :=
  forallb (fun c => negb (is_str c)) vals
  && existsb (fun c => match c with Num _ | NaN => true | _ => false end) vals.

Definition none_to_nan (c : cell) : cell :=
  match c with
  | PyNone => NaN
  | c => c
  end.

Definition DataFrame_of_rows (data : list row) (cols : list string)
  : DataFrame :=
  let flags :=
    map (fun j => numeric_like (map (cell_at j) data))
        (seq 0 (length cols)) in
  mkDF cols
       (map (fun r =>
               map (fun bc : bool * cell =>
                      if fst bc then none_to_nan (snd bc) else snd bc)
                   (combine flags r))
            data).

Section LiveData.
(** The Spotify API for the playlist asked for, by [offset]. *)
Variable api : Z -> api_response.

(** Lines 54-78: the [while True] loop, at most [rounds] times round; the
    outer [None] is a loop still running after [rounds] requests, the inner
    [None] a [return None] (an error response or the [except] branch). *)
Fixpoint fetch (rounds : nat) (offset : Z) (all_tracks : list row)
  : option (option (list row)) :=
  match rounds with
  | O => None
  | S rounds' =>
      match api offset with
      | RequestRaises => Some None
      | Response status_code json =>
          if negb (status_code =? 200)%Z then Some None
          else
            match json with
            | None => Some None
            | Some ([], _) => Some (Some all_tracks)
            | Some (items, has_next) =>
                match collect items all_tracks with
                | None => Some None
                | Some tracks =>
                    if has_next then fetch rounds' (offset + 100)%Z tracks
                    else Some (Some tracks)
                end
            end
      end
  end.

(** Lines 40-88.  [access_token] is what [get_spotify_access_token] gave:
    it returns [None] on a request error and lets other exceptions
    through. *)
Definition get_live_data (access_token : result (option string))
           (rounds : nat) : option (result (option DataFrame)) :=
  match access_token with
  | Raised e => Some (Raised e)
  | Returned None => Some (Returned None)
  | Returned (Some token) =>
      if String.eqb token "" then Some (Returned None)
      else
        match fetch rounds 0 [] with
        | None => None
        | Some None => Some (Returned None)
        | Some (Some []) => Some (Returned None)
        | Some (Some all_tracks) =>
            Some (Returned
                    (Some (DataFrame_of_rows
                             all_tracks
                             ["track_name"; "artists"; "popularity";
                              "track_uri"])))
        end
  end.
End LiveData.

(** The rows of one page whose entries are all well formed. *)
Definition page_rows (items : list playlist_item) : list row :=
  match collect items [] with
  | Some tracks => tracks
  | None => []
  end.

(** A page after which the loop goes on: status 200, entries present and
    well formed, [next] present. *)
Definition page_continues (api : Z -> api_response)
           (items_of : nat -> list playlist_item) (i : nat) : Prop :=
  api (100 * Z.of_nat i)%Z = Response 200 (Some (items_of i, true))
  /\ items_of i <> []
  /\ collect (items_of i) [] <> None.

(** Answers of the API used as concrete inputs. *)
Module ApiSamples.

Definition items_of (i : nat) : list playlist_item :=
  match i with
  | O => [Track (Str "Song A") ["Artist X"; "Artist Y"] (Num 50) (Str "uri:a");
          NoTrack]
  | _ => [Track (Str "Song B") ["Artist Z"] (Num 60) (Str "uri:b")]
  end.

(** Two pages, the second without a [next] link. *)
Definition two_pages (offset : Z) : api_response :=
  if (offset =? 0)%Z then Response 200 (Some (items_of 0, true))
  else if (offset =? 100)%Z then Response 200 (Some (items_of 1, false))
  else RequestRaises.

(** A first page, then a rate-limit answer. *)
Definition rate_limited (offset : Z) : api_response :=
  if (offset =? 0)%Z then Response 200 (Some (items_of 0, true))
  else Response 429 None.

(** A single page on which one track has no popularity. *)
Definition items_one_page (i : nat) : list playlist_item :=
  match i with
  | O => [Track (Str "Song A") ["Artist X"] (Num 50) (Str "uri:a");
          Track (Str "Song C") [] PyNone (Str "uri:c")]
  | _ => []
  end.

Definition one_page (offset : Z) : api_response :=
  if (offset =? 0)%Z then Response 200 (Some (items_one_page 0, false))
  else RequestRaises.

End ApiSamples.

(* ================================================================== *)
(** * Verification *)

(** ** Frames used as concrete inputs *)

Module Samples.

Definition tracks : DataFrame :=
  mkDF ["id"; "name"; "artists"; "year"]
       [[Str "t1"; Str "Song A"; Str "Artist X"; Num 2010];
        [Str "t2"; Str "Song B"; Str "Artist Y"; Num 2011]].

Definition spotify : DataFrame :=
  mkDF ["track_id"; "track_name"; "artists"; "popularity"]
       [[Str "t1"; Str "Song A"; Str "Artist X"; Num 77]].

(** Both files in place. *)
Definition fs : filesystem :=
  fun path =>
    if String.eqb path "data/tracks.csv" then Some tracks
    else if String.eqb path "data/spotify_tracks.csv" then Some spotify
    else None.

(** The secondary file is missing. *)
Definition fs_no_spotify : filesystem :=
  fun path =>
    if String.eqb path "data/tracks.csv" then Some tracks else None.

(** Two files that share no join key. *)
Definition fs_no_key : filesystem :=
  fun path =>
    if String.eqb path "data/tracks.csv"
    then Some (mkDF ["song"; "year"] [[Str "Song A"; Num 2010]])
    else if String.eqb path "data/spotify_tracks.csv"
    then Some (mkDF ["popularity"] [[Num 77]])
    else None.

(** A primary source without [year], a secondary source with it. *)
Definition tracks_no_year : DataFrame :=
  mkDF ["id"; "name"; "artists"]
       [[Str "t1"; Str "Song A"; Str "Artist X"]].

Definition spotify_with_year : DataFrame :=
  mkDF ["track_id"; "track_name"; "artists"; "year"]
       [[Str "t1"; Str "Song A"; Str "Artist X"; Num 2010]].

(** A merged table with popularity and one audio feature. *)
Definition table : DataFrame :=
  mkDF ["title"; "artist"; "popularity"; "year"; "energy"]
       [[Str "a"; Str "X"; Num 10; Num 2000; Num (9 # 10)];
        [Str "b"; Str "X"; Num 30; Num 2000; Num (95 # 100)];
        [Str "c"; Str "Y"; Num 25; Num 2000; Num (1 # 10)];
        [Str "d"; Str "Z"; NaN; Num 2000; NaN];
        [Str "e"; Str "Y"; Num 99; Num 2001; Num (85 # 100)]].

(** A primary file that has both [name] and [title]: after the renaming of
    line 16 two columns carry [title]. *)
Definition tracks_two_titles : DataFrame :=
  mkDF ["id"; "name"; "title"; "artists"; "popularity"; "year"]
       [[Str "t1"; Str "Song A"; Str "A (live)"; Str "X"; Num 10; Num 2000];
        [Str "t2"; Str "Song B"; Str "B (live)"; Str "Y"; Num 30; Num 2000]].

(** A primary file that has both [artists] and [artist]: after the renaming
    of line 18 two columns carry [artist]. *)
Definition tracks_two_artists : DataFrame :=
  mkDF ["id"; "name"; "artists"; "artist"; "popularity"; "year"]
       [[Str "t1"; Str "Song A"; Str "X, Y"; Str "X"; Num 10; Num 2000];
        [Str "t2"; Str "Song B"; Str "Y"; Str "Y"; Num 30; Num 2000]].

Definition spotify_features : DataFrame :=
  mkDF ["track_id"; "energy"] [[Str "t1"; Num (9 # 10)]].

Definition fs_two_titles : filesystem :=
  fun path =>
    if String.eqb path "data/tracks.csv" then Some tracks_two_titles
    else if String.eqb path "data/spotify_tracks.csv"
    then Some spotify_features
    else None.

Definition fs_two_artists : filesystem :=
  fun path =>
    if String.eqb path "data/tracks.csv" then Some tracks_two_artists
    else if String.eqb path "data/spotify_tracks.csv"
    then Some spotify_features
    else None.

(** What [load_all_data] makes of them. *)
Definition two_titles : DataFrame :=
  mkDF ["id"; "title"; "title"; "artist"; "popularity"; "year"; "track_id";
        "energy"; "year_spotify"]
       [[Str "t1"; Str "Song A"; Str "A (live)"; Str "X"; Num 10; Num 2000;
         Str "t1"; Num (9 # 10); PyNone];
        [Str "t2"; Str "Song B"; Str "B (live)"; Str "Y"; Num 30; Num 2000;
         NaN; NaN; NaN]].

Definition two_artists : DataFrame :=
  mkDF ["id"; "title"; "artist"; "artist"; "popularity"; "year"; "track_id";
        "energy"; "year_spotify"]
       [[Str "t1"; Str "Song A"; Str "X, Y"; Str "X"; Num 10; Num 2000;
         Str "t1"; Num (9 # 10); PyNone];
        [Str "t2"; Str "Song B"; Str "Y"; Str "Y"; Num 30; Num 2000;
         NaN; NaN; NaN]].

(** A merged table without any audio feature. *)
Definition table_no_features : DataFrame :=
  mkDF ["title"; "artist"; "year"; "popularity"]
       [[Str "Song A"; Str "Artist X"; Num 2010; Num 77]].

End Samples.

(* ================================================================== *)
(** ** Notions the statements use *)

(** Whether a secondary row matches a primary row on the join key the
    loader picks (lines 31 and 41). *)
Definition matches (t s : DataFrame) (l r : row) : bool :=
  if has_col "id" t && has_col "track_id" s
  then key_eqb (get t "id" l) (get s "track_id" r)
  else forallb (fun k => key_eqb (get t k l) (get s k r)) (merge_keys t s).

(** The rows one primary row contributes to the merged table. *)
Definition merged_block (t s : DataFrame) (rkeep : list nat) (l : row)
  : list row :=
  let lrow := row_at (seq 0 (length (columns t))) l in
  match filter (matches t s l) (rows s) with
  | [] => [lrow ++ repeat NaN (length rkeep)]
  | ms => map (fun r => lrow ++ row_at rkeep r) ms
  end.

(** A cell of a numeric column: a number or NaN. *)
Definition numeric (c : cell) : bool :=
  match c with
  | NaN | Num _ => true
  | _ => false
  end.

(** The column holds numbers and NaN only (for a column the frame lacks
    this says nothing about the labels; every row reads NaN there). *)
Definition numeric_col (df : DataFrame) (name : string) : Prop :=
  forall r, In r (rows df) -> numeric (get df name r) = true.

(** [a] may stand before [b] in a descending order that puts the missing
    values last. *)
Definition ranks_before (a b : cell) : Prop :=
  match a, b with
  | _, (NaN | PyNone) => True
  | Num x, Num y => (y <= x)%Q
  | _, _ => False
  end.

(** The row belongs to the given year (line 64: [df["year"] == year]). *)
Definition in_year (df : DataFrame) (year : Z) (r : row) : bool :=
  cell_eq_num (get df "year" r) (inject_Z year).

(** Key values up to the equality [groupby] uses. *)
Definition canon (c : cell) : cell :=
  match c with
  | Num q => Num (Qred q)
  | PyNone => NaN
  | c => c
  end.

(** The mean as a total function, for columns without strings. *)
Definition mean_value (vals : list cell) : cell :=
  match nums_of vals with
  | [] => NaN
  | nums => Num (Qred (Qsum nums / inject_Z (Z.of_nat (length nums))))
  end.

(** No label of the list is carried by more than one column. *)
Definition labels_unique (names : list string) (df : DataFrame) : bool :=
  forallb (fun n => Nat.leb (length (positions n df)) 1) names.

(** The columns the two song queries test for. *)
Definition song_columns_present (df : DataFrame) : bool :=
  has_col "year" df && has_col "title" df && has_col "artist" df
  && has_col "popularity" df.

(** The columns [get_top_artists] and [compare_artists] test for. *)
Definition artist_columns_present (df : DataFrame) : bool :=
  has_col "year" df && has_col "artist" df && has_col "popularity" df.

(** The vibe predicates as the specification tabulates them: a feature
    compared with a threshold, the comparison made with the stated default
    when the table has no such column, and false on a missing value. *)
Definition feature_lt (df : DataFrame) (name : string) (default t : Q)
           (r : row) : bool :=
  if has_col name df
  then match get df name r with Num q => Qlt_bool q t | _ => false end
  else Qlt_bool default t.

Definition feature_gt (df : DataFrame) (name : string) (default t : Q)
           (r : row) : bool :=
  if has_col name df
  then match get df name r with Num q => Qlt_bool t q | _ => false end
  else Qlt_bool t default.

Definition vibe_predicate (df : DataFrame) (vibe : string) (r : row) : bool :=
  if String.eqb vibe "chill" then
    feature_lt df "energy" 1 (4 # 10) r
    && feature_gt df "acousticness" 0 (6 # 10) r
  else if String.eqb vibe "energetic" then
    feature_gt df "energy" 0 (8 # 10) r
    && feature_lt df "acousticness" 1 (2 # 10) r
  else if String.eqb vibe "gloomy" then
    feature_lt df "valence" 1 (3 # 10) r
    && feature_lt df "energy" 1 (4 # 10) r
  else if String.eqb vibe "party" then
    feature_gt df "danceability" 0 (8 # 10) r
    && feature_gt df "energy" 0 (7 # 10) r
  else if String.eqb vibe "sporty" then
    if has_col "tempo" df
    then feature_gt df "tempo" 0 120 r && feature_gt df "energy" 0 (8 # 10) r
    else feature_gt df "energy" 0 (8 # 10) r
  else false.

(** A mask computed on [df] stands for a predicate on its rows. *)
Definition mask_denotes (df : DataFrame) (m : mask) (p : row -> bool) : Prop :=
  match m with
  | Mask bits => bits = map p (rows df)
  | PyBool b => forall r, p r = b
  end.

(* ================================================================== *)
(** ** Generic lemmas *)

Lemma has_col_In (name : string) (df : DataFrame) :
  has_col name df = true <-> In name (columns df).
Proof.
  unfold has_col. rewrite existsb_exists. split.
  - intros [c [Hin Heq]]. apply String.eqb_eq in Heq. now subst.
  - intros Hin. exists name. split; [assumption | apply String.eqb_refl].
Qed.

Lemma has_col_select (name : string) (df : DataFrame) (m : list bool) :
  has_col name (select df m) = has_col name df.
Proof. reflexivity. Qed.

Lemma select_rows_map (f : row -> bool) (rs : list row) :
  select_rows (map f rs) rs = filter f rs.
Proof.
  induction rs as [|r rs IH]; simpl; [reflexivity|].
  rewrite IH. reflexivity.
Qed.

Lemma bind_Returned {A B : Type} (m : result A) (k : A -> result B) (b : B) :
  bind m k = Returned b -> exists a, m = Returned a /\ k a = Returned b.
Proof.
  destruct m as [a|e]; simpl; intros H; [now exists a | discriminate].
Qed.

Lemma mapM_total {A B : Type} (f : A -> result B) (g : A -> B) (l : list A) :
  (forall a, In a l -> f a = Returned (g a)) ->
  mapM f l = Returned (map g l).
Proof.
  induction l as [|a l IH]; simpl; intros H; [reflexivity|].
  rewrite (H a (or_introl eq_refl)). simpl.
  rewrite IH by (intros; apply H; now right). reflexivity.
Qed.

Lemma head_length {A : Type} (n : Z) (l : list A) :
  (0 <= n)%Z -> (length (head n l) <= Z.to_nat n)%nat.
Proof.
  intros Hn. unfold head.
  destruct (Z.leb_spec 0 n); [|lia].
  apply firstn_le_length.
Qed.

Lemma head_prefix {A : Type} (n : Z) (l : list A) :
  exists k, head n l = firstn k l.
Proof. unfold head. destruct (0 <=? n)%Z; eauto. Qed.

Lemma firstn_In {A : Type} (k : nat) (l : list A) (x : A) :
  In x (firstn k l) -> In x l.
Proof.
  intros H. rewrite <- (firstn_skipn k l). apply in_or_app. now left.
Qed.

Lemma firstn_NoDup {A : Type} (k : nat) (l : list A) :
  NoDup l -> NoDup (firstn k l).
Proof.
  revert k. induction l as [|x l IH]; intros [|k] H; simpl;
    try constructor.
  - inversion H; subst. intros Hin. apply firstn_In in Hin. contradiction.
  - inversion H; subst. now apply IH.
Qed.

Lemma firstn_StronglySorted {A : Type} (R : A -> A -> Prop) (k : nat)
      (l : list A) :
  StronglySorted R l -> StronglySorted R (firstn k l).
Proof.
  revert k. induction l as [|x l IH]; intros [|k] H; simpl;
    try constructor.
  - inversion H; subst. now apply IH.
  - inversion H; subst. rewrite Forall_forall in *.
    intros y Hy. apply firstn_In in Hy. auto.
Qed.

Section InsertionSortFacts.
Context {A : Type}.
Variable before : A -> A -> bool.

Lemma insert_perm (x : A) (l : list A) :
  Permutation (x :: l) (insert before x l).
Proof.
  induction l as [|y l IH]; simpl; [reflexivity|].
  destruct (before x y); [reflexivity|].
  rewrite perm_swap. now constructor.
Qed.

Lemma isort_perm (l : list A) : Permutation l (isort before l).
Proof.
  induction l as [|x l IH]; simpl; [constructor|].
  rewrite <- insert_perm. now constructor.
Qed.

Lemma isort_In (l : list A) (x : A) : In x (isort before l) <-> In x l.
Proof.
  split; apply Permutation_in;
    [symmetry|]; apply isort_perm.
Qed.

(** Sortedness, for an order that is total and transitive on the elements
    of the list. *)
Variable R : A -> A -> Prop.
Variable P : A -> Prop.
Hypothesis before_R : forall x y, P x -> P y -> before x y = true -> R x y.
Hypothesis before_total :
  forall x y, P x -> P y -> before x y = false -> R y x.
Hypothesis R_trans :
  forall x y z, P x -> P y -> P z -> R x y -> R y z -> R x z.

Lemma insert_sorted (x : A) (l : list A) :
  P x -> Forall P l -> StronglySorted R l ->
  StronglySorted R (insert before x l).
Proof.
  intros Px Pl Hs. induction Hs as [|y l Hs IH Hy]; simpl.
  - repeat constructor.
  - inversion Pl as [|? ? Py Pl']; subst.
    destruct (before x y) eqn:Hxy.
    + constructor; [now constructor|].
      constructor; [now apply before_R|].
      rewrite Forall_forall in *. intros z Hz.
      apply R_trans with y; auto.
    + constructor; [now apply IH|].
      rewrite Forall_forall in *. intros z Hz.
      apply (Permutation_in z (Permutation_sym (insert_perm x l))) in Hz.
      destruct Hz as [<-|Hz]; [now apply before_total | auto].
Qed.

Lemma isort_sorted (l : list A) :
  Forall P l -> StronglySorted R (isort before l).
Proof.
  induction l as [|x l IH]; simpl; intros Hl; [constructor|].
  inversion Hl as [|? ? Px Pl]; subst. apply insert_sorted.
  - exact Px.
  - rewrite Forall_forall in *. intros y Hy.
    apply Pl. now apply (isort_In l y).
  - now apply IH.
Qed.
End InsertionSortFacts.

(* ================================================================== *)
(** ** The model at work *)

(** The specification's merge example: the two one-key rows become one
    merged row carrying the primary cells, the secondary cells under
    suffixed labels, and the popularity. *)
Example load_all_data_example :
  load_all_data Samples.fs
  = Returned
      (mkDF ["id"; "title"; "artist"; "year"; "track_id"; "title_spotify";
             "artist_spotify"; "popularity"; "year_spotify"]
            [[Str "t1"; Str "Song A"; Str "Artist X"; Num 2010; Str "t1";
              Str "Song A"; Str "Artist X"; Num 77; PyNone];
             [Str "t2"; Str "Song B"; Str "Artist Y"; Num 2011; NaN; NaN;
              NaN; NaN; NaN]]).
Proof. reflexivity. Qed.

(** A year without rows gives a result without rows. *)
Example get_top_artists_no_rows :
  get_top_artists Samples.table 1999 10
  = Returned (mkDF ["artist"; "popularity"] []).
Proof. reflexivity. Qed.

Example get_top_artists_example :
  get_top_artists Samples.table 2000 10
  = Returned (mkDF ["artist"; "popularity"]
                   [[Str "Y"; Num 25]; [Str "X"; Num 20]; [Str "Z"; NaN]]).
Proof. reflexivity. Qed.

Example get_most_popular_songs_example :
  get_most_popular_songs Samples.table 2000 2
  = Returned (mkDF ["title"; "artist"; "popularity"]
                   [[Str "b"; Str "X"; Num 30]; [Str "c"; Str "Y"; Num 25]]).
Proof. reflexivity. Qed.

Example compare_artists_example :
  compare_artists Samples.table "X" "Y"
  = Returned (mkDF ["year"; "artist"; "popularity"]
                   [[Num 2000; Str "X"; Num 20]; [Num 2000; Str "Y"; Num 25];
                    [Num 2001; Str "Y"; Num 99]]).
Proof. reflexivity. Qed.

(** One feature column absent: every comparison with the default is false
    and the result is the empty frame. *)
Example get_songs_by_vibe_one_feature_absent :
  get_songs_by_vibe (fun _ => 0%nat) Samples.table "party" 5
  = Returned pd_DataFrame.
Proof. reflexivity. Qed.

(** Two [title] columns: the Top Charts table shows both, and the
    birth-year message fails on the truth value of the title Series. *)
Example top_charts_songs_two_titles :
  top_charts_songs Samples.two_titles 2000
  = Returned
      (ShowTable (mkDF ["title"; "title"; "artist"; "popularity"]
                       [[Str "Song B"; Str "B (live)"; Str "Y"; Num 30];
                        [Str "Song A"; Str "A (live)"; Str "X"; Num 10]])).
Proof. reflexivity. Qed.

Example birth_year_message_two_titles :
  birth_year_message (fun _ => Raised ValueError) Samples.two_titles 2000
  = Raised ValueError.
Proof. reflexivity. Qed.

(** Two [popularity] columns: [compare_artists] gives a mean for each. *)
Example compare_artists_two_popularities :
  compare_artists
    (mkDF ["artist"; "year"; "popularity"; "popularity"]
          [[Str "X"; Num 2000; Num 10; Num 1];
           [Str "X"; Num 2000; Num 30; Num 3];
           [Str "Y"; Num 2000; Num 50; NaN]])
    "X" "Y"
  = Returned
      (mkDF ["year"; "artist"; "popularity"; "popularity"]
            [[Num 2000; Str "X"; Num 20; Num 2];
             [Num 2000; Str "Y"; Num 50; NaN]]).
Proof. reflexivity. Qed.

(* ================================================================== *)
(** ** Column labels *)

Lemma index_of_lt (name : string) (cols : list string) (i : nat) :
  index_of name cols = Some i -> (i < length cols)%nat /\ nth i cols "" = name.
Proof.
  revert i. induction cols as [|c cols IH]; simpl; intros i H; [discriminate|].
  destruct (String.eqb_spec name c) as [->|Hne].
  - injection H as <-. split; [lia | reflexivity].
  - destruct (index_of name cols) as [j|]; [|discriminate].
    injection H as <-. destruct (IH j eq_refl). split; [lia | assumption].
Qed.

Lemma index_of_None (name : string) (cols : list string) :
  index_of name cols = None <-> ~ In name cols.
Proof.
  induction cols as [|c cols IH]; simpl; [tauto|].
  destruct (String.eqb_spec name c) as [->|Hne].
  - split; [discriminate | tauto].
  - destruct (index_of name cols) as [j|]; simpl.
    + split; [discriminate|]. intros H. exfalso. apply H. right.
      destruct (in_dec string_dec name cols) as [Hin|Hn]; [assumption|].
      apply IH in Hn. discriminate.
    + split; [|reflexivity]. intros _ [Heq|Hin]; [now subst|].
      now apply (proj1 IH).
Qed.

Lemma index_of_app_in (name : string) (cols more : list string) :
  In name cols -> index_of name (cols ++ more) = index_of name cols.
Proof.
  induction cols as [|c cols IH]; simpl; [tauto|].
  destruct (String.eqb_spec name c) as [->|Hne]; [reflexivity|].
  intros [Heq|Hin]; [now subst|]. now rewrite IH.
Qed.

Lemma index_of_app_new (name : string) (cols : list string) :
  ~ In name cols -> index_of name (cols ++ [name]) = Some (length cols).
Proof.
  induction cols as [|c cols IH]; simpl; intros Hn.
  - now rewrite String.eqb_refl.
  - destruct (String.eqb_spec name c) as [->|Hne]; [tauto|].
    rewrite IH by tauto. reflexivity.
Qed.

Lemma positions_from_index (start : nat) (name : string) (cols : list string) :
  match index_of name cols with
  | None => positions_from start name cols = []
  | Some i => exists more, positions_from start name cols = (start + i)%nat :: more
  end.
Proof.
  revert start. induction cols as [|c cols IH]; intros start; simpl.
  - reflexivity.
  - destruct (String.eqb name c).
    + eexists. now rewrite Nat.add_0_r.
    + specialize (IH (S start)). destruct (index_of name cols) as [i|]; simpl.
      * destruct IH as [more ->]. exists more. f_equal. lia.
      * exact IH.
Qed.

Lemma has_col_index_of (name : string) (df : DataFrame) :
  has_col name df = true ->
  exists i, index_of name (columns df) = Some i.
Proof.
  intros H. destruct (index_of name (columns df)) as [i|] eqn:Hi; [eauto|].
  apply index_of_None in Hi. exfalso. apply Hi.
  unfold has_col in H. apply existsb_exists in H.
  destruct H as [c [Hc Heq]]. apply String.eqb_eq in Heq. now subst.
Qed.

Lemma nth_col_pos (name : string) (df : DataFrame) :
  has_col name df = true -> nth (col_pos name df) (columns df) "" = name.
Proof.
  intros H. destruct (has_col_index_of name df H) as [i Hi].
  unfold col_pos. rewrite Hi. now apply index_of_lt.
Qed.

(** A label carried by one column: the only position is the first. *)
Lemma positions_single (name : string) (df : DataFrame) :
  has_col name df = true ->
  (length (positions name df) <= 1)%nat ->
  positions name df = [col_pos name df].
Proof.
  intros H Hlen. destruct (has_col_index_of name df H) as [i Hi].
  unfold positions, col_pos in *. rewrite Hi.
  pose proof (positions_from_index 0 name (columns df)) as Hp.
  rewrite Hi in Hp. destruct Hp as [more Hp]. rewrite Hp in *.
  destruct more; [reflexivity | simpl in Hlen; lia].
Qed.

Lemma labels_unique_In (names : list string) (df : DataFrame) (n : string) :
  labels_unique names df = true -> In n names ->
  (length (positions n df) <= 1)%nat.
Proof.
  unfold labels_unique. rewrite forallb_forall. intros H Hin.
  apply Nat.leb_le. now apply H.
Qed.

Lemma unique_label_intro (names : list string) (df : DataFrame) (n : string) :
  labels_unique names df = true -> In n names -> has_col n df = true ->
  unique_label n df = true /\ positions n df = [col_pos n df].
Proof.
  intros Hu Hin Hc.
  pose proof (positions_single n df Hc (labels_unique_In names df n Hu Hin))
    as Hp.
  split; [|exact Hp]. unfold unique_label. now rewrite Hp.
Qed.

Lemma unique_label_positions (n : string) (df : DataFrame) :
  unique_label n df = true -> positions n df = [col_pos n df].
Proof.
  unfold unique_label. intros H. apply Nat.eqb_eq in H.
  assert (Hc : has_col n df = true).
  { destruct (index_of n (columns df)) as [i|] eqn:Hi.
    - destruct (in_dec string_dec n (columns df)) as [Hin|Hn].
      + unfold has_col. apply existsb_exists. exists n.
        split; [assumption | apply String.eqb_refl].
      + apply index_of_None in Hn. congruence.
    - pose proof (positions_from_index 0 n (columns df)) as Hp.
      rewrite Hi in Hp. unfold positions in H. rewrite Hp in H.
      discriminate. }
  apply positions_single; [assumption | lia].
Qed.

Lemma unique_label_leb (n : string) (df : DataFrame) :
  unique_label n df = true -> Nat.leb (length (positions n df)) 1 = true.
Proof.
  unfold unique_label. intros H. apply Nat.eqb_eq in H. now rewrite H.
Qed.

Lemma unique_label_select (n : string) (df : DataFrame) (m : list bool) :
  unique_label n (select df m) = unique_label n df.
Proof. reflexivity. Qed.

Lemma row_getitem_unique (n : string) (df : DataFrame) (r : row) :
  positions n df = [col_pos n df] ->
  row_getitem df n r = ScalarValue (get df n r).
Proof. unfold row_getitem. now intros ->. Qed.

(** Selecting three labels, each carried by one column. *)
Lemma getitem_list_three (df : DataFrame) (a b c : string) :
  has_col a df = true -> has_col b df = true -> has_col c df = true ->
  positions a df = [col_pos a df] ->
  positions b df = [col_pos b df] ->
  positions c df = [col_pos c df] ->
  getitem_list df [a; b; c]
  = Returned (mkDF [a; b; c]
                   (map (fun r => [get df a r; get df b r; get df c r])
                        (rows df))).
Proof.
  intros Ha Hb Hc Pa Pb Pc. unfold getitem_list. cbn [forallb flat_map].
  rewrite Ha, Hb, Hc, Pa, Pb, Pc. cbn [andb negb app map].
  now rewrite !nth_col_pos.
Qed.

Lemma row_at_seq_cell (n j : nat) (r : row) :
  (j < n)%nat -> cell_at j (row_at (seq 0 n) r) = cell_at j r.
Proof.
  intros Hj. unfold row_at, cell_at at 1.
  rewrite (nth_indep _ NaN (cell_at 0 r)) by (rewrite length_map, length_seq; lia).
  rewrite (map_nth (fun i => cell_at i r) (seq 0 n) 0%nat j).
  change (map (fun i => cell_at i r) (seq 0 n)) with (row_at (seq 0 n) r).
  rewrite seq_nth by lia. reflexivity.
Qed.

Lemma row_at_length (idxs : list nat) (r : row) :
  length (row_at idxs r) = length idxs.
Proof. unfold row_at. apply length_map. Qed.

Lemma has_col_rename (name old new : string) (df : DataFrame) :
  name <> old -> name <> new ->
  has_col name (rename old new df) = has_col name df.
Proof.
  intros Ho Hn. unfold has_col, rename; simpl.
  induction (columns df) as [|c cols IH]; simpl; [reflexivity|].
  rewrite IH. f_equal.
  destruct (String.eqb_spec c old) as [->|Hc].
  - destruct (String.eqb_spec name new); [contradiction|].
    destruct (String.eqb_spec name old); [contradiction | reflexivity].
  - reflexivity.
Qed.

Lemma has_col_year_normalize_tracks (df : DataFrame) :
  has_col "year" (normalize_tracks df) = has_col "year" df.
Proof.
  unfold normalize_tracks.
  destruct (has_col "name" df);
    [destruct (has_col "artists" (rename "name" "title" df))
    |destruct (has_col "artists" df)];
    repeat (rewrite has_col_rename by discriminate); reflexivity.
Qed.

Lemma has_col_year_normalize_spotify (df : DataFrame) :
  has_col "year" (normalize_spotify df) = has_col "year" df.
Proof.
  unfold normalize_spotify.
  destruct (has_col "track_name" df);
    [destruct (has_col "artists" (rename "track_name" "title" df))
    |destruct (has_col "artists" df)];
    repeat (rewrite has_col_rename by discriminate); reflexivity.
Qed.

(** What line 28 does to the secondary frame. *)
Lemma set_column_scalar_new (df : DataFrame) (name : string) (v : cell) :
  ~ In name (columns df) ->
  set_column_scalar df name v =
  mkDF (columns df ++ [name])
       (map (fun r => row_at (seq 0 (length (columns df))) r ++ [v]) (rows df)).
Proof.
  intros Hn. unfold set_column_scalar, set_column.
  rewrite (proj2 (index_of_None name (columns df)) Hn). f_equal.
  induction (rows df) as [|r rs IH]; simpl; [reflexivity|].
  now rewrite IH.
Qed.

Lemma has_col_set_column_scalar (name other : string) (df : DataFrame)
      (v : cell) :
  other <> name ->
  has_col other (set_column_scalar df name v) = has_col other df.
Proof.
  intros Hne. unfold set_column_scalar, set_column, has_col.
  destruct (index_of name (columns df)); simpl; [reflexivity|].
  rewrite existsb_app; simpl.
  destruct (String.eqb_spec other name); [contradiction|].
  now rewrite !orb_false_r.
Qed.

Lemma has_col_backfill_snd (other : string) (t s : DataFrame) :
  other <> "year" ->
  has_col other (snd (backfill_year t s)) = has_col other s.
Proof.
  intros Hne. unfold backfill_year.
  destruct (has_col "year" t && negb (has_col "year" s)); simpl;
    [now apply has_col_set_column_scalar | reflexivity].
Qed.

Lemma backfill_fst (t s : DataFrame) : fst (backfill_year t s) = t.
Proof.
  unfold backfill_year.
  now destruct (has_col "year" t && negb (has_col "year" s)).
Qed.

(* ================================================================== *)
(** ** The loader *)

(** C1 (the code departs from the claim): when one of the two input files is
    missing or unreadable, [load_all_data] does not hand a "no data" value to
    its caller; the read raises and nothing catches it, neither in the loader
    nor at the call in [app.py], so the start-up ends on the unhandled
    exception and never reaches its "Dataset not loaded or empty" stop. *)
Theorem load_all_data_missing_file_raises (fs : filesystem) :
  fs "data/tracks.csv" = None \/ fs "data/spotify_tracks.csv" = None ->
  exists path,
    load_all_data fs = Raised (FileNotFoundError path)
    /\ app_startup fs = UnhandledException (FileNotFoundError path).
Proof.
  intros H. unfold app_startup, load_all_data, read_csv.
  destruct (fs "data/tracks.csv") as [t|] eqn:Ht.
  - destruct H as [H|H]; [discriminate|]. rewrite H. simpl.
    now exists "data/spotify_tracks.csv".
  - simpl. now exists "data/tracks.csv".
Qed.

Lemma load_all_data_missing_file_raises_witness :
  exists path,
    load_all_data Samples.fs_no_spotify = Raised (FileNotFoundError path)
    /\ app_startup Samples.fs_no_spotify
       = UnhandledException (FileNotFoundError path).
Proof.
  apply (load_all_data_missing_file_raises Samples.fs_no_spotify).
  right. reflexivity.
Defined.

(** C2, as the claim states it, fails when only the secondary source carries
    [year]: the primary source reaches the merge without a [year] column. *)
Lemma backfill_year_not_symmetric :
  has_col "year" Samples.tracks_no_year = false
  /\ has_col "year" Samples.spotify_with_year = true
  /\ has_col "year"
       (fst (prepare Samples.tracks_no_year Samples.spotify_with_year))
     = false
  /\ prepare Samples.tracks_no_year Samples.spotify_with_year
     = (normalize_tracks Samples.tracks_no_year,
        normalize_spotify Samples.spotify_with_year).
Proof. repeat split; reflexivity. Qed.

(** C2 (amended): the back-fill goes one way.  When the primary source
    carries [year] and the secondary does not, the secondary is given a
    [year] column, appended after its own columns and holding [None] in
    every row, its other cells unchanged; in every other case, also when only
    the secondary source carries [year], both frames reach the merge as
    normalisation left them.  The primary frame is never touched. *)
Theorem backfill_year_primary_to_secondary (tracks_raw spotify_raw : DataFrame) :
  let t := normalize_tracks tracks_raw in
  let s := normalize_spotify spotify_raw in
  let s' := snd (prepare tracks_raw spotify_raw) in
  fst (prepare tracks_raw spotify_raw) = t
  /\ (has_col "year" tracks_raw = true ->
      has_col "year" spotify_raw = false ->
      columns s' = columns s ++ ["year"]
      /\ length (rows s') = length (rows s)
      /\ (forall r, In r (rows s') -> get s' "year" r = PyNone)
      /\ (forall i name,
             In name (columns s) ->
             get s' name (nth i (rows s') []) = get s name (nth i (rows s) [])))
  /\ (has_col "year" tracks_raw = false \/ has_col "year" spotify_raw = true ->
      s' = s).
Proof.
  intros t s s'. subst s'. unfold prepare. fold t s.
  split; [apply backfill_fst|]. split.
  - intros Ht Hs.
    assert (Hn : ~ In "year" (columns s)).
    { intros Hin. apply has_col_In in Hin. subst s.
      rewrite has_col_year_normalize_spotify in Hin. congruence. }
    unfold backfill_year. subst t s.
    rewrite has_col_year_normalize_tracks, has_col_year_normalize_spotify.
    rewrite Ht, Hs. simpl.
    set (s := normalize_spotify spotify_raw) in *.
    rewrite (set_column_scalar_new s "year" PyNone Hn).
    simpl. split; [reflexivity|]. split; [apply length_map|]. split.
    + intros r Hr. apply in_map_iff in Hr. destruct Hr as [r0 [<- _]].
      unfold get, col_pos; simpl. rewrite (index_of_app_new _ _ Hn).
      unfold cell_at. rewrite app_nth2; rewrite row_at_length, length_seq;
        [|lia]. now rewrite Nat.sub_diag.
    + intros i name Hin. unfold get, col_pos; simpl.
      rewrite (index_of_app_in _ _ ["year"] Hin).
      destruct (index_of name (columns s)) as [j|] eqn:Hj;
        [|apply index_of_None in Hj; contradiction].
      apply index_of_lt in Hj. destruct Hj as [Hj _].
      destruct (Nat.lt_ge_cases i (length (rows s))) as [Hi|Hi].
      * rewrite (nth_indep _ [] ((fun r => row_at (seq 0 (length (columns s))) r
                                             ++ [PyNone]) []))
          by (rewrite length_map; lia).
        rewrite (map_nth (fun r => row_at (seq 0 (length (columns s))) r
                                   ++ [PyNone]) (rows s) [] i).
        unfold cell_at at 1. rewrite app_nth1
          by (rewrite row_at_length, length_seq; lia).
        now apply row_at_seq_cell.
      * rewrite !nth_overflow by (rewrite ?length_map; lia). reflexivity.
  - intros H. unfold backfill_year. subst t s.
    rewrite has_col_year_normalize_tracks, has_col_year_normalize_spotify.
    destruct H as [-> | ->]; simpl; [reflexivity|].
    now rewrite andb_false_r.
Qed.

Lemma backfill_year_primary_to_secondary_witness :
  columns (snd (prepare Samples.tracks Samples.spotify))
  = ["track_id"; "title"; "artist"; "popularity"; "year"]
  /\ get (snd (prepare Samples.tracks Samples.spotify)) "year"
         [Str "t1"; Str "Song A"; Str "Artist X"; Num 77; PyNone] = PyNone
  /\ snd (prepare Samples.tracks_no_year Samples.spotify_with_year)
     = normalize_spotify Samples.spotify_with_year.
Proof.
  pose proof (backfill_year_primary_to_secondary
                Samples.tracks Samples.spotify) as [_ [H1 _]].
  pose proof (backfill_year_primary_to_secondary
                Samples.tracks_no_year Samples.spotify_with_year) as [_ [_ H2]].
  destruct (H1 eq_refl eq_refl) as [Hc [_ [Hy _]]].
  split; [exact Hc|]. split.
  - apply Hy. simpl. left. reflexivity.
  - apply H2. right. reflexivity.
Defined.

(** *** The join *)

Lemma keys_eqb_map (f g : string -> cell) (ks : list string) :
  keys_eqb (map f ks) (map g ks) = forallb (fun k => key_eqb (f k) (g k)) ks.
Proof.
  induction ks as [|k ks IH]; simpl; [reflexivity | now rewrite IH].
Qed.

Lemma merge_left_never_KeyError (t s : DataFrame) (lon ron : list string)
      (shared : bool) (msg : string) :
  merge_left t s lon ron shared <> Raised (KeyError msg).
Proof.
  unfold merge_left.
  destruct (negb _); [discriminate|].
  destruct (new_duplicates _ _); discriminate.
Qed.

Lemma merge_left_Returned (t s : DataFrame) (ks ks' : list string)
      (shared : bool) (merged : DataFrame) :
  merge_left t s ks ks' shared = Returned merged ->
  exists rlabels rkeep,
    columns merged = columns t ++ rlabels
    /\ rows merged =
       flat_map
         (fun l =>
            let lrow := row_at (seq 0 (length (columns t))) l in
            match filter (fun r =>
                            keys_eqb (row_at (map (fun k => col_pos k t) ks) l)
                                     (row_at (map (fun k => col_pos k s) ks') r))
                         (rows s) with
            | [] => [lrow ++ repeat NaN (length rkeep)]
            | ms => map (fun r => lrow ++ row_at rkeep r) ms
            end)
         (rows t).
Proof.
  unfold merge_left.
  destruct (negb _); [discriminate|].
  destruct (new_duplicates _ _); [discriminate|].
  intros H. injection H as <-. simpl. eauto.
Qed.

Lemma merge_logic_Returned (t s merged : DataFrame) :
  merge_logic t s = Returned merged ->
  exists rlabels rkeep,
    columns merged = columns t ++ rlabels
    /\ rows merged = flat_map (merged_block t s rkeep) (rows t).
Proof.
  unfold merge_logic. intros H.
  assert (Hgoal : forall ks ks',
             (forall l r, keys_eqb (row_at (map (fun k => col_pos k t) ks) l)
                                   (row_at (map (fun k => col_pos k s) ks') r)
                          = matches t s l r) ->
             merge_left t s ks ks' (negb (has_col "id" t && has_col "track_id" s))
             = Returned merged ->
             exists rlabels rkeep,
               columns merged = columns t ++ rlabels
               /\ rows merged = flat_map (merged_block t s rkeep) (rows t)).
  { intros ks ks' Hm Hr. apply merge_left_Returned in Hr.
    destruct Hr as [rlabels [rkeep [Hc Hrows]]].
    exists rlabels, rkeep. split; [assumption|]. rewrite Hrows.
    apply flat_map_ext. intros l. unfold merged_block.
    rewrite (filter_ext _ (matches t s l)) by (intros r; apply Hm).
    reflexivity. }
  destruct (has_col "id" t && has_col "track_id" s) eqn:Hid.
  - apply (Hgoal ["id"] ["track_id"]); [|exact H].
    intros l r. unfold matches. rewrite Hid. simpl.
    now rewrite andb_true_r.
  - destruct (merge_keys t s) as [|k ks] eqn:Hk; [discriminate|].
    apply (Hgoal (k :: ks) (k :: ks)); [|exact H].
    intros l r. unfold matches. rewrite Hid, Hk.
    unfold row_at. rewrite !map_map.
    apply (keys_eqb_map (fun k => get t k l) (fun k => get s k r)).
Qed.

(** Lines 53-54 never fire: the merged table keeps every primary column
    under its own label. *)
Lemma guarantee_year_idle (t merged : DataFrame) (rlabels : list string) :
  columns merged = columns t ++ rlabels ->
  guarantee_year t merged = merged.
Proof.
  intros Hc. unfold guarantee_year.
  destruct (has_col "year" t) eqn:Hy; [|now rewrite andb_false_r].
  assert (H : has_col "year" merged = true).
  { unfold has_col in *. rewrite Hc, existsb_app, Hy. reflexivity. }
  now rewrite H.
Qed.

Lemma load_all_data_unfold (fs : filesystem) (tracks_raw spotify_raw : DataFrame) :
  fs "data/tracks.csv" = Some tracks_raw ->
  fs "data/spotify_tracks.csv" = Some spotify_raw ->
  load_all_data fs =
  (merged <- merge_logic (fst (prepare tracks_raw spotify_raw))
                         (snd (prepare tracks_raw spotify_raw)) ;;
   Returned (guarantee_year (fst (prepare tracks_raw spotify_raw)) merged)).
Proof.
  intros Ht Hs. unfold load_all_data, read_csv. rewrite Ht, Hs. simpl.
  now destruct (prepare tracks_raw spotify_raw).
Qed.

(** C3: with both files read, the loader raises the missing-join-key error
    exactly when, after column normalisation, neither the identifier pair
    ([id] in the primary and [track_id] in the secondary source) nor one of
    [title], [artist] is present in both sources; it then returns no table.
    When a join key is available, no [KeyError] is raised. *)
Theorem missing_join_key_iff (fs : filesystem) (tracks_raw spotify_raw : DataFrame) :
  fs "data/tracks.csv" = Some tracks_raw ->
  fs "data/spotify_tracks.csv" = Some spotify_raw ->
  let t := normalize_tracks tracks_raw in
  let s := normalize_spotify spotify_raw in
  let available :=
    (In "id" (columns t) /\ In "track_id" (columns s))
    \/ (In "title" (columns t) /\ In "title" (columns s))
    \/ (In "artist" (columns t) /\ In "artist" (columns s)) in
  (~ available ->
   load_all_data fs = Raised missing_join_key
   /\ forall df, load_all_data fs <> Returned df)
  /\ (available -> forall msg, load_all_data fs <> Raised (KeyError msg)).
Proof.
  intros Ht Hs t s available.
  rewrite (load_all_data_unfold fs _ _ Ht Hs).
  unfold prepare. fold t s. rewrite backfill_fst.
  set (s' := snd (backfill_year t s)).
  assert (Hs' : forall k, k <> "year" -> has_col k s' = has_col k s)
    by (intros k Hk; now apply has_col_backfill_snd).
  unfold merge_logic, merge_keys. simpl filter.
  rewrite !Hs' by discriminate.
  assert (Hin : forall k df, has_col k df = true <-> In k (columns df))
    by (intros; apply has_col_In).
  split.
  - intros Hna.
    assert (Hid : has_col "id" t && has_col "track_id" s = false).
    { apply not_true_is_false. intros H. apply andb_prop in H.
      apply Hna. left. split; apply Hin; tauto. }
    assert (Hti : has_col "title" t && has_col "title" s = false).
    { apply not_true_is_false. intros H. apply andb_prop in H.
      apply Hna. right. left. split; apply Hin; tauto. }
    assert (Har : has_col "artist" t && has_col "artist" s = false).
    { apply not_true_is_false. intros H. apply andb_prop in H.
      apply Hna. right. right. split; apply Hin; tauto. }
    rewrite Hid, Hti, Har. simpl. split; [reflexivity | discriminate].
  - intros Hav msg.
    destruct (has_col "id" t && has_col "track_id" s) eqn:Hid.
    + intros H. destruct (merge_left t s' ["id"] ["track_id"] false) eqn:Hm;
        simpl in H; [discriminate|].
      injection H as ->. now apply merge_left_never_KeyError in Hm.
    + assert (Hk : has_col "title" t && has_col "title" s = true
                   \/ has_col "artist" t && has_col "artist" s = true).
      { destruct Hav as [[H1 H2]|[[H1 H2]|[H1 H2]]];
          apply Hin in H1; apply Hin in H2.
        - rewrite H1, H2 in Hid. discriminate.
        - left. now rewrite H1, H2.
        - right. now rewrite H1, H2. }
      destruct (has_col "title" t && has_col "title" s);
        destruct (has_col "artist" t && has_col "artist" s);
        try (destruct Hk; discriminate);
        match goal with
        | |- context [merge_left ?a ?b ?c ?d ?e] =>
            intros H; destruct (merge_left a b c d e) eqn:Hm;
            simpl in H; [discriminate|];
            injection H as ->; now apply merge_left_never_KeyError in Hm
        end.
Qed.

Lemma missing_join_key_iff_witness :
  load_all_data Samples.fs_no_key = Raised missing_join_key
  /\ load_all_data Samples.fs <> Raised missing_join_key.
Proof.
  split.
  - apply (missing_join_key_iff Samples.fs_no_key _ _ eq_refl eq_refl).
    simpl. intuition discriminate.
  - apply (proj2 (missing_join_key_iff Samples.fs _ _ eq_refl eq_refl)).
    left. simpl. tauto.
Defined.

Lemma merged_block_nonempty (t s : DataFrame) (rkeep : list nat) (l : row) :
  merged_block t s rkeep l <> [].
Proof.
  unfold merged_block.
  destruct (filter (matches t s l) (rows s)); simpl; discriminate.
Qed.

Lemma merged_block_left_cells (t s : DataFrame) (rkeep : list nat) (l m : row)
      (j : nat) :
  In m (merged_block t s rkeep l) ->
  (j < length (columns t))%nat ->
  cell_at j m = cell_at j l.
Proof.
  intros Hm Hj.
  assert (H : exists tail,
             m = row_at (seq 0 (length (columns t))) l ++ tail).
  { unfold merged_block in Hm.
    destruct (filter (matches t s l) (rows s)) as [|r0 ms].
    - destruct Hm as [<-|[]]. eauto.
    - apply in_map_iff in Hm. destruct Hm as [r [<- _]]. eauto. }
  destruct H as [tail ->].
  unfold cell_at at 1.
  rewrite app_nth1 by (rewrite row_at_length, length_seq; lia).
  now apply row_at_seq_cell.
Qed.

Lemma merged_block_unmatched (t s : DataFrame) (rkeep : list nat) (l : row) :
  (forall r, In r (rows s) -> matches t s l r = false) ->
  merged_block t s rkeep l
  = [row_at (seq 0 (length (columns t))) l ++ repeat NaN (length rkeep)].
Proof.
  intros Hno. unfold merged_block.
  destruct (filter (matches t s l) (rows s)) as [|r0 ms] eqn:Hf;
    [reflexivity|].
  assert (Hin : In r0 (filter (matches t s l) (rows s)))
    by (rewrite Hf; now left).
  apply filter_In in Hin. destruct Hin as [Hin Hm].
  rewrite (Hno r0 Hin) in Hm. discriminate.
Qed.

Lemma nth_repeat_NaN (k j : nat) : nth j (repeat NaN k) NaN = NaN.
Proof.
  revert j. induction k as [|k IH]; intros [|j]; simpl; auto.
Qed.

(** C4: whenever the loader returns a merged table, that table is the
    primary rows' blocks in order: every primary row contributes at least one
    merged row, each of which carries the primary row's cells under every
    primary column; a primary row that no secondary row matches on the join
    key contributes exactly one row, whose cells in all the columns coming
    from the secondary source are NaN.  This holds for the identifier join
    and for the composite-key join alike. *)
Theorem left_rows_survive_merge (fs : filesystem)
        (tracks_raw spotify_raw merged : DataFrame) :
  fs "data/tracks.csv" = Some tracks_raw ->
  fs "data/spotify_tracks.csv" = Some spotify_raw ->
  load_all_data fs = Returned merged ->
  let t := fst (prepare tracks_raw spotify_raw) in
  let s := snd (prepare tracks_raw spotify_raw) in
  exists (secondary_labels : list string) (blocks : list (list row)),
    columns merged = columns t ++ secondary_labels
    /\ rows merged = concat blocks
    /\ Forall2
         (fun l block =>
            block <> []
            /\ (forall m, In m block ->
                          forall name, In name (columns t) ->
                                       get merged name m = get t name l)
            /\ ((forall r, In r (rows s) -> matches t s l r = false) ->
                exists m, block = [m]
                          /\ forall j, (length (columns t) <= j)%nat ->
                                       cell_at j m = NaN))
         (rows t) blocks.
Proof.
  intros Ht Hs Hload t s.
  rewrite (load_all_data_unfold fs _ _ Ht Hs) in Hload. fold t s in Hload.
  apply bind_Returned in Hload. destruct Hload as [mg [Hmg Hret]].
  apply merge_logic_Returned in Hmg.
  destruct Hmg as [rlabels [rkeep [Hcols Hrows]]].
  rewrite (guarantee_year_idle t mg rlabels Hcols) in Hret.
  injection Hret as <-.
  exists rlabels, (map (merged_block t s rkeep) (rows t)).
  split; [assumption|]. split; [now rewrite <- flat_map_concat_map|].
  clear Hrows. induction (rows t) as [|l ls IH]; simpl; constructor;
    [|exact IH].
  split; [apply merged_block_nonempty|]. split.
  - intros m Hm name Hname. unfold get, col_pos. rewrite Hcols.
    rewrite (index_of_app_in _ _ rlabels Hname).
    destruct (index_of name (columns t)) as [j|] eqn:Hj;
      [|apply index_of_None in Hj; contradiction].
    apply index_of_lt in Hj. destruct Hj as [Hj _].
    now apply (merged_block_left_cells t s rkeep).
  - intros Hno. rewrite (merged_block_unmatched t s rkeep l Hno).
    eexists. split; [reflexivity|].
    intros j Hj. unfold cell_at.
    rewrite app_nth2 by (rewrite row_at_length, length_seq; lia).
    apply nth_repeat_NaN.
Qed.

Lemma left_rows_survive_merge_witness :
  exists (secondary_labels : list string) (blocks : list (list row)),
    ["id"; "title"; "artist"; "year"] ++ secondary_labels
    = ["id"; "title"; "artist"; "year"; "track_id"; "title_spotify";
       "artist_spotify"; "popularity"; "year_spotify"]
    /\ length (concat blocks) = 2%nat
    /\ Forall2 (fun (l : row) (block : list row) => block <> [])
               (rows Samples.tracks) blocks.
Proof.
  destruct (load_all_data Samples.fs) as [merged|e] eqn:Hload;
    [|discriminate].
  destruct (left_rows_survive_merge Samples.fs Samples.tracks Samples.spotify
              merged eq_refl eq_refl Hload)
    as [labels [blocks [Hc [Hr HF]]]].
  exists labels, blocks.
  injection Hload as <-.
  split; [symmetry; exact Hc|]. split; [now rewrite <- Hr|].
  eapply Forall2_impl; [|exact HF]. simpl. tauto.
Defined.

(* ================================================================== *)
(** ** [sort_values] on a numeric key *)

Lemma filter_split_perm {A : Type} (f : A -> bool) (l : list A) :
  Permutation l (filter f l ++ filter (fun x => negb (f x)) l).
Proof.
  induction l as [|x l IH]; simpl; [constructor|].
  destruct (f x); simpl.
  - now constructor.
  - now apply Permutation_cons_app.
Qed.

Lemma StronglySorted_app {A : Type} (R : A -> A -> Prop) (l1 l2 : list A) :
  StronglySorted R l1 -> StronglySorted R l2 ->
  (forall x y, In x l1 -> In y l2 -> R x y) ->
  StronglySorted R (l1 ++ l2).
Proof.
  intros H1 H2 H. induction H1 as [|x l1 H1 IH Hx]; simpl; [assumption|].
  constructor.
  - apply IH. intros a b Ha Hb. apply H; [now right | assumption].
  - apply Forall_app. split; [assumption|].
    rewrite Forall_forall. intros y Hy. apply H; [now left | assumption].
Qed.

Lemma StronglySorted_map {A B : Type} (R : A -> A -> Prop)
      (R' : B -> B -> Prop) (f : A -> B) (l : list A) :
  (forall a b, R a b -> R' (f a) (f b)) ->
  StronglySorted R l -> StronglySorted R' (map f l).
Proof.
  intros HR H. induction H as [|x l H IH Hx]; simpl; constructor;
    [assumption|].
  rewrite Forall_forall in *. intros y Hy.
  apply in_map_iff in Hy. destruct Hy as [a [<- Ha]]. auto.
Qed.

Lemma ranks_before_refl (c : cell) : numeric c = true -> ranks_before c c.
Proof. destruct c; simpl; try discriminate; intros _; [exact I | apply Qle_refl]. Qed.

Section SortNumeric.
Context {A : Type}.
Variable key : A -> cell.

Let R (a b : A) : Prop := ranks_before (key a) (key b).

Lemma sort_values_desc_numeric (l : list A) :
  (forall a, In a l -> numeric (key a) = true) ->
  exists sorted,
    sort_values_desc key l = Returned sorted
    /\ Permutation l sorted
    /\ StronglySorted R sorted.
Proof.
  intros Hnum. unfold sort_values_desc.
  set (non_nans := filter (fun a => negb (isna (key a))) l).
  set (nans := filter (fun a => isna (key a)) l).
  assert (Hnn : Forall (fun a => is_num (key a) = true) non_nans).
  { rewrite Forall_forall. intros a Ha. apply filter_In in Ha.
    destruct Ha as [Ha Hna]. specialize (Hnum a Ha).
    destruct (key a); simpl in *; congruence. }
  assert (Hstr : existsb (fun a => is_str (key a)) non_nans = false).
  { apply not_true_is_false. intros H. apply existsb_exists in H.
    destruct H as [a [Ha Hs]]. rewrite Forall_forall in Hnn.
    specialize (Hnn a Ha). destruct (key a); simpl in *; congruence. }
  rewrite Hstr, andb_false_r.
  eexists. split; [reflexivity|]. split.
  - rewrite <- (isort_perm _ non_nans).
    rewrite (filter_split_perm (fun a => negb (isna (key a))) l) at 1.
    apply Permutation_app_head.
    rewrite (filter_ext (fun x => negb (negb (isna (key x))))
                        (fun a => isna (key a)))
      by (intros; apply negb_involutive).
    reflexivity.
  - apply StronglySorted_app.
    + apply (isort_sorted _ R (fun a => is_num (key a) = true));
        [| | |exact Hnn]; unfold R.
      * intros x y Hx Hy. destruct (key x), (key y); simpl in *;
          try discriminate. intros H. now apply Qle_bool_iff.
      * intros x y Hx Hy. destruct (key x), (key y); simpl in *;
          try discriminate. intros H. apply Qlt_le_weak, Qnot_le_lt.
        intros Hle. apply Qle_bool_iff in Hle. congruence.
      * intros x y z Hx Hy Hz. destruct (key x), (key y), (key z);
          simpl in *; try discriminate. intros H1 H2.
        now apply Qle_trans with q0.
    + assert (Hn : forall b, In b nans -> forall a, R a b).
      { intros b Hb a. apply filter_In in Hb. destruct Hb as [_ Hb].
        unfold R. destruct (key b); simpl in Hb; try discriminate;
          now destruct (key a). }
      subst nans. induction (filter (fun a => isna (key a)) l)
        as [|b bs IH]; constructor.
      * apply IH. intros; apply Hn; now right.
      * rewrite Forall_forall. intros c Hc. apply Hn. now right.
    + intros x y _ Hy. apply filter_In in Hy. destruct Hy as [_ Hy].
      unfold R. destruct (key y); simpl in Hy; try discriminate;
        now destruct (key x).
Qed.
End SortNumeric.

Lemma year_df_rows (df : DataFrame) (year : Z) :
  rows (select df (year_mask df year)) = filter (in_year df year) (rows df).
Proof.
  unfold select, year_mask, column; simpl. rewrite map_map.
  apply (select_rows_map (fun r => cell_eq_num (get df "year" r)
                                               (inject_Z year))).
Qed.

Lemma get_select (df : DataFrame) (m : list bool) (name : string) (r : row) :
  get (select df m) name r = get df name r.
Proof. reflexivity. Qed.

Lemma StronglySorted_head {A : Type} (R : A -> A -> Prop) (x : A)
      (l : list A) (y : A) :
  StronglySorted R (x :: l) -> In y l -> R x y.
Proof.
  intros H Hy. inversion H as [|? ? _ HF]; subst.
  rewrite Forall_forall in HF. auto.
Qed.

(* ================================================================== *)
(** ** [get_most_popular_songs] and [get_most_popular_song_by_year] *)

Lemma numeric_year_df (df : DataFrame) (year : Z) :
  numeric_col df "popularity" ->
  forall r, In r (rows (select df (year_mask df year))) ->
            numeric (get (select df (year_mask df year)) "popularity" r) = true.
Proof.
  intros Hnum r Hr. rewrite year_df_rows in Hr. apply filter_In in Hr.
  rewrite get_select. apply Hnum. tauto.
Qed.

(** C7, as the specification has it, fails on a table the loader builds:
    from a primary file with both [name] and [title] it makes a table with
    two [title] columns, and the result then has four columns, not exactly
    [title], [artist], [popularity]. *)
Lemma get_most_popular_songs_not_three_columns :
  load_all_data Samples.fs_two_titles = Returned Samples.two_titles
  /\ get_most_popular_songs Samples.two_titles 2000 20
     = Returned
         (mkDF ["title"; "title"; "artist"; "popularity"]
               [[Str "Song B"; Str "B (live)"; Str "Y"; Num 30];
                [Str "Song A"; Str "A (live)"; Str "X"; Num 10]]).
Proof. split; reflexivity. Qed.

(** C7, amended: for a table in which no more than one column carries each
    of [year], [title], [artist], [popularity]: when one of them is missing
    the result is the empty frame.  Otherwise, for a count [top_n >= 0] and
    a numeric popularity column, the result has exactly the columns [title],
    [artist], [popularity], at most [top_n] rows, each the projection of a
    row of the given year, in descending order of popularity with missing
    popularities last; so the first row's popularity is at least that of
    every other returned row. *)
Theorem get_most_popular_songs_sorted (df : DataFrame) (year top_n : Z) :
  labels_unique ["year"; "title"; "artist"; "popularity"] df = true ->
  (song_columns_present df = false ->
   get_most_popular_songs df year top_n = Returned pd_DataFrame)
  /\ (song_columns_present df = true ->
      (0 <= top_n)%Z ->
      numeric_col df "popularity" ->
      exists out,
        get_most_popular_songs df year top_n = Returned out
        /\ columns out = ["title"; "artist"; "popularity"]
        /\ (length (rows out) <= Z.to_nat top_n)%nat
        /\ (forall r, In r (rows out) ->
              exists x, In x (rows df) /\ in_year df year x = true
                        /\ r = [get df "title" x; get df "artist" x;
                                get df "popularity" x])
        /\ StronglySorted
             (fun r1 r2 => ranks_before (get out "popularity" r1)
                                        (get out "popularity" r2))
             (rows out)
        /\ (forall first rest, rows out = first :: rest ->
              forall r, In r rest ->
                ranks_before (get out "popularity" first)
                             (get out "popularity" r))).
Proof.
  intros Hu. unfold song_columns_present, get_most_popular_songs.
  rewrite has_col_select, unique_label_select. split.
  - intros H.
    destruct (has_col "year" df) eqn:Hy, (has_col "title" df),
      (has_col "artist" df), (has_col "popularity" df);
      simpl in H; try discriminate; cbn [negb orb]; try reflexivity.
    destruct (unique_label_intro _ df "year" Hu) as [-> _];
      [simpl; tauto | exact Hy | reflexivity].
  - intros H Hn Hnum.
    destruct (has_col "year" df) eqn:Hy, (has_col "title" df) eqn:Ht,
      (has_col "artist" df) eqn:Ha, (has_col "popularity" df) eqn:Hp;
      simpl in H; try discriminate. cbn [negb orb].
    destruct (unique_label_intro _ df "year" Hu) as [-> _];
      [simpl; tauto | exact Hy |].
    destruct (unique_label_intro _ df "popularity" Hu) as [-> Pp];
      [simpl; tauto | exact Hp |].
    destruct (unique_label_intro _ df "title" Hu) as [_ Pt];
      [simpl; tauto | exact Ht |].
    destruct (unique_label_intro _ df "artist" Hu) as [_ Pa];
      [simpl; tauto | exact Ha |].
    cbn [negb].
    set (year_df := select df (year_mask df year)).
    destruct (sort_values_desc_numeric (get year_df "popularity")
                (rows year_df) (numeric_year_df df year Hnum))
      as [sorted [Hsort [Hperm Hss]]].
    rewrite Hsort. cbn [bind].
    rewrite (getitem_list_three (mkDF (columns year_df) (head top_n sorted))
               "title" "artist" "popularity" Ht Ha Hp Pt Pa Pp).
    eexists. split; [reflexivity|]. cbn [rows columns].
    destruct (head_prefix top_n sorted) as [k Hk].
    assert (Hsorted_out :
              StronglySorted
                (fun r1 r2 => ranks_before (cell_at 2 r1) (cell_at 2 r2))
                (map (fun r => [get year_df "title" r; get year_df "artist" r;
                                get year_df "popularity" r])
                     (head top_n sorted))).
    { apply (StronglySorted_map
               (fun a b => ranks_before (get year_df "popularity" a)
                                        (get year_df "popularity" b))).
      - intros a b Hab. exact Hab.
      - rewrite Hk. now apply firstn_StronglySorted. }
    split; [reflexivity|]. split; [|split; [|split]].
    + rewrite length_map. now apply head_length.
    + intros r Hr. apply in_map_iff in Hr. destruct Hr as [x [<- Hx]].
      rewrite Hk in Hx. apply firstn_In in Hx.
      apply (Permutation_in x (Permutation_sym Hperm)) in Hx.
      unfold year_df in Hx. rewrite year_df_rows in Hx.
      apply filter_In in Hx. exists x. split; [tauto|]. split; [tauto|].
      reflexivity.
    + exact Hsorted_out.
    + intros first rest Heq r Hr.
      change (map (fun r0 => [get (mkDF (columns year_df) (head top_n sorted)) "title" r0;
                              get (mkDF (columns year_df) (head top_n sorted)) "artist" r0;
                              get (mkDF (columns year_df) (head top_n sorted)) "popularity" r0])
                  (head top_n sorted))
        with (map (fun r => [get year_df "title" r; get year_df "artist" r;
                             get year_df "popularity" r])
                  (head top_n sorted)) in Heq.
      rewrite Heq in Hsorted_out.
      now apply (StronglySorted_head _ first rest r Hsorted_out).
Qed.

Lemma get_most_popular_songs_sorted_witness :
  get_most_popular_songs Samples.tracks 2010 20 = Returned pd_DataFrame
  /\ exists out,
      get_most_popular_songs Samples.table 2000 2 = Returned out
      /\ columns out = ["title"; "artist"; "popularity"]
      /\ (length (rows out) <= 2)%nat.
Proof.
  split.
  - apply (get_most_popular_songs_sorted Samples.tracks 2010 20);
      reflexivity.
  - destruct (proj2 (get_most_popular_songs_sorted Samples.table 2000 2
                       eq_refl))
      as [out [H1 [H2 [H3 _]]]].
    + reflexivity.
    + discriminate.
    + intros r Hr. simpl in Hr.
      repeat (destruct Hr as [<-|Hr]; [reflexivity|]). contradiction.
    + exists out. auto.
Defined.

Lemma filter_none {A : Type} (f : A -> bool) (l : list A) :
  (forall a, In a l -> f a = false) -> filter f l = [].
Proof.
  induction l as [|a l IH]; simpl; intros H; [reflexivity|].
  rewrite (H a (or_introl eq_refl)). apply IH. intros; apply H; now right.
Qed.

Lemma empty_year_df (df : DataFrame) (year : Z) :
  has_col "year" df = true ->
  empty (select df (year_mask df year)) = true
  <-> filter (in_year df year) (rows df) = [].
Proof.
  intros Hy. unfold empty. rewrite year_df_rows. simpl.
  destruct (columns df) as [|c cs] eqn:Hc.
  - unfold has_col in Hy. rewrite Hc in Hy. discriminate.
  - destruct (filter (in_year df year) (rows df)); split;
      intros; try reflexivity; discriminate.
Qed.

(** C8, as the specification has it, fails on a table the loader builds:
    with two [title] columns the first component of the result is not the
    title of a row but the Series of the row's two [title] cells. *)
Lemma get_most_popular_song_by_year_not_a_title :
  load_all_data Samples.fs_two_titles = Returned Samples.two_titles
  /\ get_most_popular_song_by_year Samples.two_titles 2000
     = Returned (SeriesValue [Str "Song B"; Str "B (live)"], Num 30).
Proof. split; reflexivity. Qed.

(** C8, amended: for a table in which no more than one column carries each
    of [year], [title], [popularity], and a numeric popularity column, the
    call returns [(None, None)] exactly when one of [year], [title],
    [artist], [popularity] is missing or no row has the year; otherwise it
    returns the title and popularity of a row of that year whose popularity
    no other row of the year exceeds (missing popularities rank last). *)
Theorem get_most_popular_song_by_year_spec (df : DataFrame) (year : Z) :
  labels_unique ["year"; "title"; "popularity"] df = true ->
  numeric_col df "popularity" ->
  (get_most_popular_song_by_year df year
   = Returned (ScalarValue PyNone, PyNone)
   <-> (song_columns_present df = false
        \/ forall r, In r (rows df) -> in_year df year r = false))
  /\ (song_columns_present df = true ->
      (exists r, In r (rows df) /\ in_year df year r = true) ->
      exists best,
        In best (rows df) /\ in_year df year best = true
        /\ get_most_popular_song_by_year df year
           = Returned (ScalarValue (get df "title" best),
                       get df "popularity" best)
        /\ forall r, In r (rows df) -> in_year df year r = true ->
                     ranks_before (get df "popularity" best)
                                  (get df "popularity" r)).
Proof.
  intros Hu Hnum.
  assert (Hmain :
            song_columns_present df = true ->
            (exists r, In r (rows df) /\ in_year df year r = true) ->
            exists best,
              In best (rows df) /\ in_year df year best = true
              /\ get_most_popular_song_by_year df year
                 = Returned (ScalarValue (get df "title" best),
                             get df "popularity" best)
              /\ forall r, In r (rows df) -> in_year df year r = true ->
                           ranks_before (get df "popularity" best)
                                        (get df "popularity" r)).
  { unfold song_columns_present, get_most_popular_song_by_year.
    rewrite has_col_select, unique_label_select. intros H [r0 [Hr0 Hy0]].
    destruct (has_col "year" df) eqn:Hyear, (has_col "title" df) eqn:Ht,
      (has_col "artist" df), (has_col "popularity" df) eqn:Hp;
      simpl in H; try discriminate. cbn [negb orb].
    destruct (unique_label_intro _ df "year" Hu) as [-> _];
      [simpl; tauto | exact Hyear |].
    destruct (unique_label_intro _ df "popularity" Hu) as [-> _];
      [simpl; tauto | exact Hp |].
    destruct (unique_label_intro _ df "title" Hu) as [_ Pt];
      [simpl; tauto | exact Ht |].
    cbn [negb].
    set (year_df := select df (year_mask df year)).
    destruct (empty year_df) eqn:He.
    { apply (empty_year_df df year Hyear) in He.
      assert (Hin : In r0 (filter (in_year df year) (rows df)))
        by (apply filter_In; tauto).
      rewrite He in Hin. contradiction. }
    destruct (sort_values_desc_numeric (get year_df "popularity")
                (rows year_df) (numeric_year_df df year Hnum))
      as [sorted [Hsort [Hperm Hss]]].
    rewrite Hsort. cbn [bind].
    assert (Hrows : rows year_df = filter (in_year df year) (rows df))
      by apply year_df_rows.
    destruct sorted as [|best rest].
    { apply Permutation_sym, Permutation_nil in Hperm.
      assert (Hin : In r0 (rows year_df))
        by (rewrite Hrows; apply filter_In; tauto).
      rewrite Hperm in Hin. contradiction. }
    exists best.
    assert (Hb : In best (filter (in_year df year) (rows df))).
    { rewrite <- Hrows. apply (Permutation_in best (Permutation_sym Hperm)).
      now left. }
    apply filter_In in Hb. destruct Hb as [Hb1 Hb2].
    split; [assumption|]. split; [assumption|]. split.
    { cbn [nth]. now rewrite (row_getitem_unique "title" year_df best Pt). }
    intros r Hr Hyr.
    assert (Hin : In r (best :: rest)).
    { apply (Permutation_in r Hperm). rewrite Hrows. apply filter_In. tauto. }
    destruct Hin as [<-|Hin].
    - apply ranks_before_refl. now apply Hnum.
    - now apply (StronglySorted_head _ best rest r Hss). }
  split; [|exact Hmain].
  split.
  - intros Hret.
    destruct (song_columns_present df) eqn:Hc; [|now left]. right.
    intros r Hr. destruct (in_year df year r) eqn:Hy; [|reflexivity].
    destruct (Hmain eq_refl (ex_intro _ r (conj Hr Hy)))
      as [best [Hb [_ [Hres _]]]].
    rewrite Hres in Hret. injection Hret as _ Hp.
    specialize (Hnum best Hb). rewrite Hp in Hnum. discriminate.
  - unfold song_columns_present, get_most_popular_song_by_year.
    rewrite has_col_select. intros [H|H].
    + destruct (has_col "year" df) eqn:Hyear, (has_col "title" df),
        (has_col "artist" df), (has_col "popularity" df);
        simpl in H; try discriminate; cbn [negb orb]; try reflexivity.
      destruct (unique_label_intro _ df "year" Hu) as [-> _];
        [simpl; tauto | exact Hyear | reflexivity].
    + destruct (has_col "year" df) eqn:Hyear; [|reflexivity].
      destruct (has_col "title" df); [|reflexivity].
      destruct (has_col "artist" df); [|reflexivity].
      cbn [negb orb].
      destruct (unique_label_intro _ df "year" Hu) as [-> _];
        [simpl; tauto | exact Hyear |]. cbn [negb].
      destruct (has_col "popularity" df); [|reflexivity]. cbn [negb orb].
      assert (He : empty (select df (year_mask df year)) = true).
      { apply (empty_year_df df year Hyear). now apply filter_none. }
      now rewrite He.
Qed.

Lemma get_most_popular_song_by_year_spec_witness :
  get_most_popular_song_by_year Samples.table 1999
  = Returned (ScalarValue PyNone, PyNone)
  /\ exists best,
      In best (rows Samples.table)
      /\ get_most_popular_song_by_year Samples.table 2000
         = Returned (ScalarValue (get Samples.table "title" best),
                     get Samples.table "popularity" best).
Proof.
  assert (Hnum : numeric_col Samples.table "popularity").
  { intros r Hr. simpl in Hr.
    repeat (destruct Hr as [<-|Hr]; [reflexivity|]). contradiction. }
  split.
  - apply (get_most_popular_song_by_year_spec Samples.table 1999 eq_refl Hnum).
    right. intros r Hr. simpl in Hr.
    repeat (destruct Hr as [<-|Hr]; [reflexivity|]). contradiction.
  - destruct (proj2 (get_most_popular_song_by_year_spec
                       Samples.table 2000 eq_refl Hnum) eq_refl)
      as [best [Hb [_ [Hres _]]]].
    + exists [Str "a"; Str "X"; Num 10; Num 2000; Num (9 # 10)].
      split; [now left | reflexivity].
    + exists best. auto.
Defined.

(* ================================================================== *)
(** ** [groupby(...).mean()] on a numeric column *)

Lemma key_eqb_canon (a b : cell) : key_eqb a b = true <-> canon a = canon b.
Proof.
  destruct a as [| |x|s], b as [| |y|t]; simpl;
    try (split; [reflexivity | reflexivity]);
    try (split; intros; discriminate).
  - split.
    + intros H. apply Qeq_bool_iff in H. f_equal. now apply Qred_complete.
    + intros H. injection H as H. apply Qeq_bool_iff.
      rewrite <- (Qred_correct x), <- (Qred_correct y).
      unfold Qred in *. rewrite H. reflexivity.
  - rewrite String.eqb_eq. split; [now intros -> | now intros [= ->]].
Qed.

Lemma keys_eqb_canon (a b : list cell) :
  keys_eqb a b = true <-> map canon a = map canon b.
Proof.
  revert b. induction a as [|x a IH]; intros [|y b]; simpl;
    try (split; [reflexivity | reflexivity]);
    try (split; intros; discriminate).
  rewrite andb_true_iff, key_eqb_canon, IH. split.
  - intros [-> ->]. reflexivity.
  - intros H. injection H as H1 H2. tauto.
Qed.

Section DedupFacts.
Context {A B : Type}.
Variable eqb : A -> A -> bool.
Variable g : A -> B.
Hypothesis eqb_g : forall a b, eqb a b = true <-> g a = g b.

Lemma NoDup_map_filter (f : A -> bool) (l : list A) :
  NoDup (map g l) -> NoDup (map g (filter f l)).
Proof.
  induction l as [|x l IH]; simpl; intros H; [constructor|].
  inversion H as [|? ? Hn Hd]; subst.
  destruct (f x); simpl; [constructor|]; auto.
  intros Hin. apply Hn. apply in_map_iff in Hin.
  destruct Hin as [y [Hy Hin]]. apply filter_In in Hin.
  apply in_map_iff. exists y. tauto.
Qed.

Lemma dedup_In (l : list A) (x : A) : In x (dedup eqb l) -> In x l.
Proof.
  induction l as [|y l IH]; simpl; [tauto|].
  intros [->|H]; [now left|]. apply filter_In in H. right. tauto.
Qed.

Lemma dedup_NoDup (l : list A) : NoDup (map g (dedup eqb l)).
Proof.
  induction l as [|x l IH]; simpl; constructor.
  - intros Hin. apply in_map_iff in Hin. destruct Hin as [y [Hy Hin]].
    apply filter_In in Hin. destruct Hin as [_ Hne].
    symmetry in Hy. apply eqb_g in Hy. rewrite Hy in Hne. discriminate.
  - now apply NoDup_map_filter.
Qed.
End DedupFacts.

Lemma mean_numeric (vals : list cell) :
  (forall c, In c vals -> numeric c = true) ->
  mean vals = Returned (mean_value vals).
Proof.
  intros H. unfold mean, mean_value.
  assert (Hs : existsb is_str vals = false).
  { apply not_true_is_false. intros He. apply existsb_exists in He.
    destruct He as [c [Hc Hstr]]. specialize (H c Hc).
    destruct c; simpl in *; congruence. }
  rewrite Hs. now destruct (nums_of vals).
Qed.

Lemma row_at_by (df : DataFrame) (by_ : list string) (r : row) :
  row_at (map (fun k => col_pos k df) by_) r = map (fun k => get df k r) by_.
Proof. unfold row_at. now rewrite map_map. Qed.

Lemma group_keys_In (kidx : list nat) (rs : list row) (k : list cell) :
  In k (group_keys kidx rs) ->
  existsb isna k = false /\ exists r, In r rs /\ k = row_at kidx r.
Proof.
  unfold group_keys. intros H.
  apply (proj1 (isort_In keys_leb _ k)) in H. apply dedup_In in H.
  apply filter_In in H. destruct H as [H Hna].
  apply in_map_iff in H. destruct H as [r [<- Hr]].
  split; [now apply negb_true_iff in Hna | eauto].
Qed.

Lemma group_keys_NoDup (kidx : list nat) (rs : list row) :
  NoDup (map (map canon) (group_keys kidx rs)).
Proof.
  unfold group_keys.
  eapply Permutation_NoDup.
  - apply Permutation_map. apply isort_perm.
  - apply (dedup_NoDup keys_eqb (map canon) keys_eqb_canon).
Qed.

Lemma groupby_mean_numeric (df : DataFrame) (by_ : list string)
      (value : string) :
  forallb (fun k => unique_label k df) by_ = true ->
  numeric_col df value ->
  exists means,
    groupby_mean df by_ value = Returned means
    /\ NoDup (map (fun km => map canon (fst km)) means)
    /\ forall km, In km means ->
         existsb isna (fst km) = false
         /\ (exists x, In x (rows df)
                       /\ fst km = map (fun k => get df k x) by_)
         /\ snd km =
            mean_value
              (map (get df value)
                   (filter (fun r => keys_eqb (fst km)
                                       (map (fun k => get df k r) by_))
                           (rows df))).
Proof.
  intros Hby Hnum. unfold groupby_mean. rewrite Hby. cbn [negb].
  set (kidx := map (fun k => col_pos k df) by_).
  set (mv := fun k => (k, mean_value (map (get df value)
                                          (group_rows kidx k (rows df))))).
  exists (map mv (group_keys kidx (rows df))). split; [|split].
  - apply mapM_total. intros k _. rewrite mean_numeric; [reflexivity|].
    intros c Hc. apply in_map_iff in Hc. destruct Hc as [r [<- Hr]].
    apply filter_In in Hr. apply Hnum. tauto.
  - rewrite map_map. simpl. apply group_keys_NoDup.
  - intros km Hkm. apply in_map_iff in Hkm. destruct Hkm as [k [<- Hk]].
    apply group_keys_In in Hk. destruct Hk as [Hna [x [Hx Hkx]]].
    simpl. split; [assumption|]. split.
    + exists x. split; [assumption|]. subst kidx. now rewrite <- row_at_by.
    + unfold group_rows. do 2 f_equal. apply filter_ext. intros r.
      subst kidx. now rewrite row_at_by.
Qed.

Lemma StronglySorted_map_in {A B : Type} (R : A -> A -> Prop)
      (R' : B -> B -> Prop) (f : A -> B) (l : list A) :
  (forall a b, In a l -> In b l -> R a b -> R' (f a) (f b)) ->
  StronglySorted R l -> StronglySorted R' (map f l).
Proof.
  intros HR H. induction H as [|x l H IH Hx]; simpl; constructor.
  - apply IH. intros a b Ha Hb. apply HR; now right.
  - rewrite Forall_forall in *. intros y Hy.
    apply in_map_iff in Hy. destruct Hy as [a [<- Ha]].
    apply HR; [now left | now right | auto].
Qed.

Lemma mean_value_numeric (vals : list cell) : numeric (mean_value vals) = true.
Proof. unfold mean_value. now destruct (nums_of vals). Qed.

Lemma NoDup_firstn_perm {A B : Type} (g : A -> B) (l sorted : list A) (k : nat) :
  Permutation l sorted -> NoDup (map g l) ->
  NoDup (map g (firstn k sorted)).
Proof.
  intros Hp Hn. rewrite <- firstn_map. apply firstn_NoDup.
  eapply Permutation_NoDup; [apply Permutation_map; exact Hp | exact Hn].
Qed.

(* ================================================================== *)
(** ** [get_top_artists] *)

(** C6, as the specification has it, fails on a table the loader builds:
    from a primary file with both [artists] and [artist] it makes a table
    with two [artist] columns, all three required labels are present, and
    the call raises instead of returning rows. *)
Lemma get_top_artists_raises_on_two_artist_columns :
  load_all_data Samples.fs_two_artists = Returned Samples.two_artists
  /\ artist_columns_present Samples.two_artists = true
  /\ get_top_artists Samples.two_artists 2000 10 = Raised ValueError.
Proof. repeat split. Qed.

(** C6, amended: for a table in which no more than one column carries each
    of [year], [artist], [popularity]: when one of them is missing the
    result is the empty frame, not an error.  Otherwise, for a count
    [top_n >= 0] and a numeric popularity column, the result has at most
    [top_n] rows with columns [artist] and [popularity]; the artists are
    pairwise distinct; each row carries an artist that has a row in the
    given year together with the mean popularity of that artist's rows of
    the year; and the rows are in descending order of that mean (artists
    without any popularity value last). *)
Theorem get_top_artists_spec (df : DataFrame) (year top_n : Z) :
  labels_unique ["year"; "artist"; "popularity"] df = true ->
  (artist_columns_present df = false ->
   get_top_artists df year top_n = Returned pd_DataFrame)
  /\ (artist_columns_present df = true ->
      (0 <= top_n)%Z ->
      numeric_col df "popularity" ->
      exists out,
        get_top_artists df year top_n = Returned out
        /\ columns out = ["artist"; "popularity"]
        /\ (length (rows out) <= Z.to_nat top_n)%nat
        /\ NoDup (map (fun r => canon (get out "artist" r)) (rows out))
        /\ StronglySorted
             (fun r1 r2 => ranks_before (get out "popularity" r1)
                                        (get out "popularity" r2))
             (rows out)
        /\ forall r, In r (rows out) ->
             isna (get out "artist" r) = false
             /\ (exists x, In x (rows df) /\ in_year df year x = true
                           /\ get df "artist" x = get out "artist" r)
             /\ get out "popularity" r =
                mean_value
                  (map (get df "popularity")
                       (filter (fun x => key_eqb (get out "artist" r)
                                                 (get df "artist" x))
                               (filter (in_year df year) (rows df))))).
Proof.
  intros Hu. unfold artist_columns_present, get_top_artists.
  rewrite has_col_select, unique_label_select. split.
  - intros H.
    destruct (has_col "year" df) eqn:Hy, (has_col "artist" df),
      (has_col "popularity" df); simpl in H; try discriminate;
      cbn [negb orb]; try reflexivity.
    destruct (unique_label_intro _ df "year" Hu) as [-> _];
      [simpl; tauto | exact Hy | reflexivity].
  - intros H Hn Hnum.
    destruct (has_col "year" df) eqn:Hcy, (has_col "artist" df) eqn:Hca,
      (has_col "popularity" df) eqn:Hcp; simpl in H; try discriminate.
    cbn [negb orb].
    destruct (unique_label_intro _ df "year" Hu) as [-> _];
      [simpl; tauto | exact Hcy |].
    destruct (unique_label_intro _ df "popularity" Hu) as [-> _];
      [simpl; tauto | exact Hcp |].
    destruct (unique_label_intro _ df "artist" Hu) as [Ua _];
      [simpl; tauto | exact Hca |].
    cbn [negb].
    set (year_df := select df (year_mask df year)).
    destruct (groupby_mean_numeric year_df ["artist"] "popularity")
      as [means [Hmeans [Hnodup Hkm]]].
    { cbn [forallb]. unfold year_df. rewrite unique_label_select, Ua.
      reflexivity. }
    { exact (numeric_year_df df year Hnum). }
    rewrite Hmeans. simpl bind.
    destruct (sort_values_desc_numeric snd means) as [sorted [Hsort [Hperm Hss]]].
    { intros km Hin. destruct (Hkm km Hin) as [_ [_ ->]].
      apply mean_value_numeric. }
    rewrite Hsort. simpl bind.
    destruct (head_prefix top_n sorted) as [k Hk].
    assert (Htop : forall km, In km (head top_n sorted) -> In km means).
    { intros km Hin. rewrite Hk in Hin. apply firstn_In in Hin.
      now apply (Permutation_in km (Permutation_sym Hperm)). }
    assert (Hshape : forall km, In km (head top_n sorted) ->
              exists x, In x (rows df) /\ in_year df year x = true
                        /\ fst km = [get df "artist" x]).
    { intros km Hin. destruct (Hkm km (Htop km Hin)) as [_ [[x [Hx Hf]] _]].
      unfold year_df in Hx. rewrite year_df_rows in Hx.
      apply filter_In in Hx. exists x. simpl in Hf. tauto. }
    eexists. split; [reflexivity|]. unfold reset_index. simpl columns.
    simpl rows. split; [reflexivity|]. split; [|split; [|split]].
    + rewrite length_map. now apply head_length.
    + rewrite map_map.
      apply (NoDup_map_inv (fun c => [c])). rewrite map_map.
      rewrite (map_ext_in _ (fun km => map canon (fst km))).
      * rewrite Hk. now apply (NoDup_firstn_perm _ means).
      * intros km Hin. destruct (Hshape km Hin) as [x [_ [_ ->]]].
        reflexivity.
    + apply (StronglySorted_map_in
               (fun a b => ranks_before (snd a) (snd b))).
      * intros a b Ha Hb Hab.
        destruct (Hshape a Ha) as [xa [_ [_ ->]]].
        destruct (Hshape b Hb) as [xb [_ [_ ->]]].
        exact Hab.
      * rewrite Hk. now apply firstn_StronglySorted.
    + intros r Hr. apply in_map_iff in Hr. destruct Hr as [km [<- Hin]].
      destruct (Hshape km Hin) as [x [Hx [Hyx Hfst]]].
      destruct (Hkm km (Htop km Hin)) as [Hna [_ Hmean]].
      rewrite Hfst in *. simpl in Hna.
      change (get _ "artist" ([get df "artist" x] ++ [snd km]))
        with (get df "artist" x).
      change (get _ "popularity" ([get df "artist" x] ++ [snd km]))
        with (snd km).
      split; [now rewrite orb_false_r in Hna|].
      split; [exists x; tauto|].
      rewrite Hmean. unfold year_df. rewrite year_df_rows.
      do 2 f_equal. apply filter_ext. intros y. simpl.
      now rewrite andb_true_r.
Qed.

Lemma get_top_artists_spec_witness :
  get_top_artists Samples.tracks 2010 10 = Returned pd_DataFrame
  /\ exists out,
      get_top_artists Samples.table 2000 2 = Returned out
      /\ columns out = ["artist"; "popularity"]
      /\ (length (rows out) <= 2)%nat.
Proof.
  split.
  - apply (get_top_artists_spec Samples.tracks 2010 10); reflexivity.
  - destruct (proj2 (get_top_artists_spec Samples.table 2000 2 eq_refl))
      as [out [H1 [H2 [H3 _]]]].
    + reflexivity.
    + discriminate.
    + intros r Hr. simpl in Hr.
      repeat (destruct Hr as [<-|Hr]; [reflexivity|]). contradiction.
    + exists out. auto.
Defined.

(* ================================================================== *)
(** ** [compare_artists] *)

Lemma comp_df_rows (df : DataFrame) (names : list string) :
  rows (select df (map (cell_isin names) (column df "artist")))
  = filter (fun r => cell_isin names (get df "artist" r)) (rows df).
Proof.
  unfold select, column; simpl. rewrite map_map.
  apply (select_rows_map (fun r => cell_isin names (get df "artist" r))).
Qed.

Lemma filter_filter_implied {A : Type} (f g : A -> bool) (l : list A) :
  (forall a, f a = true -> g a = true) ->
  filter f (filter g l) = filter f l.
Proof.
  intros H. induction l as [|a l IH]; simpl; [reflexivity|].
  destruct (g a) eqn:Hg; simpl.
  - now rewrite IH.
  - destruct (f a) eqn:Hf; [|assumption].
    rewrite (H a Hf) in Hg. discriminate.
Qed.

Lemma cell_isin_two (a1 a2 : string) (c : cell) :
  cell_isin [a1; a2] c = true <-> c = Str a1 \/ c = Str a2.
Proof.
  destruct c as [| |q|s]; simpl;
    try (split; [discriminate | intros [H|H]; discriminate]).
  rewrite orb_false_r, orb_true_iff, !String.eqb_eq.
  split; (intros [H|H]; [left | right]); congruence.
Qed.

(** C9, as the specification has it, fails on a table the loader builds:
    with two [artist] columns and all three required labels present the
    call raises instead of returning rows. *)
Lemma compare_artists_raises_on_two_artist_columns :
  load_all_data Samples.fs_two_artists = Returned Samples.two_artists
  /\ artist_columns_present Samples.two_artists = true
  /\ compare_artists Samples.two_artists "X" "Y" = Raised ValueError.
Proof. repeat split. Qed.

(** C9, amended: for a table in which no more than one column carries each
    of [year], [artist], [popularity]: when one of them is missing the
    result is the empty frame.  Otherwise, for a numeric popularity column, every returned
    row names one of the two artists; no two rows share a (year, artist)
    pair; each row stands for rows of the table with that artist and year
    and carries their mean popularity; a year in which neither artist has a
    row gets no row; and if neither artist occurs in the table the result
    has no rows. *)
Theorem compare_artists_spec (df : DataFrame) (artist1 artist2 : string) :
  labels_unique ["year"; "artist"; "popularity"] df = true ->
  (artist_columns_present df = false ->
   compare_artists df artist1 artist2 = Returned pd_DataFrame)
  /\ (artist_columns_present df = true ->
      numeric_col df "popularity" ->
      exists out,
        compare_artists df artist1 artist2 = Returned out
        /\ columns out = ["year"; "artist"; "popularity"]
        /\ NoDup (map (fun r => [canon (get out "year" r);
                                 canon (get out "artist" r)])
                      (rows out))
        /\ (forall r, In r (rows out) ->
              (get out "artist" r = Str artist1
               \/ get out "artist" r = Str artist2)
              /\ isna (get out "year" r) = false
              /\ (exists x, In x (rows df)
                            /\ get df "artist" x = get out "artist" r
                            /\ get df "year" x = get out "year" r)
              /\ get out "popularity" r =
                 mean_value
                   (map (get df "popularity")
                        (filter
                           (fun x =>
                              key_eqb (get out "year" r) (get df "year" x)
                              && key_eqb (get out "artist" r)
                                         (get df "artist" x))
                           (rows df))))
        /\ (forall y,
              (forall x, In x (rows df) ->
                         cell_isin [artist1; artist2] (get df "artist" x) = true ->
                         key_eqb y (get df "year" x) = false) ->
              forall r, In r (rows out) ->
                        key_eqb y (get out "year" r) = false)
        /\ ((forall x, In x (rows df) ->
                       cell_isin [artist1; artist2] (get df "artist" x) = false) ->
            empty out = true)).
Proof.
  intros Hu. unfold artist_columns_present, compare_artists.
  rewrite has_col_select, unique_label_select. split.
  - intros H.
    destruct (has_col "year" df), (has_col "artist" df),
      (has_col "popularity" df); simpl in *; try discriminate; reflexivity.
  - intros H Hnum.
    destruct (has_col "year" df) eqn:Hcy, (has_col "artist" df) eqn:Hca,
      (has_col "popularity" df) eqn:Hcp; simpl in H; try discriminate.
    cbn [negb orb].
    destruct (unique_label_intro _ df "popularity" Hu) as [-> _];
      [simpl; tauto | exact Hcp |].
    destruct (unique_label_intro _ df "year" Hu) as [Uy _];
      [simpl; tauto | exact Hcy |].
    destruct (unique_label_intro _ df "artist" Hu) as [Ua _];
      [simpl; tauto | exact Hca |].
    set (names := [artist1; artist2]).
    set (comp_df := select df (map (cell_isin names) (column df "artist"))).
    assert (Hrows : rows comp_df
                    = filter (fun r => cell_isin names (get df "artist" r))
                             (rows df)) by apply comp_df_rows.
    destruct (groupby_mean_numeric comp_df ["year"; "artist"] "popularity")
      as [means [Hmeans [Hnodup Hkm]]].
    { cbn [forallb]. unfold comp_df. rewrite !unique_label_select, Uy, Ua.
      reflexivity. }
    { intros r Hr. rewrite Hrows in Hr. apply filter_In in Hr.
      apply Hnum. tauto. }
    rewrite Hmeans. simpl bind.
    assert (Hshape : forall km, In km means ->
              exists x, In x (rows df)
                        /\ cell_isin names (get df "artist" x) = true
                        /\ fst km = [get df "year" x; get df "artist" x]).
    { intros km Hin. destruct (Hkm km Hin) as [_ [[x [Hx Hf]] _]].
      rewrite Hrows in Hx. apply filter_In in Hx. exists x.
      simpl in Hf. tauto. }
    assert (Hrow : forall r, In r (map (fun km => fst km ++ [snd km]) means) ->
              exists km x, In km means /\ In x (rows df)
                /\ cell_isin names (get df "artist" x) = true
                /\ fst km = [get df "year" x; get df "artist" x]
                /\ r = [get df "year" x; get df "artist" x; snd km]).
    { intros r Hr. apply in_map_iff in Hr. destruct Hr as [km [<- Hin]].
      destruct (Hshape km Hin) as [x [Hx [Hisin Hf]]].
      exists km, x. rewrite Hf. simpl. tauto. }
    eexists. split; [reflexivity|]. unfold reset_index. simpl columns.
    simpl rows. split; [reflexivity|]. split; [|split; [|split]].
    + rewrite map_map.
      rewrite (map_ext_in _ (fun km => map canon (fst km))); [assumption|].
      intros km Hin. destruct (Hshape km Hin) as [x [_ [_ ->]]]. reflexivity.
    + intros r Hr. destruct (Hrow r Hr) as [km [x [Hin [Hx [Hisin [Hf ->]]]]]].
      change (get _ "artist" [get df "year" x; get df "artist" x; snd km])
        with (get df "artist" x).
      change (get _ "year" [get df "year" x; get df "artist" x; snd km])
        with (get df "year" x).
      change (get _ "popularity" [get df "year" x; get df "artist" x; snd km])
        with (snd km).
      destruct (Hkm km Hin) as [Hna [_ Hmean]]. rewrite Hf in Hna, Hmean.
      split; [now apply cell_isin_two|].
      simpl in Hna. apply orb_false_elim in Hna.
      split; [tauto|]. split; [exists x; tauto|].
      rewrite Hmean, Hrows. do 2 f_equal.
      rewrite (filter_ext
                 (fun r => keys_eqb [get df "year" x; get df "artist" x]
                             (map (fun k => get comp_df k r) ["year"; "artist"]))
                 (fun r => key_eqb (get df "year" x) (get df "year" r)
                           && key_eqb (get df "artist" x) (get df "artist" r)))
        by (intros r; simpl; now rewrite andb_true_r).
      apply filter_filter_implied. intros r Hr'.
      apply andb_prop in Hr'. destruct Hr' as [_ Hr'].
      apply cell_isin_two in Hisin. apply cell_isin_two.
      apply key_eqb_canon in Hr'.
      destruct Hisin as [Hx1|Hx1]; rewrite Hx1 in Hr';
        destruct (get df "artist" r); simpl in Hr'; try discriminate;
        injection Hr' as <-; tauto.
    + intros y Hy r Hr.
      destruct (Hrow r Hr) as [km [x [Hin [Hx [Hisin [Hf ->]]]]]].
      change (get _ "year" [get df "year" x; get df "artist" x; snd km])
        with (get df "year" x).
      now apply Hy.
    + intros Hnone.
      assert (Hm : means = []).
      { destruct means as [|km ms]; [reflexivity|].
        destruct (Hshape km (or_introl eq_refl)) as [x [Hx [Hisin _]]].
        rewrite (Hnone x Hx) in Hisin. discriminate. }
      rewrite Hm. reflexivity.
Qed.

Lemma compare_artists_spec_witness :
  compare_artists Samples.tracks "Artist X" "Artist Y" = Returned pd_DataFrame
  /\ exists out,
      compare_artists Samples.table "X" "Y" = Returned out
      /\ columns out = ["year"; "artist"; "popularity"].
Proof.
  split.
  - apply (compare_artists_spec Samples.tracks "Artist X" "Artist Y");
      reflexivity.
  - destruct (proj2 (compare_artists_spec Samples.table "X" "Y" eq_refl))
      as [out [H1 [H2 _]]].
    + reflexivity.
    + intros r Hr. simpl in Hr.
      repeat (destruct Hr as [<-|Hr]; [reflexivity|]). contradiction.
    + exists out. auto.
Defined.

(* ================================================================== *)
(** ** [get_songs_by_vibe] *)

(** C5 (the code departs from the claim): on a non-empty table that has no
    [energy] column, a vibe whose other feature column is absent as well does
    not give an empty result: both comparisons are then made between plain
    numbers, their conjunction is the Python value [False], and indexing the
    table with it raises [KeyError].  This happens for [chill] and
    [energetic] without [acousticness], [gloomy] without [valence], [party]
    without [danceability] and [sporty] without [tempo]. *)
Theorem get_songs_by_vibe_absent_features_raise
        (g : RandomState) (df : DataFrame) (num_songs : Z) :
  empty df = false ->
  has_col "energy" df = false ->
  (has_col "acousticness" df = false ->
   get_songs_by_vibe g df "chill" num_songs = Raised (KeyError "False")
   /\ get_songs_by_vibe g df "energetic" num_songs
      = Raised (KeyError "False"))
  /\ (has_col "valence" df = false ->
      get_songs_by_vibe g df "gloomy" num_songs = Raised (KeyError "False"))
  /\ (has_col "danceability" df = false ->
      get_songs_by_vibe g df "party" num_songs = Raised (KeyError "False"))
  /\ (has_col "tempo" df = false ->
      get_songs_by_vibe g df "sporty" num_songs = Raised (KeyError "False")).
Proof.
  intros He Hen. unfold get_songs_by_vibe. rewrite He.
  split; [|split; [|split]]; intros H; try split;
    unfold vibe_filter, df_get; simpl String.eqb; cbv iota;
    rewrite ?Hen, ?H; reflexivity.
Qed.

Lemma get_songs_by_vibe_absent_features_raise_witness :
  get_songs_by_vibe (fun _ => 0%nat) Samples.table_no_features "chill" 20
  = Raised (KeyError "False")
  /\ get_songs_by_vibe (fun _ => 0%nat) Samples.table_no_features "sporty" 20
     = Raised (KeyError "False").
Proof.
  destruct (get_songs_by_vibe_absent_features_raise
              (fun _ => 0%nat) Samples.table_no_features 20 eq_refl eq_refl)
    as [H1 [_ [_ H4]]].
  split; [apply (H1 eq_refl) | apply (H4 eq_refl)].
Defined.

(** What the function does whenever it returns: the rest of what the
    specification says about it holds. *)

Lemma mapM_cells (f : cell -> result bool) (p : cell -> bool)
      (vals : list cell) (bits : list bool) :
  (forall c b, f c = Returned b -> b = p c) ->
  mapM f vals = Returned bits -> bits = map p vals.
Proof.
  intros Hf. revert bits. induction vals as [|c vals IH]; simpl; intros bits H.
  - now injection H as <-.
  - destruct (f c) as [b|e] eqn:Hc; simpl in H; [|discriminate].
    destruct (mapM f vals) as [bs|e]; simpl in H; [|discriminate].
    injection H as <-. rewrite (Hf c b Hc), (IH bs eq_refl). reflexivity.
Qed.

Lemma lt_denotes (df : DataFrame) (name : string) (default t : Q) (m : mask) :
  lt (df_get df name default) t = Returned m ->
  mask_denotes df m (feature_lt df name default t).
Proof.
  unfold df_get, feature_lt. destruct (has_col name df); simpl.
  - intros H. apply bind_Returned in H. destruct H as [bits [Hb Hm]].
    injection Hm as <-. simpl. unfold column in Hb.
    apply (mapM_cells _ (fun c => match c with
                                  | Num q => Qlt_bool q t
                                  | _ => false
                                  end)) in Hb.
    + now rewrite Hb, map_map.
    + intros [| |q|s] b Hc; simpl in Hc; congruence.
  - intros H. injection H as <-. simpl. reflexivity.
Qed.

Lemma gt_series_denotes (df : DataFrame) (name : string) (t : Q) (m : mask) :
  gt (Series (column df name)) t = Returned m ->
  mask_denotes df m (fun r => match get df name r with
                              | Num q => Qlt_bool t q
                              | _ => false
                              end).
Proof.
  simpl. intros H. apply bind_Returned in H. destruct H as [bits [Hb Hm]].
  injection Hm as <-. simpl. unfold column in Hb.
  apply (mapM_cells _ (fun c => match c with
                                | Num q => Qlt_bool t q
                                | _ => false
                                end)) in Hb.
  - now rewrite Hb, map_map.
  - intros [| |q|s] b Hc; simpl in Hc; congruence.
Qed.

Lemma gt_denotes (df : DataFrame) (name : string) (default t : Q) (m : mask) :
  gt (df_get df name default) t = Returned m ->
  mask_denotes df m (feature_gt df name default t).
Proof.
  unfold df_get, feature_gt. destruct (has_col name df).
  - apply gt_series_denotes.
  - simpl. intros H. injection H as <-. simpl. reflexivity.
Qed.

Lemma map_combine_and {A : Type} (p q : A -> bool) (l : list A) :
  map (fun b => fst b && snd b) (combine (map p l) (map q l))
  = map (fun a => p a && q a) l.
Proof.
  induction l as [|a l IH]; simpl; [reflexivity | now rewrite IH].
Qed.

Lemma mask_and_denotes (df : DataFrame) (m1 m2 : mask) (p1 p2 : row -> bool) :
  mask_denotes df m1 p1 -> mask_denotes df m2 p2 ->
  mask_denotes df (mask_and m1 m2) (fun r => p1 r && p2 r).
Proof.
  destruct m1 as [b1|x], m2 as [b2|y]; simpl; intros H1 H2.
  - subst. apply map_combine_and.
  - subst. rewrite map_map. apply map_ext. intros r. now rewrite H2.
  - subst. rewrite map_map. apply map_ext. intros r. now rewrite H1.
  - intros r. now rewrite H1, H2.
Qed.

Lemma getitem_denotes (df : DataFrame) (m : mask) (p : row -> bool)
      (filtered : DataFrame) :
  mask_denotes df m p ->
  getitem df m = Returned filtered ->
  filtered = mkDF (columns df) (filter p (rows df)).
Proof.
  destruct m as [bits|[|]]; simpl; intros Hd H; try discriminate.
  injection H as <-. unfold select. subst bits.
  now rewrite select_rows_map.
Qed.

Lemma vibe_filter_Returned (df : DataFrame) (vibe : string)
      (filtered : DataFrame) :
  vibe_filter df vibe = Some (Returned filtered) ->
  filtered = mkDF (columns df) (filter (vibe_predicate df vibe) (rows df)).
Proof.
  unfold vibe_filter, vibe_predicate.
  assert (Hpair : forall (c1 c2 : result mask) (p1 p2 : row -> bool),
             (forall m, c1 = Returned m -> mask_denotes df m p1) ->
             (forall m, c2 = Returned m -> mask_denotes df m p2) ->
             Some (a <- c1 ;; b <- c2 ;; getitem df (mask_and a b))
             = Some (Returned filtered) ->
             filtered = mkDF (columns df)
                             (filter (fun r => p1 r && p2 r) (rows df))).
  { intros c1 c2 p1 p2 H1 H2 H. injection H as H.
    apply bind_Returned in H. destruct H as [a [Ha H]].
    apply bind_Returned in H. destruct H as [b [Hb H]].
    apply (getitem_denotes df (mask_and a b)); [|assumption].
    apply mask_and_denotes; auto. }
  destruct (String.eqb vibe "chill").
  { apply Hpair; intros m; [apply lt_denotes | apply gt_denotes]. }
  destruct (String.eqb vibe "energetic").
  { apply Hpair; intros m; [apply gt_denotes | apply lt_denotes]. }
  destruct (String.eqb vibe "gloomy").
  { apply Hpair; intros m; apply lt_denotes. }
  destruct (String.eqb vibe "party").
  { apply Hpair; intros m; apply gt_denotes. }
  destruct (String.eqb vibe "sporty"); [|discriminate].
  destruct (has_col "tempo" df) eqn:Htempo.
  - apply Hpair; intros m; [|apply gt_denotes].
    intros H. apply gt_series_denotes in H.
    unfold feature_gt. now rewrite Htempo.
  - intros H. injection H as H.
    apply bind_Returned in H. destruct H as [a [Ha H]].
    apply (getitem_denotes df a); [|assumption]. now apply gt_denotes.
Qed.

Lemma remove_nth_length {A : Type} (i : nat) (l : list A) :
  (i < length l)%nat -> length (remove_nth i l) = (length l - 1)%nat.
Proof.
  revert i. induction l as [|x l IH]; intros [|i] H; simpl in *; try lia.
  rewrite IH by lia. lia.
Qed.

Lemma remove_nth_In {A : Type} (i : nat) (l : list A) (x : A) :
  In x (remove_nth i l) -> In x l.
Proof.
  revert i. induction l as [|y l IH]; intros [|i]; simpl; try tauto.
  intros [->|H]; [now left | right; eauto].
Qed.

Lemma draw_length (g : RandomState) (step k : nat) (pool : list row) :
  length (draw g step k pool) = Nat.min k (length pool).
Proof.
  revert step pool. induction k as [|k IH]; intros step pool; simpl;
    [reflexivity|].
  destruct pool as [|r pool]; [reflexivity|].
  cbn [length]. rewrite IH, remove_nth_length.
  - simpl length. lia.
  - apply Nat.mod_upper_bound. simpl. lia.
Qed.

Lemma draw_In (g : RandomState) (step k : nat) (pool : list row) (r : row) :
  In r (draw g step k pool) -> In r pool.
Proof.
  revert step pool. induction k as [|k IH]; intros step pool; simpl;
    [tauto|].
  destruct pool as [|r0 pool]; [tauto|].
  intros [<-|H].
  - apply nth_In. apply Nat.mod_upper_bound. simpl. lia.
  - apply IH in H. now apply remove_nth_In in H.
Qed.

(** Whenever [get_songs_by_vibe] returns for a count [num_songs >= 0], it
    returns exactly [min(num_songs, number of matching rows)] rows, each a
    row of the table that satisfies the vibe's predicate; an unrecognised
    vibe gives the empty frame. *)
Lemma get_songs_by_vibe_returned (g : RandomState) (df : DataFrame)
      (vibe : string) (num_songs : Z) (out : DataFrame) :
  (0 <= num_songs)%Z ->
  get_songs_by_vibe g df vibe num_songs = Returned out ->
  length (rows out)
  = Nat.min (Z.to_nat num_songs)
            (length (filter (vibe_predicate df vibe) (rows df)))
  /\ (forall r, In r (rows out) ->
                In r (rows df) /\ vibe_predicate df vibe r = true)
  /\ (vibe_filter df vibe = None -> out = pd_DataFrame).
Proof.
  intros Hn. unfold get_songs_by_vibe.
  destruct (empty df) eqn:He.
  { intros H. injection H as <-. simpl.
    assert (Hz : filter (vibe_predicate df vibe) (rows df) = []).
    { unfold empty in He. destruct (columns df) as [|c cs] eqn:Hc.
      - apply filter_none. intros r _. unfold vibe_predicate, feature_lt,
          feature_gt, has_col. rewrite Hc. simpl.
        repeat (destruct (String.eqb vibe _); [reflexivity|]). reflexivity.
      - destruct (rows df); [reflexivity | discriminate]. }
    rewrite Hz. simpl. split; [lia|]. split; [tauto | reflexivity]. }
  destruct (vibe_filter df vibe) as [[filtered|e]|] eqn:Hv; cbn [bind].
  - apply vibe_filter_Returned in Hv.
    set (matching := filter (vibe_predicate df vibe) (rows df)) in *.
    destruct (empty filtered) eqn:Hf.
    + intros H. injection H as <-. simpl.
      assert (Hz : matching = []).
      { subst filtered. unfold empty in Hf, He. simpl in Hf.
        destruct (columns df); [discriminate|].
        destruct matching; [reflexivity | discriminate]. }
      rewrite Hz. simpl. split; [lia|]. split; [tauto | discriminate].
    + subst filtered. unfold sample. simpl rows.
      destruct (Z.ltb_spec (Z.min num_songs (Z.of_nat (length matching))) 0)
        as [Hneg|_]; [lia|].
      destruct (Z.ltb_spec (Z.of_nat (length matching))
                           (Z.min num_songs (Z.of_nat (length matching))))
        as [Hbig|_]; [lia|].
      intros H. injection H as <-. simpl. rewrite draw_length.
      split; [lia|]. split; [|discriminate].
      intros r Hr. apply draw_In in Hr. apply filter_In in Hr. exact Hr.
  - discriminate.
  - intros H. injection H as <-. simpl.
    assert (Hz : filter (vibe_predicate df vibe) (rows df) = []).
    { apply filter_none. intros r _. unfold vibe_filter in Hv.
      unfold vibe_predicate.
      repeat (destruct (String.eqb vibe _); [discriminate|]).
      destruct (String.eqb vibe "sporty"); [|reflexivity].
      destruct (has_col "tempo" df); discriminate. }
    rewrite Hz. simpl. split; [lia|]. split; [tauto | reflexivity].
Qed.

(* ================================================================== *)
(** * Further properties of the loader *)

Lemma merge_logic_columns_nonempty (t s merged : DataFrame) :
  merge_logic t s = Returned merged -> columns t <> [].
Proof.
  unfold merge_logic, merge_keys, has_col. intros H Hc.
  rewrite Hc in H. simpl in H. discriminate.
Qed.

Lemma load_all_data_is_merge (fs : filesystem)
      (tracks_raw spotify_raw merged : DataFrame) :
  fs "data/tracks.csv" = Some tracks_raw ->
  fs "data/spotify_tracks.csv" = Some spotify_raw ->
  load_all_data fs = Returned merged ->
  merge_logic (fst (prepare tracks_raw spotify_raw))
              (snd (prepare tracks_raw spotify_raw)) = Returned merged.
Proof.
  intros Ht Hs Hload.
  rewrite (load_all_data_unfold fs _ _ Ht Hs) in Hload.
  apply bind_Returned in Hload. destruct Hload as [mg [Hmg Hret]].
  destruct (merge_logic_Returned _ _ _ Hmg) as [rlabels [rkeep [Hcols _]]].
  rewrite (guarantee_year_idle _ mg rlabels Hcols) in Hret.
  injection Hret as <-. exact Hmg.
Qed.

Lemma prepare_fst_rows (tracks_raw spotify_raw : DataFrame) :
  rows (fst (prepare tracks_raw spotify_raw)) = rows tracks_raw.
Proof.
  unfold prepare. rewrite backfill_fst. unfold normalize_tracks.
  destruct (has_col "name" tracks_raw);
    [destruct (has_col "artists" (rename "name" "title" tracks_raw))
    |destruct (has_col "artists" tracks_raw)]; reflexivity.
Qed.

(** X1: lines 53-54 never fire.  Whenever the loader returns, the table it
    returns is the result of the merge itself, and it has a [year] column
    whenever the primary source has one, which reads the primary source's
    [year] cells. *)
Theorem guarantee_year_never_fires (fs : filesystem)
        (tracks_raw spotify_raw merged : DataFrame) :
  fs "data/tracks.csv" = Some tracks_raw ->
  fs "data/spotify_tracks.csv" = Some spotify_raw ->
  load_all_data fs = Returned merged ->
  let t := fst (prepare tracks_raw spotify_raw) in
  let s := snd (prepare tracks_raw spotify_raw) in
  merge_logic t s = Returned merged
  /\ guarantee_year t merged = merged
  /\ (has_col "year" tracks_raw = true ->
      has_col "year" merged = true
      /\ col_pos "year" merged = col_pos "year" t).
Proof.
  intros Ht Hs Hload t s.
  pose proof (load_all_data_is_merge fs _ _ _ Ht Hs Hload) as Hmg.
  fold t s in Hmg.
  destruct (merge_logic_Returned _ _ _ Hmg) as [rlabels [rkeep [Hcols _]]].
  split; [exact Hmg|].
  split; [exact (guarantee_year_idle t merged rlabels Hcols)|].
  intros Hy.
  assert (Hyt : has_col "year" t = true).
  { subst t. unfold prepare. rewrite backfill_fst.
    now rewrite has_col_year_normalize_tracks. }
  apply has_col_In in Hyt. split.
  - apply has_col_In. rewrite Hcols. apply in_or_app. now left.
  - unfold col_pos. rewrite Hcols, (index_of_app_in _ _ rlabels Hyt).
    destruct (index_of "year" (columns t)) eqn:Hi; [reflexivity|].
    apply index_of_None in Hi. contradiction.
Qed.

Lemma guarantee_year_never_fires_witness :
  exists merged,
    load_all_data Samples.fs = Returned merged
    /\ has_col "year" merged = true
    /\ col_pos "year" merged = 3%nat.
Proof.
  destruct (load_all_data Samples.fs) as [merged|e] eqn:Hload;
    [|discriminate].
  destruct (guarantee_year_never_fires Samples.fs Samples.tracks
              Samples.spotify merged eq_refl eq_refl Hload)
    as [_ [_ H]].
  exists merged. split; [reflexivity|]. exact (H eq_refl).
Defined.

Lemma merged_block_length (t s : DataFrame) (rkeep : list nat) (l : row) :
  length (merged_block t s rkeep l)
  = Nat.max 1 (length (filter (matches t s l) (rows s))).
Proof.
  unfold merged_block.
  destruct (filter (matches t s l) (rows s)) as [|r ms]; [reflexivity|].
  rewrite length_map. simpl. reflexivity.
Qed.

Lemma list_sum_ge_length {A : Type} (f : A -> nat) (l : list A) :
  (forall a, In a l -> 1 <= f a)%nat -> (length l <= list_sum (map f l))%nat.
Proof.
  induction l as [|a l IH]; simpl; intros H; [lia|].
  specialize (H a (or_introl eq_refl)) as Ha.
  assert (length l <= list_sum (map f l))%nat
    by (apply IH; intros; apply H; now right).
  lia.
Qed.

Lemma list_sum_all_one {A : Type} (f : A -> nat) (l : list A) :
  (forall a, In a l -> f a = 1)%nat -> list_sum (map f l) = length l.
Proof.
  induction l as [|a l IH]; simpl; intros H; [reflexivity|].
  rewrite (H a (or_introl eq_refl)), IH; [reflexivity|].
  intros; apply H; now right.
Qed.

(** X2: the size of the merged table.  Every primary row contributes as many
    merged rows as secondary rows match it on the join key, and one row when
    none does; so the merged table has at least as many rows as the primary
    source, and exactly as many when no primary row matches two secondary
    rows. *)
Theorem merged_row_count (fs : filesystem)
        (tracks_raw spotify_raw merged : DataFrame) :
  fs "data/tracks.csv" = Some tracks_raw ->
  fs "data/spotify_tracks.csv" = Some spotify_raw ->
  load_all_data fs = Returned merged ->
  let t := fst (prepare tracks_raw spotify_raw) in
  let s := snd (prepare tracks_raw spotify_raw) in
  let n_matches := fun l => length (filter (matches t s l) (rows s)) in
  length (rows merged)
  = list_sum (map (fun l => Nat.max 1 (n_matches l)) (rows tracks_raw))
  /\ (length (rows tracks_raw) <= length (rows merged))%nat
  /\ ((forall l, In l (rows tracks_raw) -> (n_matches l <= 1)%nat) ->
      length (rows merged) = length (rows tracks_raw)).
Proof.
  intros Ht Hs Hload t s n_matches.
  pose proof (load_all_data_is_merge fs _ _ _ Ht Hs Hload) as Hmg.
  fold t s in Hmg.
  destruct (merge_logic_Returned _ _ _ Hmg) as [rlabels [rkeep [_ Hrows]]].
  assert (Hlen : length (rows merged)
                 = list_sum (map (fun l => Nat.max 1 (n_matches l))
                                 (rows tracks_raw))).
  { rewrite Hrows, length_flat_map. subst t.
    rewrite prepare_fst_rows. f_equal. apply map_ext.
    intros l. apply merged_block_length. }
  split; [exact Hlen|]. split.
  - rewrite Hlen. apply list_sum_ge_length. intros; lia.
  - intros H. rewrite Hlen. apply list_sum_all_one.
    intros l Hl. specialize (H l Hl). lia.
Qed.

Lemma merged_row_count_witness :
  exists merged,
    load_all_data Samples.fs = Returned merged
    /\ length (rows merged) = 2%nat.
Proof.
  destruct (load_all_data Samples.fs) as [merged|e] eqn:Hload;
    [|discriminate].
  destruct (merged_row_count Samples.fs Samples.tracks Samples.spotify
              merged eq_refl eq_refl Hload) as [_ [_ H]].
  exists merged. split; [reflexivity|]. apply H.
  intros l Hl. simpl in Hl.
  repeat (destruct Hl as [<-|Hl]; [vm_compute; lia|]). contradiction.
Defined.

(** X3: the start-up of [app.py] (lines 25-30) after a successful load: the
    "Dataset not loaded or empty" stop is reached exactly when the primary
    file has no data rows; otherwise the session runs on the merged table.
    An empty secondary file never stops the application. *)
Theorem app_startup_stops_iff_no_primary_rows (fs : filesystem)
        (tracks_raw spotify_raw merged : DataFrame) :
  fs "data/tracks.csv" = Some tracks_raw ->
  fs "data/spotify_tracks.csv" = Some spotify_raw ->
  load_all_data fs = Returned merged ->
  (rows tracks_raw = [] -> exists message, app_startup fs = Stopped message)
  /\ (rows tracks_raw <> [] -> app_startup fs = Running merged).
Proof.
  intros Ht Hs Hload.
  pose proof (load_all_data_is_merge fs _ _ _ Ht Hs Hload) as Hmg.
  pose proof (merge_logic_columns_nonempty _ _ _ Hmg) as Hne.
  destruct (merge_logic_Returned _ _ _ Hmg) as [rlabels [rkeep [Hcols Hrows]]].
  rewrite prepare_fst_rows in Hrows.
  unfold app_startup. rewrite Hload. unfold empty. rewrite Hcols.
  destruct (columns (fst (prepare tracks_raw spotify_raw))) as [|c cs];
    [contradiction|]. simpl app.
  split.
  - intros Hz. rewrite Hrows, Hz. simpl. eauto.
  - intros Hnz. rewrite Hrows.
    destruct (rows tracks_raw) as [|l ls]; [contradiction|]. simpl.
    pose proof (merged_block_nonempty
                  (fst (prepare tracks_raw spotify_raw))
                  (snd (prepare tracks_raw spotify_raw)) rkeep l) as Hb.
    destruct (merged_block _ _ rkeep l); [contradiction | reflexivity].
Qed.

Lemma app_startup_stops_iff_no_primary_rows_witness :
  exists merged, app_startup Samples.fs = Running merged.
Proof.
  destruct (load_all_data Samples.fs) as [merged|e] eqn:Hload;
    [|discriminate].
  exists merged.
  apply (app_startup_stops_iff_no_primary_rows Samples.fs Samples.tracks
           Samples.spotify merged eq_refl eq_refl Hload).
  discriminate.
Defined.

(** *** Column normalisation *)

Lemma rename_absent (old new : string) (df : DataFrame) :
  has_col old df = false -> rename old new df = df.
Proof.
  intros H. destruct df as [cols rs]. unfold rename, has_col in *; simpl in *.
  f_equal. induction cols as [|c cols IH]; simpl in *; [reflexivity|].
  apply orb_false_elim in H. destruct H as [Hc H].
  rewrite IH by assumption.
  destruct (String.eqb_spec c old) as [->|_]; [|reflexivity].
  rewrite String.eqb_refl in Hc. discriminate.
Qed.

Lemma rename_if (old new : string) (df : DataFrame) :
  (if has_col old df then rename old new df else df) = rename old new df.
Proof.
  destruct (has_col old df) eqn:H; [reflexivity|].
  symmetry. now apply rename_absent.
Qed.

Lemma has_col_rename_old (old new : string) (df : DataFrame) :
  old <> new -> has_col old (rename old new df) = false.
Proof.
  intros Hne. unfold has_col, rename; simpl.
  induction (columns df) as [|c cols IH]; simpl; [reflexivity|].
  rewrite IH, orb_false_r.
  destruct (String.eqb_spec c old) as [->|Hc]; apply String.eqb_neq; congruence.
Qed.

Lemma has_col_rename_new (old new : string) (df : DataFrame) :
  has_col new (rename old new df) = has_col old df || has_col new df.
Proof.
  unfold has_col, rename; simpl.
  induction (columns df) as [|c cols IH]; simpl; [reflexivity|].
  rewrite IH.
  destruct (String.eqb_spec c old) as [->|Hc].
  - rewrite !String.eqb_refl. reflexivity.
  - destruct (String.eqb_spec old c); [congruence|].
    destruct (String.eqb new c), (existsb (String.eqb old) cols),
      (existsb (String.eqb new) cols); reflexivity.
Qed.

Lemma index_of_rename_new (old new : string) (cols : list string) :
  ~ In new cols ->
  index_of new (map (fun c => if String.eqb c old then new else c) cols)
  = index_of old cols.
Proof.
  induction cols as [|c cols IH]; simpl; intros Hn; [reflexivity|].
  destruct (String.eqb_spec c old) as [->|Hc].
  - now rewrite !String.eqb_refl.
  - destruct (String.eqb_spec new c) as [->|_]; [tauto|].
    destruct (String.eqb_spec old c); [congruence|].
    rewrite IH by tauto. reflexivity.
Qed.

Lemma index_of_rename_other (name old new : string) (cols : list string) :
  name <> old -> name <> new ->
  index_of name (map (fun c => if String.eqb c old then new else c) cols)
  = index_of name cols.
Proof.
  intros Ho Hn. induction cols as [|c cols IH]; simpl; [reflexivity|].
  rewrite IH. destruct (String.eqb_spec c old) as [->|Hc]; [|reflexivity].
  destruct (String.eqb_spec name new); [contradiction|].
  destruct (String.eqb_spec name old); [contradiction | reflexivity].
Qed.

Lemma normalize_tracks_renames (df : DataFrame) :
  normalize_tracks df = rename "artists" "artist" (rename "name" "title" df).
Proof. unfold normalize_tracks. now rewrite !rename_if. Qed.

Lemma normalize_spotify_renames (df : DataFrame) :
  normalize_spotify df
  = rename "artists" "artist" (rename "track_name" "title" df).
Proof. unfold normalize_spotify. now rewrite !rename_if. Qed.

Lemma renames_labels (track_col : string) (df : DataFrame) :
  track_col <> "title" -> track_col <> "artists" -> track_col <> "artist" ->
  let n := rename "artists" "artist" (rename track_col "title" df) in
  rows n = rows df
  /\ length (columns n) = length (columns df)
  /\ has_col track_col n = false
  /\ has_col "artists" n = false
  /\ has_col "title" n = has_col track_col df || has_col "title" df
  /\ has_col "artist" n = has_col "artists" df || has_col "artist" df
  /\ (forall c, c <> track_col -> c <> "title" -> c <> "artists" ->
                c <> "artist" -> has_col c n = has_col c df)
  /\ (has_col "title" df = false ->
      forall r, get n "title" r = get df track_col r)
  /\ (has_col "artist" df = false ->
      forall r, get n "artist" r = get df "artists" r).
Proof.
  intros H1 H2 H3 n. subst n.
  split; [reflexivity|]. split; [simpl; now rewrite !length_map|].
  split.
  { rewrite has_col_rename by congruence.
    now apply has_col_rename_old. }
  split; [apply has_col_rename_old; discriminate|].
  split.
  { rewrite has_col_rename by discriminate. apply has_col_rename_new. }
  split.
  { rewrite has_col_rename_new.
    now rewrite !has_col_rename by (try discriminate; congruence). }
  split.
  { intros c Hc1 Hc2 Hc3 Hc4. now rewrite !has_col_rename by assumption. }
  split.
  - intros Ht r. unfold get, col_pos, rename; simpl. rewrite !length_map.
    rewrite index_of_rename_other by discriminate.
    rewrite index_of_rename_new; [reflexivity|].
    intros Hin. apply has_col_In in Hin. congruence.
  - intros Ha r. unfold get, col_pos, rename; simpl. rewrite !length_map.
    rewrite index_of_rename_new.
    + now rewrite index_of_rename_other by (try discriminate; congruence).
    + intros Hin. apply in_map_iff in Hin. destruct Hin as [c [Hc Hin]].
      destruct (String.eqb c track_col); [discriminate|]. subst c.
      apply has_col_In in Hin. congruence.
Qed.

(** X4: column normalisation (lines 15-24).  The normalised primary source
    has the rows and the number of columns it had, no [name] and no
    [artists] column any more; it has a [title] column exactly when it had
    [name] or [title] and an [artist] column exactly when it had [artists] or
    [artist]; every other label is kept; and where [title] (or [artist]) is
    new, it reads the cells [name] (or [artists]) read before.  The same
    holds for the secondary source with [track_name] in place of [name]. *)
Theorem normalize_columns_spec (df : DataFrame) :
  (let n := normalize_tracks df in
   rows n = rows df
   /\ length (columns n) = length (columns df)
   /\ has_col "name" n = false
   /\ has_col "artists" n = false
   /\ has_col "title" n = has_col "name" df || has_col "title" df
   /\ has_col "artist" n = has_col "artists" df || has_col "artist" df
   /\ (forall c, c <> "name" -> c <> "title" -> c <> "artists" ->
                 c <> "artist" -> has_col c n = has_col c df)
   /\ (has_col "title" df = false ->
       forall r, get n "title" r = get df "name" r)
   /\ (has_col "artist" df = false ->
       forall r, get n "artist" r = get df "artists" r))
  /\ (let n := normalize_spotify df in
      rows n = rows df
      /\ length (columns n) = length (columns df)
      /\ has_col "track_name" n = false
      /\ has_col "artists" n = false
      /\ has_col "title" n = has_col "track_name" df || has_col "title" df
      /\ has_col "artist" n = has_col "artists" df || has_col "artist" df
      /\ (forall c, c <> "track_name" -> c <> "title" -> c <> "artists" ->
                    c <> "artist" -> has_col c n = has_col c df)
      /\ (has_col "title" df = false ->
          forall r, get n "title" r = get df "track_name" r)
      /\ (has_col "artist" df = false ->
          forall r, get n "artist" r = get df "artists" r)).
Proof.
  split.
  - rewrite normalize_tracks_renames.
    apply (renames_labels "name" df); discriminate.
  - rewrite normalize_spotify_renames.
    apply (renames_labels "track_name" df); discriminate.
Qed.

(* ================================================================== *)
(** * Further properties of the query layer *)

Lemma sort_values_desc_perm {A : Type} (key : A -> cell) (l sorted : list A) :
  sort_values_desc key l = Returned sorted -> Permutation l sorted.
Proof.
  unfold sort_values_desc.
  destruct (existsb _ _ && existsb _ _); [discriminate|].
  intros H. injection H as <-.
  rewrite <- (isort_perm _ (filter (fun a => negb (isna (key a))) l)).
  rewrite (filter_split_perm (fun a => negb (isna (key a))) l) at 1.
  apply Permutation_app_head.
  rewrite (filter_ext (fun x => negb (negb (isna (key x))))
                      (fun a => isna (key a)))
    by (intros; apply negb_involutive).
  reflexivity.
Qed.

Lemma sorted_firstn_skipn {A : Type} (R : A -> A -> Prop) (k : nat)
      (l : list A) (a b : A) :
  StronglySorted R l -> In a (firstn k l) -> In b (skipn k l) -> R a b.
Proof.
  revert k. induction l as [|x l IH]; intros [|k] Hs Ha Hb; simpl in *;
    try contradiction.
  inversion Hs as [|? ? Hs' HF]; subst. destruct Ha as [<-|Ha].
  - rewrite Forall_forall in HF. apply HF.
    rewrite <- (firstn_skipn k l). apply in_or_app. now right.
  - now apply (IH k).
Qed.

Lemma head_nonneg {A : Type} (n : Z) (l : list A) :
  (0 <= n)%Z -> head n l = firstn (Z.to_nat n) l.
Proof. intros H. unfold head. destruct (Z.leb_spec 0 n); [reflexivity | lia]. Qed.

(** The two song queries, for a numeric popularity column, in terms of one
    sorted list of the year's rows. *)
Lemma song_queries_sorted (df : DataFrame) (year : Z) :
  labels_unique ["year"; "title"; "artist"; "popularity"] df = true ->
  song_columns_present df = true ->
  numeric_col df "popularity" ->
  exists sorted,
    Permutation (filter (in_year df year) (rows df)) sorted
    /\ StronglySorted
         (fun a b => ranks_before (get df "popularity" a)
                                  (get df "popularity" b)) sorted
    /\ forall top_n,
         get_most_popular_songs df year top_n
         = Returned
             (mkDF ["title"; "artist"; "popularity"]
                   (map (fun r => [get df "title" r; get df "artist" r;
                                   get df "popularity" r])
                        (head top_n sorted))).
Proof.
  unfold song_columns_present, get_most_popular_songs.
  rewrite has_col_select, unique_label_select. intros Hu H Hnum.
  destruct (has_col "year" df) eqn:Hcy, (has_col "title" df) eqn:Hct,
    (has_col "artist" df) eqn:Hca, (has_col "popularity" df) eqn:Hcp;
    simpl in H; try discriminate. cbn [negb orb].
  destruct (unique_label_intro _ df "year" Hu) as [-> _];
    [simpl; tauto | exact Hcy |].
  destruct (unique_label_intro _ df "popularity" Hu) as [-> Pp];
    [simpl; tauto | exact Hcp |].
  destruct (unique_label_intro _ df "title" Hu) as [_ Pt];
    [simpl; tauto | exact Hct |].
  destruct (unique_label_intro _ df "artist" Hu) as [_ Pa];
    [simpl; tauto | exact Hca |].
  cbn [negb].
  set (year_df := select df (year_mask df year)).
  destruct (sort_values_desc_numeric (get year_df "popularity")
              (rows year_df) (numeric_year_df df year Hnum))
    as [sorted [Hsort [Hperm Hss]]].
  exists sorted. unfold year_df in Hperm. rewrite year_df_rows in Hperm.
  split; [exact Hperm|]. split; [exact Hss|].
  intros top_n. rewrite Hsort. cbn [bind].
  exact (getitem_list_three (mkDF (columns year_df) (head top_n sorted))
           "title" "artist" "popularity" Hct Hca Hcp Pt Pa Pp).
Qed.

(** A song query that returns has found one [popularity] column. *)
Lemma get_most_popular_songs_Returned_unique (df : DataFrame)
      (year top_n : Z) (out : DataFrame) :
  labels_unique ["year"; "title"; "artist"] df = true ->
  song_columns_present df = true ->
  get_most_popular_songs df year top_n = Returned out ->
  labels_unique ["year"; "title"; "artist"; "popularity"] df = true.
Proof.
  unfold song_columns_present, get_most_popular_songs.
  rewrite has_col_select, unique_label_select. intros Hu H Hout.
  destruct (has_col "year" df), (has_col "title" df),
    (has_col "artist" df), (has_col "popularity" df);
    simpl in H; try discriminate. cbn [negb orb] in Hout.
  destruct (unique_label "year" df) eqn:Uy; [|discriminate].
  destruct (unique_label "popularity" df) eqn:Up; [|discriminate].
  unfold labels_unique in *. cbn [forallb] in *.
  rewrite (unique_label_leb _ _ Up).
  apply andb_prop in Hu. destruct Hu as [-> Hu].
  apply andb_prop in Hu. destruct Hu as [-> Hu].
  apply andb_prop in Hu. destruct Hu as [-> _]. reflexivity.
Qed.

(** X5: [get_most_popular_songs] returns the top of the year.  For a table
    in which no more than one column carries each of [year], [title],
    [artist], a numeric popularity column and a count [top_n >= 0], a call
    that returns gives exactly [min(top_n, number of rows of the year)]
    rows, and together with the rows it leaves out they are the year's rows
    reduced to title, artist and popularity; no row left out has a
    popularity above that of a returned row. *)
Theorem get_most_popular_songs_top (df : DataFrame) (year top_n : Z)
        (out : DataFrame) :
  labels_unique ["year"; "title"; "artist"] df = true ->
  song_columns_present df = true ->
  (0 <= top_n)%Z ->
  numeric_col df "popularity" ->
  get_most_popular_songs df year top_n = Returned out ->
  length (rows out)
  = Nat.min (Z.to_nat top_n) (length (filter (in_year df year) (rows df)))
  /\ exists left_out,
      Permutation
        (map (fun r => [get df "title" r; get df "artist" r;
                        get df "popularity" r])
             (filter (in_year df year) (rows df)))
        (rows out ++ left_out)
      /\ forall r r', In r (rows out) -> In r' left_out ->
                      ranks_before (get out "popularity" r)
                                   (get out "popularity" r').
Proof.
  intros Hu Hp Hn Hnum Hout.
  pose proof (get_most_popular_songs_Returned_unique df year top_n out
                Hu Hp Hout) as Hu4.
  destruct (song_queries_sorted df year Hu4 Hp Hnum)
    as [sorted [Hperm [Hss Hq]]].
  rewrite Hq in Hout. injection Hout as <-. simpl rows.
  rewrite (head_nonneg top_n sorted Hn).
  set (proj := fun r => [get df "title" r; get df "artist" r;
                         get df "popularity" r]).
  split.
  - rewrite length_map, length_firstn.
    now rewrite (Permutation_length Hperm).
  - exists (map proj (skipn (Z.to_nat top_n) sorted)). split.
    + rewrite <- map_app, firstn_skipn. now apply Permutation_map.
    + intros r r' Hr Hr'. apply in_map_iff in Hr. apply in_map_iff in Hr'.
      destruct Hr as [a [<- Ha]]. destruct Hr' as [b [<- Hb]].
      apply (sorted_firstn_skipn _ (Z.to_nat top_n) sorted a b Hss Ha Hb).
Qed.

Lemma numeric_table : numeric_col Samples.table "popularity".
Proof.
  intros r Hr. simpl in Hr.
  repeat (destruct Hr as [<-|Hr]; [reflexivity|]). contradiction.
Qed.

Lemma get_most_popular_songs_top_witness :
  exists out,
    get_most_popular_songs Samples.table 2000 2 = Returned out
    /\ length (rows out) = 2%nat.
Proof.
  destruct (get_most_popular_songs Samples.table 2000 2) as [out|e] eqn:H;
    [|discriminate].
  exists out. split; [reflexivity|].
  apply (get_most_popular_songs_top Samples.table 2000 2 out eq_refl eq_refl);
    [discriminate | exact numeric_table | exact H].
Defined.

(** X6: [get_most_popular_song_by_year] is the head of
    [get_most_popular_songs].  For a table in which no more than one column
    carries each of [year], [title], [artist]: when the four columns are
    present and the year has a row, then for every [top_n >= 1] either
    both calls raise the same exception, or the pair returned by the first
    is the title and the popularity of the first row returned by the
    second. *)
Theorem most_popular_song_is_first_of_most_popular_songs
        (df : DataFrame) (year top_n : Z) :
  labels_unique ["year"; "title"; "artist"] df = true ->
  song_columns_present df = true ->
  (1 <= top_n)%Z ->
  (exists r, In r (rows df) /\ in_year df year r = true) ->
  match get_most_popular_songs df year top_n with
  | Raised e => get_most_popular_song_by_year df year = Raised e
  | Returned out =>
      exists title artist popularity others,
        rows out = [title; artist; popularity] :: others
        /\ get_most_popular_song_by_year df year
           = Returned (ScalarValue title, popularity)
  end.
Proof.
  unfold song_columns_present, get_most_popular_songs,
    get_most_popular_song_by_year.
  rewrite has_col_select, unique_label_select. intros Hu H Hn [r0 [Hr0 Hy0]].
  destruct (has_col "year" df) eqn:Hyear, (has_col "title" df) eqn:Hct,
    (has_col "artist" df) eqn:Hca, (has_col "popularity" df) eqn:Hcp;
    simpl in H; try discriminate. cbn [negb orb].
  destruct (unique_label_intro _ df "year" Hu) as [-> _];
    [simpl; tauto | exact Hyear |].
  cbn [negb].
  set (year_df := select df (year_mask df year)).
  assert (Hin : In r0 (rows year_df)).
  { unfold year_df. rewrite year_df_rows. apply filter_In. tauto. }
  destruct (empty year_df) eqn:He.
  { apply (empty_year_df df year Hyear) in He.
    unfold year_df in Hin. rewrite year_df_rows, He in Hin. contradiction. }
  destruct (unique_label "popularity" df) eqn:Up; [|reflexivity]. cbn [negb].
  destruct (unique_label_intro _ df "title" Hu) as [_ Pt];
    [simpl; tauto | exact Hct |].
  destruct (unique_label_intro _ df "artist" Hu) as [_ Pa];
    [simpl; tauto | exact Hca |].
  pose proof (unique_label_positions "popularity" df Up) as Pp.
  destruct (sort_values_desc (get year_df "popularity") (rows year_df))
    as [sorted|e] eqn:Hsort; [|reflexivity].
  cbn [bind]. apply sort_values_desc_perm in Hsort.
  destruct sorted as [|best rest].
  { apply Permutation_sym, Permutation_nil in Hsort.
    rewrite Hsort in Hin. contradiction. }
  rewrite (getitem_list_three
             (mkDF (columns year_df) (head top_n (best :: rest)))
             "title" "artist" "popularity" Hct Hca Hcp Pt Pa Pp).
  rewrite (head_nonneg top_n (best :: rest)) by lia.
  destruct (Z.to_nat top_n) as [|k] eqn:Hk; [lia|].
  cbn [rows firstn map nth]. do 4 eexists. split; [reflexivity|].
  now rewrite (row_getitem_unique "title" year_df best Pt).
Qed.

Lemma most_popular_song_is_first_of_most_popular_songs_witness :
  exists title artist popularity others,
    get_most_popular_songs Samples.table 2000 3
    = Returned (mkDF ["title"; "artist"; "popularity"]
                     ([title; artist; popularity] :: others))
    /\ get_most_popular_song_by_year Samples.table 2000
       = Returned (ScalarValue title, popularity).
Proof.
  pose proof (most_popular_song_is_first_of_most_popular_songs
                Samples.table 2000 3 eq_refl eq_refl) as H.
  destruct (get_most_popular_songs Samples.table 2000 3) as [out|e] eqn:Hq;
    [|discriminate].
  destruct H as [t [a [p [others [Hrows Hres]]]]].
  - discriminate.
  - exists [Str "a"; Str "X"; Num 10; Num 2000; Num (9 # 10)].
    split; [now left | reflexivity].
  - exists t, a, p, others. split; [|exact Hres].
    injection Hq as <-. simpl in Hrows. now rewrite <- Hrows.
Defined.

Section DedupComplete.
Context {A B : Type}.
Variable eqb : A -> A -> bool.
Variable g : A -> B.
Hypothesis eqb_g : forall a b, eqb a b = true <-> g a = g b.

Lemma dedup_complete (l : list A) (x : A) :
  In x l -> exists y, In y (dedup eqb l) /\ eqb y x = true.
Proof.
  induction l as [|a l IH]; simpl; [tauto|].
  intros [->|Hx].
  - exists x. split; [now left | now apply eqb_g].
  - destruct (IH Hx) as [z [Hz Hzx]].
    destruct (eqb a z) eqn:Haz.
    + exists a. split; [now left|]. apply eqb_g.
      apply eqb_g in Haz. apply eqb_g in Hzx. congruence.
    + exists z. split; [|assumption]. right. apply filter_In.
      now rewrite Haz.
Qed.
End DedupComplete.

Lemma group_keys_complete (kidx : list nat) (rs : list row) (r : row) :
  In r rs -> existsb isna (row_at kidx r) = false ->
  exists k, In k (group_keys kidx rs) /\ keys_eqb k (row_at kidx r) = true.
Proof.
  intros Hr Hna.
  destruct (dedup_complete keys_eqb (map canon) keys_eqb_canon
              (filter (fun k => negb (existsb isna k)) (map (row_at kidx) rs))
              (row_at kidx r)) as [k [Hk Heq]].
  - apply filter_In. split; [now apply in_map | now rewrite Hna].
  - exists k. split; [|assumption]. unfold group_keys.
    now apply (isort_In keys_leb).
Qed.







(* ------------------------------------------------------------------ *)
(** *** [compare_artists] *)

(** X8: the two artist arguments of [compare_artists] can be exchanged: the
    result, rows and their order included, is the same. *)
Theorem compare_artists_sym (df : DataFrame) (artist1 artist2 : string) :
  compare_artists df artist1 artist2 = compare_artists df artist2 artist1.
Proof.
  unfold compare_artists.
  assert (Hmask : map (cell_isin [artist1; artist2]) (column df "artist")
                  = map (cell_isin [artist2; artist1]) (column df "artist")).
  { apply map_ext. intros [| |q|s]; simpl; try reflexivity.
    rewrite !orb_false_r. apply orb_comm. }
  now rewrite Hmask.
Qed.

Lemma mapM_keyed {A B : Type} (h : A -> result B) (l : list A)
      (res : list (A * B)) :
  mapM (fun k => m <- h k ;; Returned (k, m)) l = Returned res ->
  map fst res = l.
Proof.
  revert res. induction l as [|a l IH]; simpl; intros res H.
  - injection H as <-. reflexivity.
  - destruct (h a) as [m|e]; [|discriminate]. cbn [bind] in H.
    destruct (mapM (fun k => m0 <- h k ;; Returned (k, m0)) l) as [bs|e];
      [|discriminate].
    cbn [bind] in H. injection H as <-. simpl. f_equal. now apply IH.
Qed.

(** What [compare_artists] returns when the three columns are there: the
    group keys, in their order, each followed by its mean or means. *)
Lemma compare_artists_keys (df : DataFrame) (artist1 artist2 : string)
      (out : DataFrame) :
  artist_columns_present df = true ->
  compare_artists df artist1 artist2 = Returned out ->
  exists more keyed,
    columns out = "year" :: "artist" :: more
    /\ rows out = map (fun kt : list cell * row => fst kt ++ snd kt) keyed
    /\ map fst keyed
       = group_keys [col_pos "year" df; col_pos "artist" df]
                    (filter (fun r => cell_isin [artist1; artist2]
                                                (get df "artist" r))
                            (rows df)).
Proof.
  unfold artist_columns_present, compare_artists.
  rewrite has_col_select. intros H Hout.
  destruct (has_col "year" df), (has_col "artist" df),
    (has_col "popularity" df); simpl in H; try discriminate.
  cbn [negb orb] in Hout. rewrite <- comp_df_rows.
  set (comp_df := select df (map (cell_isin [artist1; artist2])
                                 (column df "artist"))) in *.
  destruct (unique_label "popularity" comp_df).
  - apply bind_Returned in Hout. destruct Hout as [means [Hmeans Hout]].
    injection Hout as <-. unfold groupby_mean in Hmeans.
    destruct (forallb (fun k => unique_label k comp_df) ["year"; "artist"]);
      [|discriminate].
    cbn [negb] in Hmeans. apply mapM_keyed in Hmeans.
    exists ["popularity"], (map (fun km => (fst km, [snd km])) means).
    split; [reflexivity|]. split.
    + unfold reset_index. cbn [rows]. now rewrite map_map.
    + rewrite map_map. exact Hmeans.
  - apply bind_Returned in Hout. destruct Hout as [means [Hmeans Hout]].
    injection Hout as <-. unfold groupby_mean_frame in Hmeans.
    destruct (forallb (fun k => unique_label k comp_df) ["year"; "artist"]);
      [|discriminate].
    cbn [negb] in Hmeans. apply mapM_keyed in Hmeans.
    exists (repeat "popularity" (length (positions "popularity" comp_df))),
      means.
    split; [reflexivity|]. split; [reflexivity | exact Hmeans].
Qed.

(** X9: [compare_artists] leaves no pair out.  For a numeric popularity
    column, every row of the table that names one of the two artists and
    has a year is represented: the result has a row with that artist and
    that year. *)
Theorem compare_artists_complete (df : DataFrame) (artist1 artist2 : string)
        (out : DataFrame) (x : row) :
  artist_columns_present df = true ->
  numeric_col df "popularity" ->
  compare_artists df artist1 artist2 = Returned out ->
  In x (rows df) ->
  cell_isin [artist1; artist2] (get df "artist" x) = true ->
  isna (get df "year" x) = false ->
  exists r, In r (rows out)
            /\ get out "artist" r = get df "artist" x
            /\ key_eqb (get out "year" r) (get df "year" x) = true.
Proof.
  intros H Hnum Hout Hx Hisin Hna.
  destruct (compare_artists_keys df artist1 artist2 out H Hout)
    as [more [keyed [Hcols [Hrows Hkeys]]]].
  set (kidx := [col_pos "year" df; col_pos "artist" df]) in *.
  destruct (group_keys_complete kidx
              (filter (fun r => cell_isin [artist1; artist2]
                                          (get df "artist" r)) (rows df)) x)
    as [k [Hk Heq]].
  - apply filter_In. tauto.
  - unfold kidx, row_at. cbn [map existsb].
    change (cell_at (col_pos "year" df) x) with (get df "year" x).
    change (cell_at (col_pos "artist" df) x) with (get df "artist" x).
    rewrite Hna, orb_false_r. cbn [orb].
    apply cell_isin_two in Hisin. destruct Hisin as [-> | ->]; reflexivity.
  - rewrite <- Hkeys in Hk. apply in_map_iff in Hk.
    destruct Hk as [kt [<- Hkt]].
    exists (fst kt ++ snd kt). split.
    + rewrite Hrows.
      exact (in_map (fun kt : list cell * row => fst kt ++ snd kt)
                    keyed kt Hkt).
    + unfold kidx, row_at in Heq. cbn [map] in Heq.
      change (cell_at (col_pos "year" df) x) with (get df "year" x) in Heq.
      change (cell_at (col_pos "artist" df) x) with (get df "artist" x)
        in Heq.
      unfold get, col_pos. rewrite Hcols. cbn [index_of String.eqb].
      fold (col_pos "artist" df) (col_pos "year" df).
      fold (get df "artist" x) (get df "year" x).
      destruct (fst kt) as [|y [|a [|? ?]]]; simpl in Heq;
        try discriminate; try (rewrite ?andb_false_r in Heq; discriminate).
      rewrite andb_true_r in Heq. apply andb_prop in Heq.
      destruct Heq as [Hy Ha].
      simpl. split; [|exact Hy].
      apply cell_isin_two in Hisin.
      destruct Hisin as [Hs|Hs]; rewrite Hs in *;
        destruct a; simpl in Ha; try discriminate;
        apply String.eqb_eq in Ha; now subst.
Qed.

Lemma compare_artists_complete_witness :
  exists out r,
    compare_artists Samples.table "X" "Y" = Returned out
    /\ In r (rows out)
    /\ get out "artist" r = Str "Y"
    /\ key_eqb (get out "year" r) (Num 2001) = true.
Proof.
  destruct (compare_artists Samples.table "X" "Y") as [out|e] eqn:H;
    [|discriminate].
  destruct (compare_artists_complete Samples.table "X" "Y" out
              [Str "e"; Str "Y"; Num 99; Num 2001; Num (85 # 100)]
              eq_refl numeric_table H) as [r Hr].
  - simpl. tauto.
  - reflexivity.
  - reflexivity.
  - exists out, r. split; [reflexivity | exact Hr].
Defined.

(* ------------------------------------------------------------------ *)
(** *** [get_songs_by_vibe] *)

Lemma remove_nth_perm {A : Type} (i : nat) (l : list A) (d : A) :
  (i < length l)%nat -> Permutation l (nth i l d :: remove_nth i l).
Proof.
  revert i. induction l as [|x l IH]; intros [|i] H; simpl in *; try lia.
  - reflexivity.
  - rewrite perm_swap. constructor. apply IH. lia.
Qed.

Lemma draw_perm (g : RandomState) (step k : nat) (pool : list row) :
  exists rest, Permutation pool (draw g step k pool ++ rest).
Proof.
  revert step pool. induction k as [|k IH]; intros step pool; simpl.
  - exists pool. reflexivity.
  - destruct pool as [|r pool]; [exists []; reflexivity|].
    set (i := (g step mod length (r :: pool))%nat).
    destruct (IH (S step) (remove_nth i (r :: pool))) as [rest Hrest].
    exists rest. simpl app.
    rewrite (remove_nth_perm i (r :: pool) []) at 1
      by (apply Nat.mod_upper_bound; simpl; lia).
    now constructor.
Qed.

(** The two ways the function returns: with no rows, when nothing matches,
    or with a draw from the matching rows. *)
Lemma get_songs_by_vibe_cases (g : RandomState) (df : DataFrame)
      (vibe : string) (num_songs : Z) (out : DataFrame) :
  get_songs_by_vibe g df vibe num_songs = Returned out ->
  let matching := filter (vibe_predicate df vibe) (rows df) in
  (out = pd_DataFrame /\ (matching = [] \/ columns df = []))
  \/ ((0 <= num_songs)%Z
      /\ matching <> [] /\ columns df <> []
      /\ out = mkDF (columns df)
                    (draw g 0 (Nat.min (Z.to_nat num_songs) (length matching))
                          matching)).
Proof.
  intros H matching. unfold get_songs_by_vibe in H.
  destruct (empty df) eqn:He.
  { injection H as <-. left. split; [reflexivity|].
    unfold empty in He. destruct (columns df); [now right|].
    left. unfold matching. destruct (rows df); [reflexivity | discriminate]. }
  destruct (vibe_filter df vibe) as [[filtered|e]|] eqn:Hv; cbn [bind] in H.
  - apply vibe_filter_Returned in Hv. fold matching in Hv.
    destruct (empty filtered) eqn:Hf.
    + injection H as <-. left. split; [reflexivity|]. subst filtered.
      unfold empty in Hf. simpl in Hf.
      destruct (columns df); [now right|]. left.
      destruct matching; [reflexivity | discriminate].
    + right. subst filtered. unfold sample in H. cbn [rows columns] in H.
      unfold empty in Hf. cbn [rows columns] in Hf.
      destruct (columns df) as [|c cs] eqn:Hc; [discriminate|].
      assert (Hm : matching <> []).
      { intros Hm. rewrite Hm in Hf. discriminate. }
      assert (Hlen : (0 < length matching)%nat).
      { destruct matching; [contradiction | simpl; lia]. }
      destruct (Z.ltb_spec (Z.min num_songs (Z.of_nat (length matching))) 0)
        as [Hneg|Hpos]; [discriminate|].
      destruct (Z.ltb_spec (Z.of_nat (length matching))
                           (Z.min num_songs (Z.of_nat (length matching))))
        as [Hbig|_]; [lia|].
      injection H as <-.
      split; [lia|]. split; [assumption|]. split; [discriminate|].
      f_equal. f_equal. lia.
  - discriminate.
  - injection H as <-. left. split; [reflexivity|]. left.
    apply filter_none. intros r _. unfold vibe_filter in Hv.
    unfold vibe_predicate.
    repeat (destruct (String.eqb vibe _); [discriminate|]).
    destruct (String.eqb vibe "sporty"); [|reflexivity].
    destruct (has_col "tempo" df); discriminate.
Qed.

(** X10: the playlist is sampled without replacement.  Whenever
    [get_songs_by_vibe] returns, the returned rows together with some rows
    left over are exactly the matching rows, each as often as it occurs in
    the table; when [num_songs] is at least the number of matching rows,
    nothing is left over, so all matches are returned; and a result with
    rows has the columns of the table. *)
Theorem get_songs_by_vibe_without_replacement (g : RandomState)
        (df : DataFrame) (vibe : string) (num_songs : Z) (out : DataFrame) :
  get_songs_by_vibe g df vibe num_songs = Returned out ->
  let matching := filter (vibe_predicate df vibe) (rows df) in
  (rows out <> [] -> columns out = columns df)
  /\ (columns df <> [] ->
      exists left_over,
        Permutation matching (rows out ++ left_over)
        /\ ((Z.of_nat (length matching) <= num_songs)%Z -> left_over = [])).
Proof.
  intros H.
  pose proof (get_songs_by_vibe_cases g df vibe num_songs out H) as Hcases.
  cbv zeta in *.
  set (matching := filter (vibe_predicate df vibe) (rows df)) in *.
  destruct Hcases as [[-> Hz]|[Hn [Hm [Hc ->]]]].
  - split; [intros Hr; now contradiction Hr|].
    intros Hc. destruct Hz as [Hz|Hz]; [|contradiction].
    exists matching. simpl. split; [reflexivity|]. intros _. exact Hz.
  - split; [reflexivity|]. intros _. simpl rows.
    set (k := Nat.min (Z.to_nat num_songs) (length matching)).
    destruct (draw_perm g 0 k matching) as [rest Hperm].
    exists rest. split; [exact Hperm|].
    intros Hle. apply Permutation_length in Hperm.
    rewrite length_app, draw_length in Hperm.
    destruct rest; [reflexivity|]. simpl in Hperm. subst k. lia.
Qed.

Lemma get_songs_by_vibe_without_replacement_witness :
  exists out,
    get_songs_by_vibe (fun _ => 1%nat) Samples.table "sporty" 5 = Returned out
    /\ columns out = columns Samples.table
    /\ length (rows out) = 3%nat.
Proof.
  destruct (get_songs_by_vibe (fun _ => 1%nat) Samples.table "sporty" 5)
    as [out|e] eqn:H; [|discriminate].
  destruct (get_songs_by_vibe_without_replacement
              (fun _ => 1%nat) Samples.table "sporty" 5 out H) as [Hc _].
  exists out. split; [reflexivity|].
  injection H as <-. split; [apply Hc; discriminate | reflexivity].
Defined.

(** X11: a negative [num_songs] is not treated as "no songs": when the
    vibe's filter succeeds with at least one matching row, the call raises
    [ValueError] (from [sample]) for every negative [num_songs]. *)
Theorem get_songs_by_vibe_negative_count (g : RandomState) (df : DataFrame)
        (vibe : string) (num_songs : Z) (filtered : DataFrame) :
  vibe_filter df vibe = Some (Returned filtered) ->
  empty filtered = false ->
  (num_songs < 0)%Z ->
  get_songs_by_vibe g df vibe num_songs = Raised ValueError.
Proof.
  intros Hv Hf Hn. unfold get_songs_by_vibe.
  assert (He : empty df = false).
  { pose proof (vibe_filter_Returned df vibe filtered Hv) as Heq.
    subst filtered. unfold empty in *. simpl in Hf.
    destruct (columns df); [discriminate|].
    destruct (rows df); [discriminate | reflexivity]. }
  rewrite He, Hv. cbn [bind]. rewrite Hf. unfold sample.
  destruct (Z.ltb_spec (Z.min num_songs (Z.of_nat (length (rows filtered)))) 0);
    [reflexivity | lia].
Qed.

Lemma get_songs_by_vibe_negative_count_witness :
  get_songs_by_vibe (fun _ => 0%nat) Samples.table "sporty" (-1)
  = Raised ValueError.
Proof.
  apply (get_songs_by_vibe_negative_count
           (fun _ => 0%nat) Samples.table "sporty" (-1)
           (mkDF (columns Samples.table)
                 (filter (vibe_predicate Samples.table "sporty")
                         (rows Samples.table)))).
  - reflexivity.
  - reflexivity.
  - reflexivity.
Defined.

Lemma lt_series_numeric (df : DataFrame) (name : string) (t : Q) :
  numeric_col df name ->
  exists bits, lt (Series (column df name)) t = Returned (Mask bits).
Proof.
  intros Hnum. unfold lt.
  rewrite (mapM_total _ (fun c => match c with
                                  | Num q => Qlt_bool q t
                                  | _ => false
                                  end)).
  - cbn [bind]. eauto.
  - intros c Hc. unfold column in Hc. apply in_map_iff in Hc.
    destruct Hc as [r [<- Hr]]. specialize (Hnum r Hr).
    destruct (get df name r); simpl in *; try discriminate; reflexivity.
Qed.

Lemma gt_series_numeric (df : DataFrame) (name : string) (t : Q) :
  numeric_col df name ->
  exists bits, gt (Series (column df name)) t = Returned (Mask bits).
Proof.
  intros Hnum. unfold gt.
  rewrite (mapM_total _ (fun c => match c with
                                  | Num q => Qlt_bool t q
                                  | _ => false
                                  end)).
  - cbn [bind]. eauto.
  - intros c Hc. unfold column in Hc. apply in_map_iff in Hc.
    destruct Hc as [r [<- Hr]]. specialize (Hnum r Hr).
    destruct (get df name r); simpl in *; try discriminate; reflexivity.
Qed.

Lemma select_rows_all_false (bits : list bool) (rs : list row) :
  (forall b, In b bits -> b = false) -> select_rows bits rs = [].
Proof.
  revert rs. induction bits as [|b bits IH]; intros rs H; [reflexivity|].
  destruct rs as [|r rs]; [reflexivity|]. simpl.
  rewrite (H b (or_introl eq_refl)). apply IH. intros; apply H; now right.
Qed.

(** Indexing with a conjunction one side of which is the Python [False]
    selects nothing, and the function then returns the empty frame. *)
Lemma false_mask_gives_empty (g : RandomState) (df : DataFrame)
      (num_songs : Z) (m : mask) :
  (exists bits, m = Mask bits) ->
  (filtered <- getitem df (mask_and (PyBool false) m) ;;
   if empty filtered then Returned pd_DataFrame
   else sample g filtered
               (Z.min num_songs (Z.of_nat (length (rows filtered)))))
  = Returned pd_DataFrame
  /\ (filtered <- getitem df (mask_and m (PyBool false)) ;;
      if empty filtered then Returned pd_DataFrame
      else sample g filtered
                  (Z.min num_songs (Z.of_nat (length (rows filtered)))))
     = Returned pd_DataFrame.
Proof.
  intros [bits ->]. simpl.
  assert (He : forall bs, (forall b, In b bs -> b = false) ->
                          empty (select df bs) = true).
  { intros bs Hbs. unfold empty, select; simpl.
    rewrite (select_rows_all_false bs (rows df) Hbs).
    now destruct (columns df). }
  rewrite !He; [split; reflexivity| |].
  - intros b Hb. apply in_map_iff in Hb. destruct Hb as [x [<- _]].
    apply andb_false_r.
  - intros b Hb. apply in_map_iff in Hb. now destruct Hb as [x [<- _]].
Qed.

(** X12: graceful degradation, where it works.  On a non-empty table that
    lacks exactly one of the two feature columns a vibe reads, while the
    other one is a numeric column, the comparison with the default value is
    false for every row and the call returns the empty frame: this holds
    for every vibe when [energy] is the missing column, and for [chill],
    [energetic], [gloomy] and [party] when the other column is missing. *)
Theorem get_songs_by_vibe_degrades_with_one_feature (g : RandomState)
        (df : DataFrame) (num_songs : Z) (vibe other : string) :
  In (vibe, other)
     [("chill", "acousticness"); ("energetic", "acousticness");
      ("gloomy", "valence"); ("party", "danceability"); ("sporty", "tempo")] ->
  empty df = false ->
  (has_col "energy" df = false -> has_col other df = true ->
   numeric_col df other ->
   get_songs_by_vibe g df vibe num_songs = Returned pd_DataFrame)
  /\ (vibe <> "sporty" ->
      has_col other df = false -> has_col "energy" df = true ->
      numeric_col df "energy" ->
      get_songs_by_vibe g df vibe num_songs = Returned pd_DataFrame).
Proof.
  intros Hin He. unfold get_songs_by_vibe. rewrite He.
  simpl in Hin.
  destruct Hin as [Hp|[Hp|[Hp|[Hp|[Hp|[]]]]]]; injection Hp as <- <-;
    unfold vibe_filter, df_get; simpl String.eqb; cbv iota;
    (split;
     [intros Hen Hot Hnum; rewrite ?Hen, ?Hot
     |intros Hsp Hot Hen Hnum; rewrite ?Hen, ?Hot; try congruence]).
  - destruct (gt_series_numeric df "acousticness" (6 # 10) Hnum) as [b ->].
    apply (false_mask_gives_empty g df num_songs (Mask b)). eauto.
  - destruct (lt_series_numeric df "energy" (4 # 10) Hnum) as [b ->].
    apply (false_mask_gives_empty g df num_songs (Mask b)). eauto.
  - destruct (lt_series_numeric df "acousticness" (2 # 10) Hnum) as [b ->].
    apply (false_mask_gives_empty g df num_songs (Mask b)). eauto.
  - destruct (gt_series_numeric df "energy" (8 # 10) Hnum) as [b ->].
    apply (false_mask_gives_empty g df num_songs (Mask b)). eauto.
  - destruct (lt_series_numeric df "valence" (3 # 10) Hnum) as [b ->].
    apply (false_mask_gives_empty g df num_songs (Mask b)). eauto.
  - destruct (lt_series_numeric df "energy" (4 # 10) Hnum) as [b ->].
    apply (false_mask_gives_empty g df num_songs (Mask b)). eauto.
  - destruct (gt_series_numeric df "danceability" (8 # 10) Hnum) as [b ->].
    apply (false_mask_gives_empty g df num_songs (Mask b)). eauto.
  - destruct (gt_series_numeric df "energy" (7 # 10) Hnum) as [b ->].
    apply (false_mask_gives_empty g df num_songs (Mask b)). eauto.
  - destruct (gt_series_numeric df "tempo" 120 Hnum) as [b ->].
    apply (false_mask_gives_empty g df num_songs (Mask b)). eauto.
Qed.

Lemma get_songs_by_vibe_degrades_with_one_feature_witness :
  get_songs_by_vibe (fun _ => 0%nat) Samples.table "chill" 5
  = Returned pd_DataFrame.
Proof.
  apply (get_songs_by_vibe_degrades_with_one_feature
           (fun _ => 0%nat) Samples.table 5 "chill" "acousticness");
    try reflexivity; try discriminate.
  - simpl. tauto.
  - intros r Hr. simpl in Hr.
    repeat (destruct Hr as [<-|Hr]; [reflexivity|]). contradiction.
Defined.

(* ================================================================== *)
(** * The sections of [app.py] *)

Lemma positions_from_ge (s : nat) (n : string) (cols : list string) (i : nat) :
  In i (positions_from s n cols) -> (s <= i)%nat.
Proof.
  revert s. induction cols as [|c cols IH]; simpl; intros s H; [tauto|].
  destruct (String.eqb n c).
  - destruct H as [<-|H]; [lia|]. apply IH in H. lia.
  - apply IH in H. lia.
Qed.

(** The columns at the positions of a label carry the label. *)
Lemma positions_from_labels (s : nat) (n : string) (cols : list string) :
  map (fun i => nth (i - s) cols "") (positions_from s n cols)
  = repeat n (length (positions_from s n cols)).
Proof.
  revert s. induction cols as [|c cols IH]; intros s; simpl; [reflexivity|].
  assert (Hshift : map (fun i => nth (i - s) (c :: cols) "")
                       (positions_from (S s) n cols)
                   = repeat n (length (positions_from (S s) n cols))).
  { rewrite <- IH. apply map_ext_in. intros i Hi.
    apply positions_from_ge in Hi.
    replace (i - s)%nat with (S (i - S s)) by lia. reflexivity. }
  destruct (String.eqb_spec n c) as [->|Hne]; [|exact Hshift].
  simpl. rewrite Nat.sub_diag. f_equal. exact Hshift.
Qed.

Lemma positions_labels (n : string) (df : DataFrame) :
  map (fun i => nth i (columns df) "") (positions n df)
  = repeat n (length (positions n df)).
Proof.
  unfold positions. rewrite <- positions_from_labels.
  apply map_ext. intros i. now rewrite Nat.sub_0_r.
Qed.

Lemma positions_from_repeat_same (s : nat) (n : string) (k : nat)
      (more : list string) :
  positions_from s n (repeat n k ++ more)
  = seq s k ++ positions_from (s + k) n more.
Proof.
  revert s. induction k as [|k IH]; intros s; simpl.
  - now rewrite Nat.add_0_r.
  - rewrite String.eqb_refl, IH.
    now replace (s + S k)%nat with (S s + k)%nat by lia.
Qed.

Lemma positions_from_repeat_other (s : nat) (n m : string) (k : nat)
      (more : list string) :
  String.eqb n m = false ->
  positions_from s n (repeat m k ++ more) = positions_from (s + k) n more.
Proof.
  intros Hne. revert s. induction k as [|k IH]; intros s; simpl.
  - now rewrite Nat.add_0_r.
  - rewrite Hne, IH.
    now replace (s + S k)%nat with (S s + k)%nat by lia.
Qed.

Lemma map_nth_seq {A : Type} (l : list A) (d : A) :
  map (fun i => nth i l d) (seq 0 (length l)) = l.
Proof.
  induction l as [|a l IH]; simpl; [reflexivity|].
  f_equal. rewrite <- seq_shift, map_map. exact IH.
Qed.

Lemma row_at_seq_all (r : row) : row_at (seq 0 (length r)) r = r.
Proof. unfold row_at, cell_at. apply map_nth_seq. Qed.

Lemma has_col_positions (n : string) (df : DataFrame) :
  has_col n df = true -> (1 <= length (positions n df))%nat.
Proof.
  intros H. destruct (has_col_index_of n df H) as [i Hi].
  pose proof (positions_from_index 0 n (columns df)) as Hp.
  rewrite Hi in Hp. destruct Hp as [more Hp]. unfold positions.
  rewrite Hp. simpl. lia.
Qed.

(** What [df[["title", "artist", "popularity"]]] looks like: the [title]
    columns, the [artist] columns, the [popularity] columns, at least one
    of each, and as many rows as [df] has. *)
Lemma getitem_list_songs (df out : DataFrame) :
  getitem_list df ["title"; "artist"; "popularity"] = Returned out ->
  exists k m p,
    (1 <= k)%nat /\ (1 <= m)%nat /\ (1 <= p)%nat
    /\ columns out
       = repeat "title" k ++ repeat "artist" m ++ repeat "popularity" p
    /\ Forall (fun r => length r = (k + m + p)%nat) (rows out)
    /\ length (rows out) = length (rows df).
Proof.
  unfold getitem_list. cbn [forallb flat_map].
  destruct (has_col "title" df) eqn:Ht; [|discriminate].
  destruct (has_col "artist" df) eqn:Ha; [|discriminate].
  destruct (has_col "popularity" df) eqn:Hp; [|discriminate].
  cbn [andb negb]. intros H. injection H as <-. cbn [columns rows].
  exists (length (positions "title" df)), (length (positions "artist" df)),
    (length (positions "popularity" df)).
  split; [now apply has_col_positions|].
  split; [now apply has_col_positions|].
  split; [now apply has_col_positions|].
  rewrite app_nil_r. split; [|split].
  - now rewrite !map_app, !positions_labels.
  - apply Forall_forall. intros r Hr. apply in_map_iff in Hr.
    destruct Hr as [x [<- _]]. rewrite row_at_length, !length_app. lia.
  - apply length_map.
Qed.

(** Selecting the three labels once more changes nothing. *)
Lemma getitem_list_songs_again (out : DataFrame) (k m p : nat) :
  (1 <= k)%nat -> (1 <= m)%nat -> (1 <= p)%nat ->
  columns out
  = repeat "title" k ++ repeat "artist" m ++ repeat "popularity" p ->
  Forall (fun r => length r = (k + m + p)%nat) (rows out) ->
  getitem_list out ["title"; "artist"; "popularity"] = Returned out
  /\ issubset ["title"; "artist"; "popularity"] out = true
  /\ empty out = match rows out with [] => true | _ => false end.
Proof.
  intros Hk Hm Hp Hcols Hrows.
  assert (Ht : has_col "title" out = true).
  { apply has_col_In. rewrite Hcols. apply in_or_app. left.
    destruct k; [lia | now left]. }
  assert (Ha : has_col "artist" out = true).
  { apply has_col_In. rewrite Hcols. apply in_or_app. right.
    apply in_or_app. left. destruct m; [lia | now left]. }
  assert (Hpo : has_col "popularity" out = true).
  { apply has_col_In. rewrite Hcols. apply in_or_app. right.
    apply in_or_app. right. destruct p; [lia | now left]. }
  assert (Pt : positions "title" out = seq 0 k).
  { unfold positions. rewrite Hcols, positions_from_repeat_same.
    rewrite positions_from_repeat_other by reflexivity.
    rewrite <- (app_nil_r (repeat "popularity" p)).
    rewrite positions_from_repeat_other by reflexivity.
    apply app_nil_r. }
  assert (Pa : positions "artist" out = seq k m).
  { unfold positions.
    rewrite Hcols, positions_from_repeat_other by reflexivity.
    rewrite positions_from_repeat_same.
    rewrite <- (app_nil_r (repeat "popularity" p)).
    rewrite positions_from_repeat_other by reflexivity.
    apply app_nil_r. }
  assert (Pp : positions "popularity" out = seq (k + m) p).
  { unfold positions.
    rewrite Hcols, !positions_from_repeat_other by reflexivity.
    rewrite <- (app_nil_r (repeat "popularity" p)).
    rewrite positions_from_repeat_same. apply app_nil_r. }
  assert (Hlen : length (columns out) = (k + m + p)%nat).
  { rewrite Hcols, !length_app, !repeat_length. lia. }
  split; [|split].
  - unfold getitem_list. cbn [forallb flat_map].
    rewrite Ht, Ha, Hpo, Pt, Pa, Pp. cbn [andb negb].
    rewrite app_nil_r.
    replace (seq 0 k ++ seq k m ++ seq (k + m) p) with (seq 0 (k + m + p))
      by (rewrite !seq_app, <- app_assoc; reflexivity).
    rewrite <- Hlen at 1. rewrite map_nth_seq.
    rewrite (map_ext_in (row_at (seq 0 (k + m + p))) (fun r => r)).
    + rewrite map_id. now destruct out.
    + intros r Hr. rewrite Forall_forall in Hrows.
      rewrite <- (Hrows r Hr). apply row_at_seq_all.
  - unfold issubset. cbn [forallb]. now rewrite Ht, Ha, Hpo.
  - unfold empty. rewrite Hcols. destruct k; [lia|]. reflexivity.
Qed.

Lemma get_most_popular_songs_shape (df : DataFrame) (year top_n : Z)
      (out : DataFrame) :
  (0 <= top_n)%Z ->
  get_most_popular_songs df year top_n = Returned out ->
  out = pd_DataFrame
  \/ exists k m p,
      (1 <= k)%nat /\ (1 <= m)%nat /\ (1 <= p)%nat
      /\ columns out
         = repeat "title" k ++ repeat "artist" m ++ repeat "popularity" p
      /\ Forall (fun r => length r = (k + m + p)%nat) (rows out)
      /\ (length (rows out) <= Z.to_nat top_n)%nat.
Proof.
  intros Hn. unfold get_most_popular_songs.
  destruct (negb _ || negb _ || negb _); [intros H; injection H; auto|].
  destruct (negb (unique_label "year" df)); [discriminate|].
  destruct (negb (has_col "popularity" _)); [intros H; injection H; auto|].
  destruct (negb (unique_label "popularity" _)); [discriminate|].
  intros H. apply bind_Returned in H. destruct H as [sorted [_ H]].
  right. destruct (getitem_list_songs _ out H)
    as [k [m [p [Hk [Hm [Hp [Hcols [Hrows Hlen]]]]]]]].
  exists k, m, p. repeat (split; [assumption|]).
  rewrite Hlen. cbn [rows]. now apply head_length.
Qed.

(** X13: the song table of the Top Charts section (lines 56-61).  Whenever
    the query returns, the section shows exactly the frame the query
    returned: the further [.head(20)] and column selection change nothing;
    and it shows the "not available" note exactly when that frame is
    empty. *)
Theorem top_charts_songs_shows_query_result (df : DataFrame)
        (selected_year : Z) (out : DataFrame) :
  get_most_popular_songs df selected_year 20 = Returned out ->
  top_charts_songs df selected_year
  = Returned
      (if empty out
       then ShowInfo "Song-level popularity data is not available for this year."
       else ShowTable out).
Proof.
  intros H. unfold top_charts_songs. rewrite H. cbn [bind].
  destruct (get_most_popular_songs_shape df selected_year 20 out) as
    [->|[k [m [p [Hk [Hm [Hp [Hcols [Hrows Hlen]]]]]]]]];
    [lia | exact H | reflexivity |].
  assert (Hhead : df_head 20 out = out).
  { unfold df_head. rewrite (head_nonneg 20) by lia.
    rewrite firstn_all2 by exact Hlen. now destruct out. }
  rewrite Hhead.
  destruct (getitem_list_songs_again out k m p Hk Hm Hp Hcols Hrows)
    as [-> [-> ->]].
  cbn [bind andb]. now destruct (rows out).
Qed.

Lemma top_charts_songs_shows_query_result_witness :
  top_charts_songs Samples.table 1999
  = Returned (ShowInfo "Song-level popularity data is not available for this year.")
  /\ exists out, top_charts_songs Samples.table 2000 = Returned (ShowTable out).
Proof.
  split.
  - apply (top_charts_songs_shows_query_result Samples.table 1999
             (mkDF ["title"; "artist"; "popularity"] [])).
    reflexivity.
  - destruct (get_most_popular_songs Samples.table 2000 20) as [out|e] eqn:H;
      [|discriminate].
    exists out.
    rewrite (top_charts_songs_shows_query_result Samples.table 2000 out H).
    injection H as <-. reflexivity.
Defined.

(** [get_most_popular_song_by_year] on a year that has rows, for a numeric
    popularity column. *)
Lemma most_popular_song_best (df : DataFrame) (year : Z) :
  labels_unique ["year"; "title"; "popularity"] df = true ->
  song_columns_present df = true ->
  numeric_col df "popularity" ->
  (exists r, In r (rows df) /\ in_year df year r = true) ->
  exists best,
    In best (rows df) /\ in_year df year best = true
    /\ get_most_popular_song_by_year df year
       = Returned (ScalarValue (get df "title" best),
                   get df "popularity" best)
    /\ forall r, In r (rows df) -> in_year df year r = true ->
                 ranks_before (get df "popularity" best)
                              (get df "popularity" r).
Proof.
  unfold song_columns_present, get_most_popular_song_by_year.
  rewrite has_col_select, unique_label_select. intros Hu H Hnum [r0 [Hr0 Hy0]].
  destruct (has_col "year" df) eqn:Hyear, (has_col "title" df) eqn:Hct,
    (has_col "artist" df), (has_col "popularity" df) eqn:Hcp;
    simpl in H; try discriminate. cbn [negb orb].
  destruct (unique_label_intro _ df "year" Hu) as [-> _];
    [simpl; tauto | exact Hyear |].
  destruct (unique_label_intro _ df "popularity" Hu) as [-> _];
    [simpl; tauto | exact Hcp |].
  destruct (unique_label_intro _ df "title" Hu) as [_ Pt];
    [simpl; tauto | exact Hct |].
  cbn [negb].
  set (year_df := select df (year_mask df year)).
  assert (Hrows : rows year_df = filter (in_year df year) (rows df))
    by apply year_df_rows.
  assert (Hin0 : In r0 (rows year_df))
    by (rewrite Hrows; apply filter_In; tauto).
  destruct (empty year_df) eqn:He.
  { apply (empty_year_df df year Hyear) in He.
    rewrite Hrows, He in Hin0. contradiction. }
  destruct (sort_values_desc_numeric (get year_df "popularity")
              (rows year_df) (numeric_year_df df year Hnum))
    as [sorted [Hsort [Hperm Hss]]].
  rewrite Hsort. simpl bind.
  destruct sorted as [|best rest].
  { apply Permutation_sym, Permutation_nil in Hperm.
    rewrite Hperm in Hin0. contradiction. }
  exists best.
  assert (Hb : In best (filter (in_year df year) (rows df))).
  { rewrite <- Hrows. apply (Permutation_in best (Permutation_sym Hperm)).
    now left. }
  apply filter_In in Hb. destruct Hb as [Hb1 Hb2].
  split; [assumption|]. split; [assumption|]. split.
  { cbn [nth]. now rewrite (row_getitem_unique "title" year_df best Pt). }
  intros r Hr Hyr.
  assert (Hin : In r (best :: rest)).
  { apply (Permutation_in r Hperm). rewrite Hrows. apply filter_In. tauto. }
  destruct Hin as [<-|Hin].
  - apply ranks_before_refl. now apply Hnum.
  - now apply (StronglySorted_head _ best rest r Hss).
Qed.

(** X14: the birth-year message of the Music Insights section (lines
    104-109), for a table in which no more than one column carries each of
    [year], [title], [popularity], and a numeric popularity column.  A year
    without rows gives
    the "No data available" warning.  For a year with rows whose titles are
    all true values: if some row of the year has a popularity, the message
    names a row of the year with the highest popularity, its popularity
    truncated to a whole number; but if every row of the year lacks its
    popularity (as after a left join without a match), [int(popularity)]
    raises [ValueError] and no message is shown. *)
Theorem birth_year_message_spec (int_of_str : string -> result Z)
        (df : DataFrame) (birth_year : Z) :
  labels_unique ["year"; "title"; "popularity"] df = true ->
  numeric_col df "popularity" ->
  ((song_columns_present df = false
    \/ forall r, In r (rows df) -> in_year df birth_year r = false) ->
   birth_year_message int_of_str df birth_year
   = Returned (ShowNoData birth_year))
  /\ (song_columns_present df = true ->
      (exists r, In r (rows df) /\ in_year df birth_year r = true) ->
      (forall r, In r (rows df) -> in_year df birth_year r = true ->
                 truthy (get df "title" r) = true) ->
      ((forall r, In r (rows df) -> in_year df birth_year r = true ->
                  get df "popularity" r = NaN) ->
       birth_year_message int_of_str df birth_year = Raised ValueError)
      /\ ((exists r p, In r (rows df) /\ in_year df birth_year r = true
                       /\ get df "popularity" r = Num p) ->
          exists best p,
            In best (rows df) /\ in_year df birth_year best = true
            /\ get df "popularity" best = Num p
            /\ (forall r, In r (rows df) -> in_year df birth_year r = true ->
                          ranks_before (Num p) (get df "popularity" r))
            /\ birth_year_message int_of_str df birth_year
               = Returned (ShowSong birth_year
                                    (ScalarValue (get df "title" best))
                                    (Z.quot (Qnum p) (Zpos (Qden p)))))).
Proof.
  intros Hu Hnum. split.
  - intros H. unfold birth_year_message.
    assert (Hret : get_most_popular_song_by_year df birth_year
                   = Returned (ScalarValue PyNone, PyNone)).
    { unfold song_columns_present, get_most_popular_song_by_year in *.
      rewrite has_col_select. destruct H as [H|H].
      - destruct (has_col "year" df) eqn:Hyear, (has_col "title" df),
          (has_col "artist" df), (has_col "popularity" df);
          simpl in H; try discriminate; cbn [negb orb]; try reflexivity.
        destruct (unique_label_intro _ df "year" Hu) as [-> _];
          [simpl; tauto | exact Hyear | reflexivity].
      - destruct (has_col "year" df) eqn:Hyear; [|reflexivity].
        destruct (has_col "title" df); [|reflexivity].
        destruct (has_col "artist" df); [|reflexivity]. cbn [negb orb].
        destruct (unique_label_intro _ df "year" Hu) as [-> _];
          [simpl; tauto | exact Hyear |]. cbn [negb].
        destruct (has_col "popularity" df); [|reflexivity]. cbn [negb orb].
        assert (He : empty (select df (year_mask df birth_year)) = true).
        { apply (empty_year_df df birth_year Hyear). now apply filter_none. }
        now rewrite He. }
    rewrite Hret. reflexivity.
  - intros Hp Hex Htitle.
    destruct (most_popular_song_best df birth_year Hu Hp Hnum Hex)
      as [best [Hb [Hyb [Hres Hbest]]]].
    unfold birth_year_message. rewrite Hres. cbn [bind fst snd truth_value].
    rewrite (Htitle best Hb Hyb). split.
    + intros Hnan. rewrite (Hnan best Hb Hyb). reflexivity.
    + intros [r [p [Hr [Hyr Hpr]]]].
      specialize (Hbest r Hr Hyr) as Hrank. rewrite Hpr in Hrank.
      destruct (get df "popularity" best) as [| |q|s] eqn:Hq;
        simpl in Hrank; try contradiction.
      exists best, q.
      split; [assumption|]. split; [assumption|]. split; [exact Hq|].
      split; [|reflexivity].
      intros r' Hr' Hyr'. now apply Hbest.
Qed.

Lemma birth_year_message_spec_witness :
  birth_year_message (fun _ => Raised ValueError) Samples.table 1999
  = Returned (ShowNoData 1999)
  /\ exists merged,
      load_all_data Samples.fs = Returned merged
      /\ birth_year_message (fun _ => Raised ValueError) merged 2011
         = Raised ValueError.
Proof.
  split.
  - apply (birth_year_message_spec (fun _ => Raised ValueError)
             Samples.table 1999 eq_refl numeric_table).
    right. intros r Hr. simpl in Hr.
    repeat (destruct Hr as [<-|Hr]; [reflexivity|]). contradiction.
  - destruct (load_all_data Samples.fs) as [merged|e] eqn:Hload;
      [|discriminate].
    exists merged. split; [reflexivity|].
    injection Hload as <-.
    assert (Hnum : numeric_col
                     (mkDF ["id"; "title"; "artist"; "year"; "track_id";
                            "title_spotify"; "artist_spotify"; "popularity";
                            "year_spotify"]
                           [[Str "t1"; Str "Song A"; Str "Artist X"; Num 2010;
                             Str "t1"; Str "Song A"; Str "Artist X"; Num 77;
                             PyNone];
                            [Str "t2"; Str "Song B"; Str "Artist Y"; Num 2011;
                             NaN; NaN; NaN; NaN; NaN]]) "popularity").
    { intros r Hr. simpl in Hr.
      repeat (destruct Hr as [<-|Hr]; [reflexivity|]). contradiction. }
    refine (proj1 (proj2 (birth_year_message_spec
                            (fun _ => Raised ValueError) _ 2011 _ Hnum)
                         _ _ _) _).
    + reflexivity.
    + reflexivity.
    + exists [Str "t2"; Str "Song B"; Str "Artist Y"; Num 2011;
              NaN; NaN; NaN; NaN; NaN].
      split; [simpl; tauto | reflexivity].
    + intros r Hr Hy. simpl in Hr.
      destruct Hr as [Hr|[Hr|Hr]];
        [subst r; vm_compute in Hy; discriminate Hy
        |subst r; reflexivity
        |contradiction].
    + intros r Hr Hy. simpl in Hr.
      destruct Hr as [Hr|[Hr|Hr]];
        [subst r; vm_compute in Hy; discriminate Hy
        |subst r; reflexivity
        |contradiction].
Defined.

(** X15: the playlist of the Vibe Explorer section (lines 79-85), for a
    table in which no more than one column carries each of [title],
    [artist], [popularity].  Whenever the section shows a table for a count
    [num_songs >= 1], the table has the columns [title], [artist],
    [popularity] and between 1 and [num_songs] rows, each the projection of
    a row of the data that satisfies the vibe's predicate; whenever it
    shows the warning, no row matches the vibe or the data lacks one of the
    three columns. *)
Theorem vibe_explorer_playlist_spec (g : RandomState) (df : DataFrame)
        (vibe_choice : string) (num_songs : Z) (shown : display) :
  labels_unique ["title"; "artist"; "popularity"] df = true ->
  (1 <= num_songs)%Z ->
  vibe_explorer_playlist g df vibe_choice num_songs = Returned shown ->
  match shown with
  | ShowTable t =>
      columns t = ["title"; "artist"; "popularity"]
      /\ (1 <= length (rows t) <= Z.to_nat num_songs)%nat
      /\ forall r, In r (rows t) ->
           exists x, In x (rows df)
                     /\ vibe_predicate df vibe_choice x = true
                     /\ r = [get df "title" x; get df "artist" x;
                             get df "popularity" x]
  | ShowWarning _ =>
      filter (vibe_predicate df vibe_choice) (rows df) = []
      \/ issubset ["title"; "artist"; "popularity"] df = false
  | _ => False
  end.
Proof.
  intros Hu Hn H. unfold vibe_explorer_playlist in H.
  apply bind_Returned in H. destruct H as [songs [Hsongs H]].
  pose proof (get_songs_by_vibe_cases g df vibe_choice num_songs songs Hsongs)
    as Hcases. cbv zeta in Hcases.
  set (matching := filter (vibe_predicate df vibe_choice) (rows df)) in *.
  destruct Hcases as [[-> Hz]|[_ [Hm [Hc ->]]]].
  - simpl in H. injection H as <-.
    destruct Hz as [Hz|Hz]; [now left|]. right.
    unfold issubset, has_col. rewrite Hz. reflexivity.
  - set (k := Nat.min (Z.to_nat num_songs) (length matching)) in *.
    assert (Hk : (1 <= k)%nat).
    { subst k. destruct matching; [contradiction | simpl length; lia]. }
    pose proof (draw_length g 0 k matching) as Hlen. fold k in Hlen.
    assert (Hlen' : length (draw g 0 k matching) = k) by (subst k; lia).
    set (songs := mkDF (columns df) (draw g 0 k matching)) in *.
    assert (Hne : empty songs = false).
    { unfold empty, songs. cbn [columns rows].
      destruct (columns df); [contradiction|].
      destruct (draw g 0 k matching); [simpl in Hlen'; lia | reflexivity]. }
    rewrite Hne in H. cbn [negb andb] in H.
    change (issubset ["title"; "artist"; "popularity"] songs)
      with (issubset ["title"; "artist"; "popularity"] df) in H.
    destruct (issubset ["title"; "artist"; "popularity"] df) eqn:Hs;
      [|injection H as <-; now right].
    unfold issubset in Hs. cbn [forallb] in Hs.
    apply andb_prop in Hs. destruct Hs as [Hct Hs].
    apply andb_prop in Hs. destruct Hs as [Hca Hs].
    apply andb_prop in Hs. destruct Hs as [Hcp _].
    destruct (unique_label_intro _ df "title" Hu) as [_ Pt];
      [simpl; tauto | exact Hct |].
    destruct (unique_label_intro _ df "artist" Hu) as [_ Pa];
      [simpl; tauto | exact Hca |].
    destruct (unique_label_intro _ df "popularity" Hu) as [_ Pp];
      [simpl; tauto | exact Hcp |].
    rewrite (getitem_list_three songs "title" "artist" "popularity"
               Hct Hca Hcp Pt Pa Pp) in H.
    cbn [bind] in H. injection H as <-.
    cbn [columns rows]. split; [reflexivity|]. split.
    + rewrite length_map, Hlen'. subst k. lia.
    + intros r Hr. apply in_map_iff in Hr. destruct Hr as [x [<- Hx]].
      apply draw_In in Hx. apply filter_In in Hx.
      exists x. split; [tauto|]. split; [tauto | reflexivity].
Qed.

Lemma vibe_explorer_playlist_spec_witness :
  exists t,
    vibe_explorer_playlist (fun _ => 0%nat) Samples.table "sporty" 5
    = Returned (ShowTable t)
    /\ columns t = ["title"; "artist"; "popularity"]
    /\ (1 <= length (rows t) <= 5)%nat.
Proof.
  destruct (vibe_explorer_playlist (fun _ => 0%nat) Samples.table "sporty" 5)
    as [[t|x|x|y c p|y]|e] eqn:H; try discriminate.
  pose proof (vibe_explorer_playlist_spec (fun _ => 0%nat) Samples.table
                "sporty" 5 (ShowTable t) eq_refl) as Hs.
  exists t. split; [reflexivity|].
  destruct Hs as [Hc [Hl _]]; [discriminate | exact H |].
  split; [exact Hc | exact Hl].
Defined.

(* ================================================================== *)
(** * [kworb_daily_scraper.py] *)

Section ScraperFacts.
Variable strftime : datetime -> string.
Variable item : Type.
Variable scrape_day : string -> script_exn + list item.

Lemma daterange_loop_same_year (y : Z) (rounds m d : nat) :
  daterange_loop strftime rounds (mkDate y m d) (mkDate y 12 31)
  = (map (fun md => strftime (mkDate y (fst md) (snd md)))
         (fst (month_day_loop (is_leap y) rounds m d)),
     if snd (month_day_loop (is_leap y) rounds m d)
     then if (y <? 9999)%Z then None else Some DateOverflowError
     else None).
Proof.
  revert m d. induction rounds as [|rounds IH]; intros m d; [reflexivity|].
  cbn [daterange_loop month_day_loop].
  unfold date_leb, add_day, days_in_month. cbn [dt_year dt_month dt_day].
  rewrite Z.ltb_irrefl, Z.eqb_refl.
  destruct (m <? 12)%nat eqn:Hm; cbn [orb andb].
  - destruct (d <? month_length (is_leap y) m)%nat.
    + rewrite IH. reflexivity.
    + rewrite IH. reflexivity.
  - destruct (m =? 12)%nat eqn:Hm12; cbn [andb]; [|reflexivity].
    destruct (d <=? 31)%nat; [|reflexivity].
    destruct (d <? month_length (is_leap y) m)%nat.
    + rewrite IH. reflexivity.
    + destruct (Z.ltb_spec y 9999) as [Hy|Hy]; [|reflexivity].
      cbn [fst snd map].
      assert (Hend : daterange_loop strftime rounds (mkDate (y + 1) 1 1)
                                    (mkDate y 12 31) = ([], None)).
      { destruct rounds; [reflexivity|]. cbn [daterange_loop].
        unfold date_leb. cbn [dt_year dt_month dt_day].
        destruct (Z.ltb_spec (y + 1) y); [lia|].
        destruct (Z.eqb_spec (y + 1) y); [lia | reflexivity]. }
      rewrite Hend. reflexivity.
Qed.

Lemma month_day_loop_year (leap : bool) :
  month_day_loop leap 367 1 1
  = (flat_map (fun m => map (fun d => (m, d)) (seq 1 (month_length leap m)))
              (seq 1 12),
     true).
Proof. destruct leap; vm_compute; reflexivity. Qed.

Lemma year_days_map (y : Z) :
  map (fun md => strftime (mkDate y (fst md) (snd md)))
      (flat_map (fun m => map (fun d => (m, d))
                              (seq 1 (month_length (is_leap y) m)))
                (seq 1 12))
  = map strftime (year_days y).
Proof.
  unfold year_days, days_in_month.
  generalize (month_length (is_leap y)). intros ml.
  induction (seq 1 12) as [|m ms IH]; [reflexivity|].
  cbn [flat_map]. rewrite !map_app, IH. f_equal.
  rewrite !map_map. reflexivity.
Qed.

Lemma daterange_in_range (year : Z) :
  (1 <= year <= 9999)%Z ->
  daterange strftime year
  = (map strftime (year_days year),
     if (year <? 9999)%Z then None else Some DateOverflowError).
Proof.
  intros Hy. unfold daterange, datetime_new.
  destruct (Z.ltb_spec year (-2147483648)); [lia|].
  destruct (Z.ltb_spec 2147483647 year); [lia|].
  destruct (Z.ltb_spec year 1); [lia|].
  destruct (Z.ltb_spec 9999 year); [lia|]. cbn [orb].
  rewrite daterange_loop_same_year, month_day_loop_year.
  cbn [fst snd]. now rewrite year_days_map.
Qed.

Lemma year_days_length (y : Z) :
  length (year_days y) = if is_leap y then 366%nat else 365%nat.
Proof.
  unfold year_days, days_in_month. destruct (is_leap y); reflexivity.
Qed.

(** X16: [daterange] enumerates the calendar.  For a year from 1 to 9998 the
    generator ends normally after yielding, in order, the formatted date of
    every day of the year, from 1 January to 31 December: 366 dates in a
    leap year and 365 otherwise. *)
Theorem daterange_yields_every_day (year : Z) :
  (1 <= year <= 9998)%Z ->
  daterange strftime year = (map strftime (year_days year), None)
  /\ length (fst (daterange strftime year))
     = (if is_leap year then 366%nat else 365%nat)
  /\ hd_error (fst (daterange strftime year))
     = Some (strftime (mkDate year 1 1))
  /\ last (fst (daterange strftime year)) EmptyString
     = strftime (mkDate year 12 31).
Proof.
  intros Hy. rewrite daterange_in_range by lia.
  destruct (Z.ltb_spec year 9999); [|lia]. cbn [fst].
  split; [reflexivity|]. split; [now rewrite length_map, year_days_length|].
  unfold year_days, days_in_month.
  split; destruct (is_leap year); reflexivity.
Qed.

(** X17: the years [daterange] cannot serve.  A year below 1 or above 9999
    ends the generator before any date is yielded: with [ValueError] when
    the year fits a C [int], with [OverflowError] when it does not.  For
    the year 9999 every date of the year is yielded and the step past
    31 December then raises [OverflowError]. *)
Theorem daterange_out_of_range (year : Z) :
  ((-2147483648 <= year < 1 \/ 9999 < year <= 2147483647)%Z ->
   daterange strftime year = ([], Some DateValueError))
  /\ ((year < -2147483648 \/ 2147483647 < year)%Z ->
      daterange strftime year = ([], Some DateOverflowError))
  /\ (year = 9999%Z ->
      daterange strftime year
      = (map strftime (year_days 9999), Some DateOverflowError)).
Proof.
  split; [|split].
  - intros Hy. unfold daterange, datetime_new.
    destruct (Z.ltb_spec year (-2147483648)); [lia|].
    destruct (Z.ltb_spec 2147483647 year); [lia|]. cbn [orb].
    destruct (Z.ltb_spec year 1); [reflexivity|].
    destruct (Z.ltb_spec 9999 year); [reflexivity | lia].
  - intros Hy. unfold daterange, datetime_new.
    destruct (Z.ltb_spec year (-2147483648)); [reflexivity|].
    destruct (Z.ltb_spec 2147483647 year); [reflexivity | lia].
  - intros ->. now rewrite daterange_in_range by lia.
Qed.

Lemma scrape_all_ok (items_of : string -> list item) (dates : list string)
      (rows : list item) :
  (forall d, In d dates -> scrape_day d = inr (items_of d)) ->
  scrape_all item scrape_day dates rows
  = inr (rows ++ flat_map items_of dates).
Proof.
  revert rows. induction dates as [|d dates IH]; intros rows H; simpl.
  - now rewrite app_nil_r.
  - rewrite (H d (or_introl eq_refl)).
    rewrite IH by (intros; apply H; now right).
    destruct (items_of d); [reflexivity|]. now rewrite <- app_assoc.
Qed.

Lemma scrape_all_fails (dates : list string) (rows : list item) :
  (exists d e, In d dates /\ scrape_day d = inl e) ->
  exists e, scrape_all item scrape_day dates rows = inl e.
Proof.
  revert rows. induction dates as [|d dates IH]; intros rows [d0 [e0 [Hin He]]];
    [contradiction|]. simpl.
  destruct (scrape_day d) as [e|items] eqn:Hd; [eauto|].
  apply IH. destruct Hin as [->|Hin]; [congruence|]. eauto.
Qed.

(** X18: [main] saves all or nothing.  For a year from 1 to 9998: when the
    request of every day of the year succeeds, the rows saved are the items
    of the days in calendar order, and nothing is written when no day has an
    item; when the request of a single day raises, the script ends on an
    exception and saves nothing, whatever the other days returned.  For the
    year 9999 the script ends on [OverflowError] after the last day, again
    without saving. *)
Theorem main_saves_all_or_nothing (year : Z) :
  ((1 <= year <= 9998)%Z ->
   (forall items_of : string -> list item,
       (forall t, In t (year_days year) ->
                  scrape_day (strftime t) = inr (items_of (strftime t))) ->
       main strftime item scrape_day year
       = match flat_map (fun t => items_of (strftime t)) (year_days year) with
         | [] => NoDataScraped item year
         | rows => Saved item year rows
         end)
   /\ ((exists t e, In t (year_days year)
                    /\ scrape_day (strftime t) = inl e) ->
       exists e, main strftime item scrape_day year = ScriptCrashed item e))
  /\ (year = 9999%Z ->
      exists e, main strftime item scrape_day year = ScriptCrashed item e).
Proof.
  split.
  - intros Hy.
    assert (Hd : daterange strftime year = (map strftime (year_days year), None)).
    { rewrite daterange_in_range by lia.
      destruct (Z.ltb_spec year 9999); [reflexivity | lia]. }
    unfold main. rewrite Hd. cbn [fst snd]. split.
    + intros items_of Hok.
      rewrite (scrape_all_ok items_of).
      * cbn [app]. rewrite flat_map_concat_map, map_map,
          <- flat_map_concat_map.
        now destruct (flat_map (fun t => items_of (strftime t))
                               (year_days year)).
      * intros d Hin. apply in_map_iff in Hin.
        destruct Hin as [t [<- Ht]]. now apply Hok.
    + intros [t [e [Ht He]]].
      destruct (scrape_all_fails (map strftime (year_days year)) [])
        as [e' He'].
      * exists (strftime t), e. split; [now apply in_map | exact He].
      * rewrite He'. eauto.
  - intros ->. unfold main. rewrite daterange_in_range by lia.
    change (9999 <? 9999)%Z with false. cbn [fst snd].
    destruct (scrape_all item scrape_day (map strftime (year_days 9999)) []);
      eexists; reflexivity.
Qed.
End ScraperFacts.

Lemma daterange_yields_every_day_witness :
  length (fst (daterange strftime_iso 2020)) = 366%nat
  /\ hd_error (fst (daterange strftime_iso 2020)) = Some "2020-01-01"
  /\ last (fst (daterange strftime_iso 2020)) EmptyString = "2020-12-31".
Proof.
  destruct (daterange_yields_every_day strftime_iso 2020) as [_ [H1 [H2 H3]]];
    [lia|].
  split; [exact H1|]. split; [exact H2 | exact H3].
Defined.

Lemma daterange_out_of_range_witness :
  daterange strftime_iso 0 = ([], Some DateValueError)
  /\ daterange strftime_iso 2147483648 = ([], Some DateOverflowError)
  /\ snd (daterange strftime_iso 9999) = Some DateOverflowError.
Proof.
  split; [|split].
  - apply (daterange_out_of_range strftime_iso 0). lia.
  - apply (daterange_out_of_range strftime_iso 2147483648). lia.
  - rewrite (proj2 (proj2 (daterange_out_of_range strftime_iso 9999))
               eq_refl).
    reflexivity.
Defined.

Lemma main_saves_all_or_nothing_witness :
  main strftime_iso nat (fun d => inr [String.length d]) 2021
  = Saved nat 2021 (repeat 10%nat 365)
  /\ exists e,
      main strftime_iso nat
           (fun d => if String.eqb d "2021-03-05" then inl RequestException
                     else inr [String.length d]) 2021
      = ScriptCrashed nat e.
Proof.
  split.
  - rewrite (proj1 (proj1 (main_saves_all_or_nothing
                             strftime_iso nat
                             (fun d => inr [String.length d]) 2021)
                          ltac:(lia))
                   (fun d => [String.length d]));
      [reflexivity | reflexivity].
  - apply (proj1 (main_saves_all_or_nothing
                    strftime_iso nat
                    (fun d => if String.eqb d "2021-03-05"
                              then inl RequestException
                              else inr [String.length d]) 2021)).
    + lia.
    + exists (mkDate 2021 3 5), RequestException.
      split; [vm_compute; tauto | reflexivity].
Defined.

(* ================================================================== *)
(** * [get_live_data] *)

Lemma collect_app (items : list playlist_item) (acc : list row) :
  collect items acc = option_map (app acc) (collect items []).
Proof.
  revert acc. induction items as [|it items IH]; intros acc; simpl.
  - now rewrite app_nil_r.
  - destruct it as [|name artists popularity uri|]; [apply IH| |reflexivity].
    rewrite (IH (acc ++ _)), (IH [_]).
    destruct (collect items []) as [tracks|]; simpl; [|reflexivity].
    now rewrite <- app_assoc.
Qed.

Lemma collect_rows (items : list playlist_item) (acc : list row) :
  collect items [] <> None ->
  collect items acc = Some (acc ++ page_rows items).
Proof.
  intros H. rewrite collect_app. unfold page_rows.
  destruct (collect items []); [reflexivity | contradiction].
Qed.

Lemma collect_four_cells (items : list playlist_item) (acc tracks : list row) :
  collect items acc = Some tracks ->
  Forall (fun r => length r = 4%nat) acc ->
  Forall (fun r => length r = 4%nat) tracks.
Proof.
  revert acc. induction items as [|it items IH]; intros acc; simpl.
  - intros H. now injection H as <-.
  - destruct it as [|name artists popularity uri|]; [apply IH| |discriminate].
    intros H Hacc. apply (IH _ H). apply Forall_app. split; [assumption|].
    repeat constructor.
Qed.

Section LiveDataFacts.
Variable api : Z -> api_response.

Lemma fetch_through (items_of : nat -> list playlist_item) (k : nat) :
  forall (j rounds : nat) (acc : list row),
    (forall i, (j <= i < j + k)%nat -> page_continues api items_of i) ->
    fetch api (k + rounds) (100 * Z.of_nat j) acc
    = fetch api rounds (100 * Z.of_nat (j + k))
            (acc ++ flat_map (fun i => page_rows (items_of i)) (seq j k)).
Proof.
  induction k as [|k IH]; intros j rounds acc H.
  - simpl. now rewrite Nat.add_0_r, app_nil_r.
  - destruct (H j ltac:(lia)) as [Hapi [Hne Hok]].
    cbn [Nat.add fetch]. rewrite Hapi. cbn [Z.eqb Pos.eqb negb].
    destruct (items_of j) as [|it its] eqn:Hitems; [contradiction|].
    rewrite <- Hitems in *. rewrite (collect_rows _ acc Hok).
    replace (100 * Z.of_nat j + 100)%Z with (100 * Z.of_nat (S j))%Z by lia.
    rewrite IH by (intros i Hi; apply H; lia).
    cbn [seq flat_map]. rewrite <- app_assoc.
    now replace (S j + k)%nat with (j + S k)%nat by lia.
Qed.

(** X19: pagination of [get_live_data].  With a non-empty access token, if
    the first [k] pages (offsets 0, 100, ...) answer with status 200,
    well-formed entries and a [next] link, and page [k] is the last one
    (it has no entries, or it has well-formed entries and no [next] link),
    then the loop stops at page [k] whatever later offsets would answer,
    and the call returns the frame [pd.DataFrame] builds from the tracks of
    pages 0 to [k] in order, with the columns [track_name], [artists],
    [popularity], [track_uri] (in a column of numbers a missing value is
    stored as NaN); but when these pages hold no track at all it returns
    [None], never an empty frame. *)
Theorem get_live_data_pages (items_of : nat -> list playlist_item)
        (token : string) (k rounds : nat) (has_next : bool) :
  token <> "" ->
  (forall i, (i < k)%nat -> page_continues api items_of i) ->
  api (100 * Z.of_nat k)%Z = Response 200 (Some (items_of k, has_next)) ->
  collect (items_of k) [] <> None ->
  items_of k = [] \/ has_next = false ->
  (k < rounds)%nat ->
  get_live_data api (Returned (Some token)) rounds
  = Some (Returned
            match flat_map (fun i => page_rows (items_of i)) (seq 0 (S k)) with
            | [] => None
            | all_tracks =>
                Some (DataFrame_of_rows
                        all_tracks
                        ["track_name"; "artists"; "popularity"; "track_uri"])
            end).
Proof.
  intros Htok Hpages Hlast Hok Hstop Hrounds. unfold get_live_data.
  destruct (String.eqb_spec token ""); [contradiction|].
  replace rounds with (k + S (rounds - S k))%nat by lia.
  change 0%Z with (100 * Z.of_nat 0)%Z.
  rewrite (fetch_through items_of k 0) by (intros i Hi; apply Hpages; lia).
  cbn [Nat.add app fetch]. rewrite Hlast. cbn [Z.eqb Pos.eqb negb].
  rewrite seq_S, flat_map_app. cbn [Nat.add flat_map]. rewrite app_nil_r.
  set (before := flat_map (fun i => page_rows (items_of i)) (seq 0 k)).
  destruct (items_of k) as [|it its] eqn:Hitems.
  - cbn [page_rows collect]. rewrite app_nil_r.
    destruct before; reflexivity.
  - rewrite <- Hitems in *. rewrite (collect_rows _ before Hok).
    destruct Hstop as [Hz| ->]; [rewrite Hitems in Hz; discriminate|].
    destruct (before ++ page_rows (items_of k)); reflexivity.
Qed.

(** X20: one bad page loses everything.  With a non-empty access token, if
    the first [k] pages let the loop go on and the request for page [k]
    raises, or answers with a status other than 200, or with a body that
    cannot be read, or with an entry on which the loop body raises, then the
    call returns [None]: the tracks collected from the earlier pages are
    dropped. *)
Theorem get_live_data_bad_page (items_of : nat -> list playlist_item)
        (token : string) (k rounds : nat) :
  token <> "" ->
  (forall i, (i < k)%nat -> page_continues api items_of i) ->
  (api (100 * Z.of_nat k)%Z = RequestRaises
   \/ (exists status_code json,
         api (100 * Z.of_nat k)%Z = Response status_code json
         /\ status_code <> 200%Z)
   \/ api (100 * Z.of_nat k)%Z = Response 200 None
   \/ (exists items has_next,
         api (100 * Z.of_nat k)%Z = Response 200 (Some (items, has_next))
         /\ collect items [] = None)) ->
  (k < rounds)%nat ->
  get_live_data api (Returned (Some token)) rounds = Some (Returned None).
Proof.
  intros Htok Hpages Hbad Hrounds. unfold get_live_data.
  destruct (String.eqb_spec token ""); [contradiction|].
  replace rounds with (k + S (rounds - S k))%nat by lia.
  change 0%Z with (100 * Z.of_nat 0)%Z.
  rewrite (fetch_through items_of k 0) by (intros i Hi; apply Hpages; lia).
  cbn [Nat.add app fetch].
  destruct Hbad as [->|[[status [json [-> Hs]]]|[->|[items [b [-> Hc]]]]]].
  - reflexivity.
  - destruct (Z.eqb_spec status 200); [contradiction | reflexivity].
  - reflexivity.
  - cbn [Z.eqb Pos.eqb negb].
    destruct items as [|it its]; [discriminate|].
    rewrite collect_app, Hc. reflexivity.
Qed.

Lemma DataFrame_of_rows_four_cells (data : list row) (a b c d : string) :
  Forall (fun r => length r = 4%nat) data ->
  Forall (fun r => length r = 4%nat) (rows (DataFrame_of_rows data [a; b; c; d])).
Proof.
  intros H. unfold DataFrame_of_rows. cbn [rows].
  apply Forall_forall. intros r Hr. apply in_map_iff in Hr.
  destruct Hr as [x [<- Hx]]. rewrite Forall_forall in H.
  rewrite length_map, length_combine, length_map, length_seq, (H x Hx).
  reflexivity.
Qed.

Lemma fetch_four_cells (rounds : nat) :
  forall (offset : Z) (acc tracks : list row),
    fetch api rounds offset acc = Some (Some tracks) ->
    Forall (fun r => length r = 4%nat) acc ->
    Forall (fun r => length r = 4%nat) tracks.
Proof.
  induction rounds as [|rounds IH]; intros offset acc tracks; [discriminate|].
  cbn [fetch]. destruct (api offset) as [|status json]; [discriminate|].
  destruct (negb _); [discriminate|].
  destruct json as [[items b]|]; [|discriminate].
  destruct items as [|it its]; [intros H; now injection H as <-|].
  destruct (collect (it :: its) acc) as [tr|] eqn:Hc; [|discriminate].
  intros H Hacc. pose proof (collect_four_cells _ _ _ Hc Hacc) as Htr.
  destruct b; [now apply (IH _ _ _ H) | now injection H as <-].
Qed.

(** X21: the shape of what [get_live_data] returns.  Whatever the API
    answers, a frame returned by the call has the four columns
    [track_name], [artists], [popularity], [track_uri], at least one row,
    and four cells in every row; without a token ([None] or the empty
    string) the call returns [None]. *)
Theorem get_live_data_frame_shape (access_token : result (option string))
        (rounds : nat) :
  (forall df,
      get_live_data api access_token rounds = Some (Returned (Some df)) ->
      columns df = ["track_name"; "artists"; "popularity"; "track_uri"]
      /\ rows df <> []
      /\ Forall (fun r => length r = 4%nat) (rows df))
  /\ (access_token = Returned None \/ access_token = Returned (Some "") ->
      get_live_data api access_token rounds = Some (Returned None)).
Proof.
  split.
  - intros df. unfold get_live_data.
    destruct access_token as [[token|]|e]; try discriminate.
    destruct (String.eqb token ""); [discriminate|].
    destruct (fetch api rounds 0 []) as [[[|r tracks]|]|] eqn:Hf;
      try discriminate.
    intros H. injection H as <-.
    split; [reflexivity|]. split; [discriminate|].
    apply DataFrame_of_rows_four_cells.
    apply (fetch_four_cells _ _ _ _ Hf). constructor.
  - intros [-> | ->]; reflexivity.
Qed.
End LiveDataFacts.

Lemma get_live_data_pages_witness :
  get_live_data ApiSamples.one_page (Returned (Some "token")) 5
  = Some (Returned
            (Some (mkDF ["track_name"; "artists"; "popularity"; "track_uri"]
                        [[Str "Song A"; Str "Artist X"; Num 50; Str "uri:a"];
                         [Str "Song C"; Str ""; NaN; Str "uri:c"]]))).
Proof.
  apply (get_live_data_pages ApiSamples.one_page ApiSamples.items_one_page
           "token" 0 5 false).
  - discriminate.
  - intros i Hi. lia.
  - reflexivity.
  - discriminate.
  - now right.
  - lia.
Defined.

Lemma get_live_data_bad_page_witness :
  get_live_data ApiSamples.rate_limited (Returned (Some "token")) 5
  = Some (Returned None).
Proof.
  apply (get_live_data_bad_page ApiSamples.rate_limited ApiSamples.items_of
           "token" 1 5).
  - discriminate.
  - intros i Hi. assert (i = 0%nat) as -> by lia.
    repeat split; discriminate.
  - right. left. exists 429%Z, None. split; [reflexivity | discriminate].
  - lia.
Defined.
